(** * FocusFlow detection backend: proximity classifiers and smoothing window

    A shallow embedding of [backend/main.py].

    Numbers.  The coordinates, sizes and visibilities of the program are
    Python floats, that is IEEE 754 binary64 values; they are modelled by
    Rocq's primitive floats, which are the same binary64 values with the
    same correctly rounded operations and the same comparisons (every
    comparison with a NaN is false).  [v ** 2] is CPython's [float_pow]:
    it settles NaN, the infinities, zero and one itself, hands every other
    value to the platform's [pow], which is a parameter here, and raises
    [OverflowError] when the result overflows.  Vote counts and the
    window size are Python ints; they are modelled by [nat] and [Z], and
    the true division [window_size / 2] by an exact rational.

    Errors.  A Python call either returns a value or raises; a computation
    is an [outcome].  List indexing raises [IndexError] out of range, and
    the classifiers raise what the distance raises.

    State.  The module-level [smoother] is threaded explicitly through the
    endpoint: a handler is a function from the window state to an outcome
    and the window state it leaves behind.

    Collaborators.  The upload, the image codec, the clock, the platform's
    [pow] and the two MediaPipe models are parameters; [MediaPipeDetector]
    is modelled over the [detect] methods of its models. *)

From Stdlib Require Import String Ascii DecimalString ZArith List Bool Lia QArith Floats.
From Stdlib Require Import Permutation.
Import ListNotations.

Set Warnings "-inexact-float".

Local Open Scope float_scope.

(** ** Exceptions and outcomes *)

Inductive exn : Type :=
| IndexError
| ValueError
| OverflowError
| HTTPException (status_code : Z) (detail : string)
| OtherError (message : string).

Inductive outcome (A : Type) : Type :=
| Returns (a : A)
| Raises (e : exn).

Arguments Returns {A} a.
Arguments Raises {A} e.

Definition obind {A B : Type} (m : outcome A) (k : A -> outcome B) : outcome B :=
  match m with
  | Returns a => k a
  | Raises e => Raises e
  end.

Declare Scope outcome_scope.
Delimit Scope outcome_scope with outcome.
Notation "v <- m ;; k" := (obind m (fun v => k))
  (at level 61, m at next level, right associativity) : outcome_scope.

(** ** Response models *)

Record BoundingBox : Type := mkBoundingBox {
  x_min : float;
  y_min : float;
  width : float;
  height : float;
  confidence : float
}.

Record Keypoint : Type := mkKeypoint {
  x : float;
  y : float;
  z : float;
  visibility : float;
  name : string
}.

(** [keypoints[i]]: raises [IndexError] when [i] is out of range. *)
Definition getitem (keypoints : list Keypoint) (i : nat) : outcome Keypoint :=
  match nth_error keypoints i with
  | Some k => Returns k
  | None => Raises IndexError
  end.

(** [not keypoints]: a list is falsy exactly when it is empty. *)
Definition py_not {A : Type} (l : list A) : bool :=
  match l with
  | [] => true
  | _ :: _ => false
  end.

(** ** Geometry primitives *)

Definition get_phone_center (phone_box : BoundingBox) : float * float :=
  let center_x := x_min phone_box + width phone_box / 2 in
  let center_y := y_min phone_box + height phone_box / 2 in
  (center_x, center_y).

(** [min(l)] and [max(l)] on a list of floats: the builtins keep the first
    item and replace it by a later one only when that one compares strictly
    smaller (larger); on an empty list they raise [ValueError]. *)
Definition py_min (l : list float) : outcome float :=
  match l with
  | [] => Raises ValueError
  | first :: rest =>
      Returns (fold_left (fun minval item => if item <? minval then item else minval)
                         rest first)
  end.

Definition py_max (l : list float) : outcome float :=
  match l with
  | [] => Raises ValueError
  | first :: rest =>
      Returns (fold_left (fun maxval item => if maxval <? item then item else maxval)
                         rest first)
  end.

Record FaceBBox : Type := mkFaceBBox {
  face_x_min : float;
  face_x_max : float;
  face_y_min : float;
  face_y_max : float
}.

Section Classifiers.

(** The platform's [pow]. *)
Variable libm_pow : float -> float -> float.

(** [v ** 2] on a float, branch by branch as [float_pow] has them for the
    exponent 2.0: a NaN is returned; an infinity gives its absolute value;
    a zero gives 0.0; a negative value is replaced by its opposite; 1.0
    gives 1.0; every other value goes to [pow], and a result that is an
    infinity raises [OverflowError].  The [errno] of [pow] is read as the
    C library sets it, a range error with an infinite or a zero result;
    [float_pow] drops the range error of a zero result. *)
Definition float_pow2 (v : float) : outcome float :=
  if is_nan v then Returns v
  else if is_infinity v then Returns (abs v)
  else if v =? 0 then Returns 0
  else
    let iv := if v <? 0 then - v else v in
    if iv =? 1 then Returns 1
    else
      let ix := libm_pow iv 2 in
      if is_infinity ix then Raises OverflowError else Returns ix.

Definition distance (p1 p2 : float * float) : outcome float :=
  (dx2 <- float_pow2 (fst p1 - fst p2) ;;
   dy2 <- float_pow2 (snd p1 - snd p2) ;;
   Returns (sqrt (dx2 + dy2)))%outcome.

(** ** Proximity classifiers *)

Definition is_phone_near_left_ear
    (phone_box : BoundingBox) (keypoints : list Keypoint) : outcome bool :=
  if py_not keypoints || (length keypoints <? 16)%nat then Returns false else
  (left_ear <- getitem keypoints 7 ;;
   left_wrist <- getitem keypoints 15 ;;
   left_shoulder <- getitem keypoints 11 ;;
   if visibility left_ear <? 0.3 then Returns false else
   let phone_center := get_phone_center phone_box in
   let ear_pos := (x left_ear, y left_ear) in
   dist_to_ear <- distance phone_center ear_pos ;;
   let EAR_THRESHOLD := 140 in
   let CLOSE_THRESHOLD := 100 in
   if dist_to_ear <? CLOSE_THRESHOLD then Returns true else
   let wrist_raised :=
     (0.3 <? visibility left_wrist) && (y left_wrist <? y left_shoulder) in
   let result := (dist_to_ear <? EAR_THRESHOLD) && wrist_raised in
   Returns result)%outcome.

Definition is_phone_near_right_ear
    (phone_box : BoundingBox) (keypoints : list Keypoint) : outcome bool :=
  if py_not keypoints || (length keypoints <? 17)%nat then Returns false else
  (right_ear <- getitem keypoints 8 ;;
   right_wrist <- getitem keypoints 16 ;;
   right_shoulder <- getitem keypoints 12 ;;
   if visibility right_ear <? 0.3 then Returns false else
   let phone_center := get_phone_center phone_box in
   let ear_pos := (x right_ear, y right_ear) in
   dist_to_ear <- distance phone_center ear_pos ;;
   let EAR_THRESHOLD := 140 in
   let CLOSE_THRESHOLD := 100 in
   if dist_to_ear <? CLOSE_THRESHOLD then Returns true else
   let wrist_raised :=
     (0.3 <? visibility right_wrist) && (y right_wrist <? y right_shoulder) in
   let result := (dist_to_ear <? EAR_THRESHOLD) && wrist_raised in
   Returns result)%outcome.

Definition is_phone_in_front_of_face
    (phone_box : BoundingBox) (keypoints : list Keypoint) : outcome bool :=
  if py_not keypoints || (length keypoints <? 17)%nat then Returns false else
  (nose <- getitem keypoints 0 ;;
   left_eye <- getitem keypoints 2 ;;
   right_eye <- getitem keypoints 5 ;;
   left_ear <- getitem keypoints 7 ;;
   right_ear <- getitem keypoints 8 ;;
   left_wrist <- getitem keypoints 15 ;;
   right_wrist <- getitem keypoints 16 ;;
   if visibility nose <? 0.3 then Returns false else
   let FACE_MARGIN := 120 in
   let face_points := [nose; left_eye; right_eye; left_ear; right_ear] in
   let visible_face_points := filter (fun p => 0.2 <? visibility p) face_points in
   if py_not visible_face_points then Returns false else
   let face_x_coords := map x visible_face_points in
   let face_y_coords := map y visible_face_points in
   min_x <- py_min face_x_coords ;;
   max_x <- py_max face_x_coords ;;
   min_y <- py_min face_y_coords ;;
   max_y <- py_max face_y_coords ;;
   let face_bbox := {| face_x_min := min_x - FACE_MARGIN;
                       face_x_max := max_x + FACE_MARGIN;
                       face_y_min := min_y - FACE_MARGIN;
                       face_y_max := max_y + FACE_MARGIN |} in
   let phone_center := get_phone_center phone_box in
   let phone_in_face_area :=
     ((face_x_min face_bbox <=? fst phone_center)
        && (fst phone_center <=? face_x_max face_bbox))
     && ((face_y_min face_bbox <=? snd phone_center)
        && (snd phone_center <=? face_y_max face_bbox)) in
   let nose_pos := (x nose, y nose) in
   dist_to_nose <- distance phone_center nose_pos ;;
   let wrist_visible :=
     (0.3 <? visibility left_wrist) || (0.3 <? visibility right_wrist) in
   let NOSE_THRESHOLD := 200 in
   Returns (phone_in_face_area && (dist_to_nose <? NOSE_THRESHOLD) && wrist_visible)
  )%outcome.

End Classifiers.

(** ** Detection state and smoothing *)

(** [collections.deque(maxlen=n)]: [append] adds on the right and, when the
    length then exceeds [maxlen], drops the leftmost item. *)
Record deque (A : Type) : Type := mkDeque {
  maxlen : nat;
  items : list A
}.

Arguments mkDeque {A} maxlen items.
Arguments maxlen {A} d.
Arguments items {A} d.

Definition deque_append {A : Type} (d : deque A) (v : A) : deque A :=
  let appended := items d ++ [v] in
  {| maxlen := maxlen d;
     items := if (maxlen d <? length appended)%nat then tl appended else appended |}.

Record Detection : Type := mkDetection {
  phone : bool;
  left_ear : bool;
  right_ear : bool;
  front_face : bool;
  timestamp : float
}.

Record DetectionSmoothing : Type := mkDetectionSmoothing {
  window_size : nat;
  phone_detections : deque Detection;
  last_detection_time : Z;
  debounce_ms : Z
}.

(** [DetectionSmoothing.__init__] *)
Definition DetectionSmoothing_init (window_size : nat) : DetectionSmoothing :=
  {| window_size := window_size;
     phone_detections := mkDeque window_size [];
     last_detection_time := 0;
     debounce_ms := 300 |}.

(** [add_detection]; [time_ms] is the reading [time.time() * 1000]. *)
Definition add_detection (self : DetectionSmoothing)
    (phone_detected near_left near_right in_front : bool) (time_ms : float)
    : DetectionSmoothing :=
  {| window_size := window_size self;
     phone_detections :=
       deque_append (phone_detections self)
         {| phone := phone_detected;
            left_ear := near_left;
            right_ear := near_right;
            front_face := in_front;
            timestamp := time_ms |};
     last_detection_time := last_detection_time self;
     debounce_ms := debounce_ms self |}.

(** The dictionary [get_smoothed_result] returns. *)
Module Smoothed.
Record t : Type := mk {
  phone_detected : bool;
  phone_near_left_ear : bool;
  phone_near_right_ear : bool;
  phone_in_front_of_face : bool
}.
End Smoothed.

(** [sum(1 for d in detections if d[channel])] *)
Definition votes (channel : Detection -> bool) (detections : list Detection) : Z :=
  fold_right Z.add 0%Z (map (fun _ => 1%Z) (filter channel detections)).

(** [votes > threshold] for an int and the quotient [window_size / 2] of
    two ints: the quotient is a float that holds the exact half for every
    window size below 2^53, and Python compares an int with a float by
    their exact values. *)
Definition gt_threshold (n : Z) (threshold : Q) : bool :=
  negb (Qle_bool (inject_Z n) threshold).

Definition get_smoothed_result (self : DetectionSmoothing) : Smoothed.t :=
  if py_not (items (phone_detections self)) then
    {| Smoothed.phone_detected := false;
       Smoothed.phone_near_left_ear := false;
       Smoothed.phone_near_right_ear := false;
       Smoothed.phone_in_front_of_face := false |}
  else
    let phone_votes := votes phone (items (phone_detections self)) in
    let left_votes := votes left_ear (items (phone_detections self)) in
    let right_votes := votes right_ear (items (phone_detections self)) in
    let front_votes := votes front_face (items (phone_detections self)) in
    let threshold := (inject_Z (Z.of_nat (window_size self)) / 2)%Q in
    {| Smoothed.phone_detected := gt_threshold phone_votes threshold;
       Smoothed.phone_near_left_ear := gt_threshold left_votes threshold;
       Smoothed.phone_near_right_ear := gt_threshold right_votes threshold;
       Smoothed.phone_in_front_of_face := gt_threshold front_votes threshold |}.

(** The global smoothing instance. *)
Definition smoother : DetectionSmoothing := DetectionSmoothing_init 5.

(** ** Orchestration: the proximity loop of the endpoint *)

(** The three per-frame flags the loop assigns. *)
Record Flags : Type := mkFlags {
  flag_left_ear : bool;
  flag_right_ear : bool;
  flag_front_face : bool
}.

Definition no_flags : Flags := mkFlags false false false.

Definition flags_or (a b : Flags) : Flags :=
  mkFlags (flag_left_ear a || flag_left_ear b)
          (flag_right_ear a || flag_right_ear b)
          (flag_front_face a || flag_front_face b).

Definition at_most_one (f : Flags) : bool :=
  match flag_left_ear f, flag_right_ear f, flag_front_face f with
  | true, true, _ | true, _, true | _, true, true => false
  | _, _, _ => true
  end.

Section Orchestration.

(** The loop is written over the three predicates it calls, so that what
    it does when one of them is not reached can be stated. *)
Variables near_left near_right in_front :
  BoundingBox -> list Keypoint -> outcome bool.

(** The body of [for phone_box in phone_boxes]: an [if]/[elif]/[elif]. *)
Definition check_phone (keypoints : list Keypoint) (flags : Flags)
    (phone_box : BoundingBox) : outcome Flags :=
  (l <- near_left phone_box keypoints ;;
   if l then
     Returns (mkFlags true (flag_right_ear flags) (flag_front_face flags))
   else
     r <- near_right phone_box keypoints ;;
     if r then
       Returns (mkFlags (flag_left_ear flags) true (flag_front_face flags))
     else
       f <- in_front phone_box keypoints ;;
       if f then
         Returns (mkFlags (flag_left_ear flags) (flag_right_ear flags) true)
       else Returns flags)%outcome.

Fixpoint check_phones (keypoints : list Keypoint) (flags : Flags)
    (phone_boxes : list BoundingBox) : outcome Flags :=
  match phone_boxes with
  | [] => Returns flags
  | phone_box :: rest =>
      (flags' <- check_phone keypoints flags phone_box ;;
       check_phones keypoints flags' rest)%outcome
  end.

End Orchestration.

(** The loop as the endpoint runs it. *)
Definition proximity_flags (libm_pow : float -> float -> float)
    (keypoints : list Keypoint) (phone_boxes : list BoundingBox) : outcome Flags :=
  check_phones (is_phone_near_left_ear libm_pow) (is_phone_near_right_ear libm_pow)
    (is_phone_in_front_of_face libm_pow) keypoints no_flags phone_boxes.

(** ** The request handler *)

(** A handler reads and updates the window state and returns or raises; the
    state it leaves behind is kept when it raises, as Python keeps it. *)
Definition handler (A : Type) : Type :=
  DetectionSmoothing -> outcome A * DetectionSmoothing.

Definition ret {A : Type} (a : A) : handler A := fun s => (Returns a, s).

Definition raise {A : Type} (e : exn) : handler A := fun s => (Raises e, s).

Definition lift {A : Type} (m : outcome A) : handler A := fun s => (m, s).

Definition bind {A B : Type} (m : handler A) (k : A -> handler B) : handler B :=
  fun s =>
    match m s with
    | (Returns a, s') => k a s'
    | (Raises e, s') => (Raises e, s')
    end.

(** [try: body except Exception as e: handle(e)] *)
Definition try_except {A : Type} (body : handler A) (handle : exn -> handler A)
    : handler A :=
  fun s =>
    match body s with
    | (Returns a, s') => (Returns a, s')
    | (Raises e, s') => handle e s'
    end.

Declare Scope handler_scope.
Delimit Scope handler_scope with handler.
Notation "v <- m ;; k" := (bind m (fun v => k))
  (at level 61, m at next level, right associativity) : handler_scope.

Record PoseResult : Type := mkPoseResult {
  keypoints : list Keypoint;
  image_width : Z;
  image_height : Z
}.

Module DetectionResult.
Record t : Type := mk {
  phone_detected : bool;
  phone_boxes : list BoundingBox;
  pose_detected : bool;
  keypoints : list Keypoint;
  phone_near_left_ear : bool;
  phone_near_right_ear : bool;
  phone_in_front_of_face : bool;
  face_detected : bool;
  processing_time_ms : float;
  backend : string
}.
End DetectionResult.

Definition is_not_None {A : Type} (o : option A) : bool :=
  match o with
  | Some _ => true
  | None => false
  end.

Section Endpoint.

(** The collaborators of the endpoint: the upload, the image codec, the
    two perception models, the clock, the platform's [pow] and the text of
    an exception.  Each call may raise. *)
Variable libm_pow : float -> float -> float.
Variables UploadFile Image : Type.
Variable file_read : UploadFile -> outcome (list Byte.byte).
Variable imdecode : list Byte.byte -> outcome (option Image).
Variable cvtColor : Image -> outcome Image.
Variable detect_objects : Image -> outcome (list BoundingBox).
Variable detect_pose : Image -> outcome (option PoseResult).
Variable str : exn -> string.
Variable round2 : float -> float.
Variables start_time push_time end_time : float.

(** The body of the [try] block of [detect]. *)
Definition detect_body (file : UploadFile) : handler DetectionResult.t :=
  (contents <- lift (file_read file) ;;
   image <- lift (imdecode contents) ;;
   match image with
   | None => raise (HTTPException 400 "Invalid image format")
   | Some image =>
     image_rgb <- lift (cvtColor image) ;;
     phone_boxes <- lift (detect_objects image_rgb) ;;
     pose_result <- lift (detect_pose image_rgb) ;;
     let pose_detected := is_not_None pose_result in
     let keypoints :=
       match pose_result with
       | Some p => keypoints p
       | None => []
       end in
     face_detected <-
       (if py_not keypoints then ret false
        else nose <- lift (getitem keypoints 0) ;;
             ret (0.2 <? visibility nose)) ;;
     let phone_detected := (0 <? length phone_boxes)%nat in
     flags <-
       (if phone_detected && pose_detected
        then lift (proximity_flags libm_pow keypoints phone_boxes)
        else ret no_flags) ;;
     let phone_near_left_ear := flag_left_ear flags in
     let phone_near_right_ear := flag_right_ear flags in
     let phone_in_front_of_face := flag_front_face flags in
     _ <- (fun smoother =>
             (Returns tt,
              add_detection smoother
                (phone_detected
                 && (phone_near_left_ear || phone_near_right_ear
                     || phone_in_front_of_face))
                phone_near_left_ear
                phone_near_right_ear
                phone_in_front_of_face
                (push_time * 1000))) ;;
     smoothed <- (fun smoother => (Returns (get_smoothed_result smoother), smoother)) ;;
     let processing_time := (end_time - start_time) * 1000 in
     ret (DetectionResult.mk
            (Smoothed.phone_detected smoothed)
            phone_boxes
            pose_detected
            keypoints
            (Smoothed.phone_near_left_ear smoothed)
            (Smoothed.phone_near_right_ear smoothed)
            (Smoothed.phone_in_front_of_face smoothed)
            face_detected
            (round2 processing_time)
            "mediapipe-cpu")
   end)%handler.

(** [detect]: any exception of the body, the 400 raised inside it
    included, reaches the [except Exception] clause. *)
Definition detect (file : UploadFile) : handler DetectionResult.t :=
  try_except (detect_body file)
    (fun e => raise (HTTPException 500 ("Detection failed: " ++ str e))).

(** A step of [detect] before the push into the smoothing window raises
    [e]: reading the upload, decoding it (the codec raises, or returns no
    image and the handler raises the 400), the colour conversion, object
    detection, pose detection, or the proximity loop. *)
Inductive raises_before_push (file : UploadFile) : exn -> Prop :=
| read_raises e :
    file_read file = Raises e ->
    raises_before_push file e
| decode_raises contents e :
    file_read file = Returns contents ->
    imdecode contents = Raises e ->
    raises_before_push file e
| decode_rejects contents :
    file_read file = Returns contents ->
    imdecode contents = Returns None ->
    raises_before_push file (HTTPException 400 "Invalid image format")
| convert_raises contents image e :
    file_read file = Returns contents ->
    imdecode contents = Returns (Some image) ->
    cvtColor image = Raises e ->
    raises_before_push file e
| objects_raise contents image image_rgb e :
    file_read file = Returns contents ->
    imdecode contents = Returns (Some image) ->
    cvtColor image = Returns image_rgb ->
    detect_objects image_rgb = Raises e ->
    raises_before_push file e
| pose_raises contents image image_rgb phone_boxes e :
    file_read file = Returns contents ->
    imdecode contents = Returns (Some image) ->
    cvtColor image = Returns image_rgb ->
    detect_objects image_rgb = Returns phone_boxes ->
    detect_pose image_rgb = Raises e ->
    raises_before_push file e
| proximity_raises contents image image_rgb phone_box phone_boxes pose e :
    file_read file = Returns contents ->
    imdecode contents = Returns (Some image) ->
    cvtColor image = Returns image_rgb ->
    detect_objects image_rgb = Returns (phone_box :: phone_boxes) ->
    detect_pose image_rgb = Returns (Some pose) ->
    proximity_flags libm_pow (keypoints pose) (phone_box :: phone_boxes) = Raises e ->
    raises_before_push file e.

End Endpoint.

(** ** Vocabulary of the statements *)

(** The keypoint at a position of a sequence long enough to have it. *)
Definition at_index (keypoints : list Keypoint) (i : nat) : Keypoint :=
  nth i keypoints (mkKeypoint 0 0 0 0 "").

(** The five facial keypoints: nose, left eye, right eye, left ear, right ear. *)
Definition face_points (keypoints : list Keypoint) : list Keypoint :=
  [at_index keypoints 0; at_index keypoints 2; at_index keypoints 5;
   at_index keypoints 7; at_index keypoints 8].

Definition visible_face_points (keypoints : list Keypoint) : list Keypoint :=
  filter (fun p => 0.2 <? visibility p) (face_points keypoints).

(** A point lies in the min/max region of [points] grown by [margin] on
    every side, bounds included. *)
Definition within_expanded_region
    (points : list Keypoint) (margin : float) (c : float * float) : bool :=
  match py_min (map x points), py_max (map x points),
        py_min (map y points), py_max (map y points) with
  | Returns lo_x, Returns hi_x, Returns lo_y, Returns hi_y =>
      ((lo_x - margin <=? fst c) && (fst c <=? hi_x + margin))
      && ((lo_y - margin <=? snd c) && (snd c <=? hi_y + margin))
  | _, _, _, _ => false
  end.

(** Neither an infinity nor a NaN. *)
Definition is_finite (v : float) : bool :=
  match Prim2SF v with
  | S754_zero _ | S754_finite _ _ _ => true
  | S754_infinity _ | S754_nan => false
  end.

(** The center of a box, written out: [x_min + width / 2] and
    [y_min + height / 2]. *)
Definition box_center (phone_box : BoundingBox) : float * float :=
  (x_min phone_box + width phone_box / 2, y_min phone_box + height phone_box / 2).

(** The distance of the center of a box to a keypoint, written out: the
    square root of the sum of the two squared differences, when both
    squares are computed. *)
Definition center_distance (libm_pow : float -> float -> float)
    (phone_box : BoundingBox) (p : Keypoint) : outcome float :=
  match float_pow2 libm_pow (x_min phone_box + width phone_box / 2 - x p),
        float_pow2 libm_pow (y_min phone_box + height phone_box / 2 - y p) with
  | Returns dx2, Returns dy2 => Returns (sqrt (dx2 + dy2))
  | Raises e, _ => Raises e
  | Returns _, Raises e => Raises e
  end.

(** No coordinate of the points is a NaN. *)
Definition no_nan_coordinates (points : list Keypoint) : Prop :=
  forall p, In p points -> (x p =? x p) = true /\ (y p =? y p) = true.

(** The point [(cx, cy)] lies in the region that spans the points, grown
    by 120 on every side: it is not left of the leftmost point by more
    than 120, not right of the rightmost one by more than 120, and the
    same for above and below. *)
Definition grown_region (points : list Keypoint) (cx cy : float) : Prop :=
  (exists p, In p points
             /\ (forall q, In q points -> (x p <=? x q) = true)
             /\ (x p - 120 <=? cx) = true)
  /\ (exists p, In p points
                /\ (forall q, In q points -> (x q <=? x p) = true)
                /\ (cx <=? x p + 120) = true)
  /\ (exists p, In p points
                /\ (forall q, In q points -> (y p <=? y q) = true)
                /\ (y p - 120 <=? cy) = true)
  /\ (exists p, In p points
                /\ (forall q, In q points -> (y q <=? y p) = true)
                /\ (cy <=? y p + 120) = true).

(** [wrist.visibility > 0.3 and wrist.y < shoulder.y] *)
Definition wrist_is_raised (wrist shoulder : Keypoint) : bool :=
  (0.3 <? visibility wrist) && (y wrist <? y shoulder).

(** [add_detection] with the channels and the time of a tuple. *)
Definition push (self : DetectionSmoothing) (d : Detection) : DetectionSmoothing :=
  add_detection self (phone d) (left_ear d) (right_ear d) (front_face d) (timestamp d).

Definition window (self : DetectionSmoothing) : list Detection :=
  items (phone_detections self).

Definition all_false : Smoothed.t := Smoothed.mk false false false false.

(** ** Sample frames *)

(** A platform [pow] that rounds the square correctly; the program calls
    [pow] with the exponent 2.0 only. *)
Definition sample_pow (v w : float) : float := v * v.

Definition kp (px py vis : float) : Keypoint := mkKeypoint px py 0 vis "".

Definition hidden : Keypoint := kp 0 0 0.

(** A pose of 33 keypoints with the given nose, eyes, ears, shoulders and
    wrists at their positions and every other landmark hidden. *)
Definition pose_of (nose l_eye r_eye l_ear r_ear l_shoulder r_shoulder
                    l_wrist r_wrist : Keypoint) : list Keypoint :=
  [nose; hidden; l_eye; hidden; hidden; r_eye; hidden; l_ear; r_ear;
   hidden; hidden; l_shoulder; r_shoulder; hidden; hidden; l_wrist; r_wrist]
  ++ repeat hidden 16.

(** The phone box of the end-to-end scenarios: its center is (120, 80). *)
Definition sample_box : BoundingBox := mkBoundingBox 100 50 40 60 0.9.

(** A phone box centered at the origin. *)
Definition origin_box : BoundingBox := mkBoundingBox (-20) (-30) 40 60 0.9.

(** Both ears at the center of [sample_box], no wrist visible. *)
Definition pose_ear_at_phone : list Keypoint :=
  pose_of hidden hidden hidden (kp 120 80 0.9) (kp 120 80 0.9)
          (kp 0 200 0.9) (kp 0 200 0.9) hidden hidden.

(** The first end-to-end scenario: left ear at (130, 85), about 11.2 from the
    center of [sample_box]; the left wrist is not visible. *)
Definition pose_ear_near : list Keypoint :=
  pose_of hidden hidden hidden (kp 130 85 0.9) hidden
          (kp 0 200 0.9) (kp 0 200 0.9) hidden hidden.

(** Both ears at distance [d] on the x axis from the center of
    [origin_box], both wrists visible and above the shoulders. *)
Definition pose_ear_at_distance (d : float) : list Keypoint :=
  pose_of hidden hidden hidden (kp d 0 0.9) (kp d 0 0.9)
          (kp 0 200 0.9) (kp 0 200 0.9) (kp 0 40 0.9) (kp 0 40 0.9).

(** Nose at (120, 80) and clearly visible, left eye at (200, 80) with
    visibility exactly 0.2, left wrist visible below the shoulder. *)
Definition pose_face : list Keypoint :=
  pose_of (kp 120 80 0.9) (kp 200 80 0.2) hidden hidden hidden
          (kp 0 200 0.9) (kp 0 200 0.9) (kp 0 400 0.9) hidden.

(** Nose at (120, 80), left ear at (60, 300) and right ear at (10, 20), all
    visible: the region of the points spans 10 to 120 across and 20 to 300
    down, and no bound comes from the first point alone. *)
Definition pose_two_faces : list Keypoint :=
  pose_of (kp 120 80 0.9) hidden hidden (kp 60 300 0.9) (kp 10 20 0.9)
          (kp 0 200 0.9) (kp 0 200 0.9) (kp 0 400 0.9) hidden.

(** A phone box centered at (-50, 0): left of the nose by more than 120,
    within 120 of the right ear. *)
Definition left_box : BoundingBox := mkBoundingBox (-70) (-30) 40 60 0.9.

(** A phone box centered at (300, 80). *)
Definition far_right_box : BoundingBox := mkBoundingBox 280 50 40 60 0.9.

(** The keypoints of a pose result, or none without one. *)
Definition keypoints_of (pose_result : option PoseResult) : list Keypoint :=
  match pose_result with
  | Some p => keypoints p
  | None => []
  end.

(** Sample collaborators: an upload is its bytes, an image is the bytes it
    was decoded from, and a buffer that starts with a zero byte does not
    decode. *)

Definition sample_imdecode (contents : list Byte.byte)
    : outcome (option (list Byte.byte)) :=
  match contents with
  | [] => Raises (OtherError "empty buffer")
  | Byte.x00 :: _ => Returns None
  | _ :: _ => Returns (Some contents)
  end.

(** [str(e)]: Starlette prints an [HTTPException] as its status code, a
    colon and its detail. *)
Definition sample_str (e : exn) : string :=
  match e with
  | IndexError => "list index out of range"
  | ValueError => "min() arg is an empty sequence"
  | OverflowError => "(34, 'Numerical result out of range')"
  | HTTPException status_code detail =>
      NilZero.string_of_int (Z.to_int status_code) ++ ": " ++ detail
  | OtherError message => message
  end.

Definition sample_detect
    (detect_objects : list Byte.byte -> outcome (list BoundingBox))
    (detect_pose : list Byte.byte -> outcome (option PoseResult))
    : list Byte.byte -> handler DetectionResult.t :=
  detect sample_pow (list Byte.byte) (list Byte.byte)
    (fun file => Returns file) sample_imdecode (fun image => Returns image)
    detect_objects detect_pose sample_str (fun t => t) 0 0 0.

(** ** MediaPipeDetector *)

(** What the two MediaPipe models return. *)
Module MP.
Record BoundingBox : Type := mkBoundingBox {
  origin_x : Z;
  origin_y : Z;
  width : Z;
  height : Z
}.
Record Category : Type := mkCategory {
  category_name : string;
  score : float
}.
Record Detection : Type := mkDetection {
  bounding_box : BoundingBox;
  categories : list Category
}.
Record Landmark : Type := mkLandmark {
  x : float;
  y : float;
  z : float;
  visibility : float
}.
End MP.

(** The float of a Python int, rounded to nearest even as Python rounds
    it.  (Python raises on an int beyond the float range; pixel counts are
    far below it.) *)
Definition float_of_Z (n : Z) : float :=
  SF2Prim (binary_normalize prec emax n 0 false).

(** [s.lower()] on the bytes of a UTF-8 string: the letters A-Z are
    lowered and every other byte is left.  (Python also lowers letters
    outside ASCII; that neither makes nor removes an occurrence of the
    ASCII words "phone" and "cell" searched for below.) *)
Definition lower_char (c : ascii) : ascii :=
  let n := nat_of_ascii c in
  if (65 <=? n)%nat && (n <=? 90)%nat then ascii_of_nat (n + 32) else c.

Fixpoint lower (s : string) : string :=
  match s with
  | EmptyString => EmptyString
  | String c rest => String (lower_char c) (lower rest)
  end.

(** [needle in hay] *)
Fixpoint str_in (needle hay : string) : bool :=
  prefix needle hay
  || match hay with
     | EmptyString => false
     | String _ rest => str_in needle rest
     end.

(** The test of the category loop of [detect_objects]. *)
Definition is_phone_category (category : MP.Category) : bool :=
  str_in "phone" (lower (MP.category_name category))
  || str_in "cell" (lower (MP.category_name category)).

(** An entry of [phones]: the five numeric keys and the category. *)
Record PhoneDict : Type := mkPhoneDict {
  phone_box_of : BoundingBox;
  category : string
}.

(** [for category in detection.categories]: the first matching category
    appends one entry and breaks. *)
Fixpoint scan_categories (bbox : MP.BoundingBox) (categories : list MP.Category)
    (phones : list PhoneDict) : list PhoneDict :=
  match categories with
  | [] => phones
  | category :: rest =>
      if is_phone_category category then
        phones ++ [ {| phone_box_of :=
                         {| x_min := float_of_Z (MP.origin_x bbox);
                            y_min := float_of_Z (MP.origin_y bbox);
                            width := float_of_Z (MP.width bbox);
                            height := float_of_Z (MP.height bbox);
                            confidence := MP.score category |};
                       category := MP.category_name category |} ]
      else scan_categories bbox rest phones
  end.

(** [for detection in detection_result.detections] *)
Fixpoint scan_detections (detections : list MP.Detection) (phones : list PhoneDict)
    : list PhoneDict :=
  match detections with
  | [] => phones
  | detection :: rest =>
      scan_detections rest
        (scan_categories (MP.bounding_box detection) (MP.categories detection) phones)
  end.

Definition landmark_names : list string :=
  ["nose"; "left_eye_inner"; "left_eye"; "left_eye_outer";
   "right_eye_inner"; "right_eye"; "right_eye_outer";
   "left_ear"; "right_ear"; "mouth_left"; "mouth_right";
   "left_shoulder"; "right_shoulder"; "left_elbow"; "right_elbow";
   "left_wrist"; "right_wrist"; "left_pinky"; "right_pinky";
   "left_index"; "right_index"; "left_thumb"; "right_thumb";
   "left_hip"; "right_hip"; "left_knee"; "right_knee";
   "left_ankle"; "right_ankle"; "left_heel"; "right_heel";
   "left_foot_index"; "right_foot_index"]%string.

(** [landmark_names[idx] if idx < len(landmark_names) else f'point_{idx}'] *)
Definition landmark_name (idx : nat) : string :=
  if (idx <? length landmark_names)%nat then nth idx landmark_names ""%string
  else ("point_" ++ NilEmpty.string_of_uint (Nat.to_uint idx))%string.

(** [for idx, landmark in enumerate(landmarks)], from index [idx] on. *)
Fixpoint extract_keypoints (width height : Z) (idx : nat)
    (landmarks : list MP.Landmark) (keypoints : list Keypoint) : list Keypoint :=
  match landmarks with
  | [] => keypoints
  | landmark :: rest =>
      extract_keypoints width height (S idx) rest
        (keypoints ++ [ {| x := MP.x landmark * float_of_Z width;
                           y := MP.y landmark * float_of_Z height;
                           z := MP.z landmark;
                           visibility := MP.visibility landmark;
                           name := landmark_name idx |} ])
  end.

Section Detector.

(** Images and their [shape[:2]], height first. *)
Variable Image : Type.
Variable shape : Image -> Z * Z.

(** A loaded model is its [detect] method.  The object detector returns
    the [detections] of its result, the pose landmarker the
    [pose_landmarks]. *)
Record MediaPipeDetector : Type := mkMediaPipeDetector {
  object_detector : option (Image -> outcome (list MP.Detection));
  pose_landmarker : option (Image -> outcome (list (list MP.Landmark)))
}.

(** [initialize_models]: each model is created inside a [try] whose
    [except Exception] only prints. *)
Definition initialize_models
    (create_object_detector : outcome (Image -> outcome (list MP.Detection)))
    (create_pose_landmarker : outcome (Image -> outcome (list (list MP.Landmark))))
    : MediaPipeDetector :=
  {| object_detector :=
       match create_object_detector with
       | Returns model => Some model
       | Raises _ => None
       end;
     pose_landmarker :=
       match create_pose_landmarker with
       | Returns model => Some model
       | Raises _ => None
       end |}.

Definition detect_objects (self : MediaPipeDetector) (image : Image)
    : outcome (list PhoneDict) :=
  match object_detector self with
  | None => Returns []
  | Some model =>
      (detections <- model image ;;
       Returns (scan_detections detections []))%outcome
  end.

Definition detect_pose (self : MediaPipeDetector) (image : Image)
    : outcome (option PoseResult) :=
  match pose_landmarker self with
  | None => Returns None
  | Some model =>
      (pose_landmarks <- model image ;;
       match pose_landmarks with
       | [] => Returns None
       | landmarks :: _ =>
           let '(height, width) := shape image in
           Returns (Some {| keypoints := extract_keypoints width height 0 landmarks [];
                            image_width := width;
                            image_height := height |})
       end)%outcome
  end.

(** The dictionary of [/health]. *)
Record Health : Type := mkHealth {
  status : string;
  object_detector_loaded : bool;
  pose_landmarker_loaded : bool;
  cpu_backend : bool;
  ready : bool
}.

Definition health (detector : MediaPipeDetector) : Health :=
  {| status := "healthy";
     object_detector_loaded := is_not_None (object_detector detector);
     pose_landmarker_loaded := is_not_None (pose_landmarker detector);
     cpu_backend := true;
     ready := is_not_None (object_detector detector)
              && is_not_None (pose_landmarker detector) |}.

(** [/detect] on the global [detector]: the endpoint reads the five numeric
    keys of each entry of [phones]. *)
Definition detect_endpoint (libm_pow : float -> float -> float)
    (detector : MediaPipeDetector)
    (UploadFile : Type)
    (file_read : UploadFile -> outcome (list Byte.byte))
    (imdecode : list Byte.byte -> outcome (option Image))
    (cvtColor : Image -> outcome Image)
    (str : exn -> string) (round2 : float -> float)
    (start_time push_time end_time : float)
    : UploadFile -> handler DetectionResult.t :=
  detect libm_pow UploadFile Image file_read imdecode cvtColor
    (fun image_rgb =>
       (phones <- detect_objects detector image_rgb ;;
        Returns (map phone_box_of phones))%outcome)
    (detect_pose detector) str round2 start_time push_time end_time.

End Detector.

Arguments object_detector {Image} m.
Arguments pose_landmarker {Image} m.
Arguments detect_objects {Image} self image.
Arguments detect_pose {Image} shape self image.
Arguments health {Image} detector.

(** ** More vocabulary *)

(** The last [n] items of a list. *)
Definition lastn {A : Type} (n : nat) (l : list A) : list A :=
  skipn (length l - n) l.

(** A tuple whose phone channel is the disjunction of its three proximity
    channels. *)
Definition coherent (d : Detection) : bool :=
  Bool.eqb (phone d) (left_ear d || right_ear d || front_face d).

(** What a detection adds to [phones]: the entry of its first phone
    category, or nothing. *)
Definition phone_entries (detection : MP.Detection) : list PhoneDict :=
  match find is_phone_category (MP.categories detection) with
  | Some category =>
      [ {| phone_box_of :=
             {| x_min := float_of_Z (MP.origin_x (MP.bounding_box detection));
                y_min := float_of_Z (MP.origin_y (MP.bounding_box detection));
                width := float_of_Z (MP.width (MP.bounding_box detection));
                height := float_of_Z (MP.height (MP.bounding_box detection));
                confidence := MP.score category |};
           category := MP.category_name category |} ]
  | None => []
  end.

(** The keypoint of the landmark at position [idx]. *)
Definition keypoint_of (width height : Z) (idx : nat) (landmark : MP.Landmark)
    : Keypoint :=
  {| x := MP.x landmark * float_of_Z width;
     y := MP.y landmark * float_of_Z height;
     z := MP.z landmark;
     visibility := MP.visibility landmark;
     name := landmark_name idx |}.

Fixpoint keypoints_from (width height : Z) (idx : nat) (landmarks : list MP.Landmark)
    : list Keypoint :=
  match landmarks with
  | [] => []
  | landmark :: rest =>
      keypoint_of width height idx landmark :: keypoints_from width height (S idx) rest
  end.

(** Sample model outputs. *)
Definition sample_detections : list MP.Detection :=
  [ MP.mkDetection (MP.mkBoundingBox 10 20 200 400)
      [MP.mkCategory "person" 0.8];
    MP.mkDetection (MP.mkBoundingBox 100 50 40 60)
      [MP.mkCategory "remote" 0.4; MP.mkCategory "Cell Phone" 0.9;
       MP.mkCategory "mobile phone" 0.5];
    MP.mkDetection (MP.mkBoundingBox 280 50 40 60)
      [MP.mkCategory "cellular telephone" 0.6] ].

Definition sample_landmarks : list MP.Landmark :=
  repeat (MP.mkLandmark 0.5 0.25 0 0.9) 35.

Definition sample_shape (image : list Byte.byte) : Z * Z := (480%Z, 640%Z).

(** The three proximity channels of a tuple. *)
Definition tuple_flags (d : Detection) : Flags :=
  mkFlags (left_ear d) (right_ear d) (front_face d).

(** The flags of a frame: those of the proximity loop when there is a
    phone box and a pose, none otherwise. *)
Definition frame_flags (libm_pow : float -> float -> float)
    (phone_boxes : list BoundingBox) (pose_result : option PoseResult)
    : outcome Flags :=
  if (0 <? length phone_boxes)%nat && is_not_None pose_result then
    proximity_flags libm_pow (keypoints_of pose_result) phone_boxes
  else Returns no_flags.

(** The tuple pushed for a frame with these boxes and flags at time
    reading [t]. *)
Definition frame_tuple (phone_boxes : list BoundingBox) (flags : Flags) (t : float)
    : Detection :=
  {| phone := (0 <? length phone_boxes)%nat
              && (flag_left_ear flags || flag_right_ear flags || flag_front_face flags);
     left_ear := flag_left_ear flags;
     right_ear := flag_right_ear flags;
     front_face := flag_front_face flags;
     timestamp := t * 1000 |}.

(** [nose['visibility'] > 0.2] on the first keypoint, false without one. *)
Definition face_seen (keypoints : list Keypoint) : bool :=
  match keypoints with
  | [] => false
  | nose :: _ => 0.2 <? visibility nose
  end.

(** What one phone box does to flags that are all false. *)
Definition box_step (libm_pow : float -> float -> float)
    (keypoints : list Keypoint) (phone_box : BoundingBox) : outcome Flags :=
  check_phone (is_phone_near_left_ear libm_pow) (is_phone_near_right_ear libm_pow)
    (is_phone_in_front_of_face libm_pow) keypoints no_flags phone_box.

(** The flags one box sets, none when its step raises. *)
Definition box_flags (libm_pow : float -> float -> float)
    (keypoints : list Keypoint) (phone_box : BoundingBox) : Flags :=
  match box_step libm_pow keypoints phone_box with
  | Returns flags => flags
  | Raises _ => no_flags
  end.

Definition box_raises (libm_pow : float -> float -> float)
    (keypoints : list Keypoint) (phone_box : BoundingBox) : bool :=
  match box_step libm_pow keypoints phone_box with
  | Returns _ => false
  | Raises _ => true
  end.

(** The flags the boxes of a list set between them. *)
Definition set_by_some_box (libm_pow : float -> float -> float)
    (keypoints : list Keypoint) (phone_boxes : list BoundingBox) : Flags :=
  mkFlags
    (existsb (fun b => flag_left_ear (box_flags libm_pow keypoints b)) phone_boxes)
    (existsb (fun b => flag_right_ear (box_flags libm_pow keypoints b)) phone_boxes)
    (existsb (fun b => flag_front_face (box_flags libm_pow keypoints b)) phone_boxes).

(** The place of a non-NaN binary64 value in the order: a triple compared
    lexicographically. *)
Definition order_key (f : spec_float) : Z * Z * Z :=
  match f with
  | S754_nan => (0, 0, 0)
  | S754_zero _ => (0, 0, 0)
  | S754_infinity false => (2, 0, 0)
  | S754_infinity true => (-2, 0, 0)
  | S754_finite false m e => (1, e, Zpos m)
  | S754_finite true m e => (-1, - e, Zneg m)
  end%Z.

Definition key_lt (a b : Z * Z * Z) : Prop :=
  let '(a1, a2, a3) := a in
  let '(b1, b2, b3) := b in
  (a1 < b1 \/ (a1 = b1 /\ (a2 < b2 \/ (a2 = b2 /\ a3 < b3))))%Z.

Definition key_le (a b : Z * Z * Z) : Prop := key_lt a b \/ a = b.

Definition is_nan_sf (f : spec_float) : bool :=
  match f with
  | S754_nan => true
  | _ => false
  end.

(** ** Facts about binary64 comparisons *)

Lemma SFcompare_swap (f1 f2 : spec_float) :
  SFcompare f2 f1 = option_map CompOpp (SFcompare f1 f2).
Proof.
  destruct f1 as [s1| s1 | |s1 m1 e1], f2 as [s2|s2| |s2 m2 e2]; simpl; try reflexivity;
    try (destruct s1; reflexivity); try (destruct s2; reflexivity);
    try (destruct s1, s2; reflexivity).
  destruct s1, s2; simpl; try reflexivity;
    rewrite (Z.compare_antisym e1 e2);
    destruct (e1 ?= e2)%Z; simpl; try reflexivity;
    rewrite (Pos.compare_cont_antisym m1 m2 Eq); simpl;
    try rewrite CompOpp_involutive; reflexivity.
Qed.

(** [a <= b] excludes [b < a]. *)
Lemma leb_true_ltb_false (a b : float) :
  (a <=? b) = true -> (b <? a) = false.
Proof.
  rewrite leb_spec, ltb_spec. unfold SFleb, SFltb.
  rewrite (SFcompare_swap (Prim2SF a) (Prim2SF b)).
  destruct (SFcompare (Prim2SF a) (Prim2SF b)) as [[ | | ]|]; simpl; congruence.
Qed.

(** A finite value minus itself is zero. *)
Lemma sub_self_finite (v : float) : is_finite v = true -> v - v = 0.
Proof.
  intros H. rewrite <- (SF2Prim_Prim2SF (v - v)), sub_spec.
  unfold is_finite in H.
  destruct (Prim2SF v) as [s|s| |s m e]; try discriminate.
  - destruct s; reflexivity.
  - unfold SF64sub, SFsub. rewrite Z.sub_diag. reflexivity.
Qed.

Lemma compare_cont_Eq_spec (p q : positive) :
  Pos.compare_cont Eq p q = (p ?= q)%positive.
Proof. reflexivity. Qed.

Lemma SFltb_order_key (f1 f2 : spec_float) :
  SFltb f1 f2 = true <->
  is_nan_sf f1 = false /\ is_nan_sf f2 = false /\ key_lt (order_key f1) (order_key f2).
Proof.
  unfold SFltb.
  destruct f1 as [s1|s1| |s1 m1 e1], f2 as [s2|s2| |s2 m2 e2]; simpl;
    try (destruct s1); try (destruct s2); simpl;
    try (split; [discriminate | intros [? [? ?]]; first [discriminate | lia]]);
    try (split; [intros _; repeat split; lia | reflexivity]).
  - destruct (Z.compare_spec e1 e2); simpl.
    + subst. rewrite compare_cont_Eq_spec.
      destruct (Pos.compare_spec m1 m2); simpl;
        (split; [first [discriminate | intros _; repeat split; lia]
                | intros [_ [_ ?]]; first [reflexivity | lia]]).
    + split; [discriminate | intros [_ [_ ?]]; lia].
    + split; [intros _; repeat split; lia | reflexivity].
  - destruct (Z.compare_spec e1 e2); simpl.
    + subst. rewrite compare_cont_Eq_spec.
      destruct (Pos.compare_spec m1 m2); simpl;
        (split; [first [discriminate | intros _; repeat split; lia]
                | intros [_ [_ ?]]; first [reflexivity | lia]]).
    + split; [intros _; repeat split; lia | reflexivity].
    + split; [discriminate | intros [_ [_ ?]]; lia].
Qed.

Lemma SFleb_order_key (f1 f2 : spec_float) :
  SFleb f1 f2 = true <->
  is_nan_sf f1 = false /\ is_nan_sf f2 = false /\ key_le (order_key f1) (order_key f2).
Proof.
  unfold SFleb, key_le.
  destruct f1 as [s1|s1| |s1 m1 e1], f2 as [s2|s2| |s2 m2 e2]; simpl;
    try (destruct s1); try (destruct s2); simpl;
    try (split; [discriminate
                | intros [? [? [?|?]]]; first [discriminate | lia | congruence]]);
    try (split; [intros _; repeat split; first [left; lia | right; reflexivity]
                | reflexivity]).
  - destruct (Z.compare_spec e1 e2); simpl.
    + subst. rewrite compare_cont_Eq_spec.
      destruct (Pos.compare_spec m1 m2); simpl.
      * subst. split; [intros _; repeat split; right; reflexivity | reflexivity].
      * split; [discriminate | intros [_ [_ [?|?]]]; [lia | injection H0; lia]].
      * split; [intros _; repeat split; left; lia | reflexivity].
    + split; [discriminate | intros [_ [_ [?|?]]]; [lia | injection H0; lia]].
    + split; [intros _; repeat split; left; lia | reflexivity].
  - destruct (Z.compare_spec e1 e2); simpl.
    + subst. rewrite compare_cont_Eq_spec.
      destruct (Pos.compare_spec m1 m2); simpl.
      * subst. split; [intros _; repeat split; right; reflexivity | reflexivity].
      * split; [intros _; repeat split; left; lia | reflexivity].
      * split; [discriminate | intros [_ [_ [?|?]]]; [lia | injection H0; lia]].
    + split; [intros _; repeat split; left; lia | reflexivity].
    + split; [discriminate | intros [_ [_ [?|?]]]; [lia | injection H0; lia]].
Qed.

Lemma ltb_trans (a b c : float) :
  (a <? b) = true -> (b <? c) = true -> (a <? c) = true.
Proof.
  rewrite !ltb_spec, !SFltb_order_key.
  intros [Ha [Hb Hab]] [_ [Hc Hbc]]. repeat split; auto.
  destruct (order_key (Prim2SF a)) as [[a1 a2] a3],
           (order_key (Prim2SF b)) as [[b1 b2] b3],
           (order_key (Prim2SF c)) as [[c1 c2] c3].
  unfold key_lt in *. lia.
Qed.

Lemma ltb_leb_trans (a b c : float) :
  (a <? b) = true -> (b <=? c) = true -> (a <? c) = true.
Proof.
  rewrite !ltb_spec, leb_spec, !SFltb_order_key, SFleb_order_key.
  intros [Ha [Hb Hab]] [_ [Hc [Hbc|Hbc]]]; repeat split; auto.
  - destruct (order_key (Prim2SF a)) as [[a1 a2] a3],
             (order_key (Prim2SF b)) as [[b1 b2] b3],
             (order_key (Prim2SF c)) as [[c1 c2] c3].
    unfold key_lt in *. lia.
  - rewrite <- Hbc. exact Hab.
Qed.

Lemma leb_ltb_trans (a b c : float) :
  (a <=? b) = true -> (b <? c) = true -> (a <? c) = true.
Proof.
  rewrite !ltb_spec, leb_spec, !SFltb_order_key, SFleb_order_key.
  intros [Ha [Hb [Hab|Hab]]] [_ [Hc Hbc]]; repeat split; auto.
  - destruct (order_key (Prim2SF a)) as [[a1 a2] a3],
             (order_key (Prim2SF b)) as [[b1 b2] b3],
             (order_key (Prim2SF c)) as [[c1 c2] c3].
    unfold key_lt in *. lia.
  - rewrite Hab. exact Hbc.
Qed.

Lemma ltb_irrefl_pair (a b : float) :
  (a <? b) = true -> (b <? a) = false.
Proof.
  intros H. destruct (b <? a) eqn:E; [|reflexivity].
  pose proof (ltb_trans _ _ _ H E) as Haa.
  rewrite ltb_spec, SFltb_order_key in Haa. destruct Haa as [_ [_ Haa]].
  destruct (order_key (Prim2SF a)) as [[a1 a2] a3]. unfold key_lt in Haa. lia.
Qed.

Lemma ltb_nan_l (a b : float) : (a =? a) = false -> (a <? b) = false.
Proof.
  rewrite eqb_spec, ltb_spec. intros Hnan.
  destruct (SFltb (Prim2SF a) (Prim2SF b)) eqn:E; [|reflexivity].
  apply SFltb_order_key in E. destruct E as [Ha _].
  unfold SFeqb in Hnan.
  destruct (Prim2SF a) as [s|s| |s m e]; try discriminate; simpl in Hnan;
    try (destruct s; discriminate).
  rewrite Z.compare_refl, compare_cont_Eq_spec, Pos.compare_refl in Hnan.
  destruct s; discriminate.
Qed.

Lemma ltb_nan_r (a b : float) : (b =? b) = false -> (a <? b) = false.
Proof.
  rewrite eqb_spec, ltb_spec. intros Hnan.
  destruct (SFltb (Prim2SF a) (Prim2SF b)) eqn:E; [|reflexivity].
  apply SFltb_order_key in E. destruct E as [_ [Hb _]].
  unfold SFeqb in Hnan.
  destruct (Prim2SF b) as [s|s| |s m e]; try discriminate; simpl in Hnan;
    try (destruct s; discriminate).
  rewrite Z.compare_refl, compare_cont_Eq_spec, Pos.compare_refl in Hnan.
  destruct s; discriminate.
Qed.

Lemma eqb_refl_not_nan (a : float) :
  (a =? a) = true <-> is_nan_sf (Prim2SF a) = false.
Proof.
  rewrite eqb_spec. unfold SFeqb.
  destruct (Prim2SF a) as [s|s| |s m e]; simpl.
  - split; reflexivity.
  - destruct s; split; reflexivity.
  - split; discriminate.
  - rewrite Z.compare_refl, compare_cont_Eq_spec, Pos.compare_refl.
    destruct s; split; reflexivity.
Qed.

Lemma leb_refl (a : float) : (a =? a) = true -> (a <=? a) = true.
Proof.
  intros H. apply eqb_refl_not_nan in H.
  rewrite leb_spec. apply SFleb_order_key. repeat split; auto. right. reflexivity.
Qed.

Lemma ltb_leb (a b : float) : (a <? b) = true -> (a <=? b) = true.
Proof.
  rewrite ltb_spec, leb_spec, SFltb_order_key, SFleb_order_key.
  intros [Ha [Hb H]]. repeat split; auto. left. exact H.
Qed.

Lemma not_ltb_leb (a b : float) :
  (a =? a) = true -> (b =? b) = true -> (a <? b) = false -> (b <=? a) = true.
Proof.
  intros Ha Hb H. apply eqb_refl_not_nan in Ha. apply eqb_refl_not_nan in Hb.
  rewrite leb_spec. apply SFleb_order_key. repeat split; auto.
  destruct (SFltb (Prim2SF a) (Prim2SF b)) eqn:E;
    [rewrite ltb_spec in H; congruence|].
  assert (Hn : ~ key_lt (order_key (Prim2SF a)) (order_key (Prim2SF b))).
  { intros Hk. assert (SFltb (Prim2SF a) (Prim2SF b) = true)
      by (apply SFltb_order_key; auto). congruence. }
  unfold key_le.
  destruct (order_key (Prim2SF a)) as [[a1 a2] a3],
           (order_key (Prim2SF b)) as [[b1 b2] b3].
  unfold key_lt in *.
  destruct (Z.eq_dec a1 b1) as [->|]; [|left; lia].
  destruct (Z.eq_dec a2 b2) as [->|]; [|left; lia].
  destruct (Z.eq_dec a3 b3) as [->|]; [right; reflexivity | left; lia].
Qed.

Lemma leb_trans (a b c : float) :
  (a <=? b) = true -> (b <=? c) = true -> (a <=? c) = true.
Proof.
  rewrite !leb_spec, !SFleb_order_key.
  intros [Ha [Hb Hab]] [_ [Hc Hbc]]. repeat split; auto.
  destruct Hab as [Hab|Hab]; [|rewrite Hab; exact Hbc].
  destruct Hbc as [Hbc|Hbc]; [|rewrite <- Hbc; left; exact Hab].
  left.
  destruct (order_key (Prim2SF a)) as [[a1 a2] a3],
           (order_key (Prim2SF b)) as [[b1 b2] b3],
           (order_key (Prim2SF c)) as [[c1 c2] c3].
  unfold key_lt in *. lia.
Qed.

Lemma order_key_eq (f g : spec_float) :
  is_nan_sf f = false -> is_nan_sf g = false -> order_key f = order_key g ->
  f = g \/ (exists s t, f = S754_zero s /\ g = S754_zero t).
Proof.
  destruct f as [s|s| |s m e], g as [t|t| |t n k]; simpl; intros Hf Hg H;
    try discriminate;
    try (destruct s; discriminate); try (destruct t; discriminate);
    try (destruct s, t; discriminate).
  - right. exists s, t. split; reflexivity.
  - left. destruct s, t; try discriminate; reflexivity.
  - left. destruct s, t; try discriminate;
      (assert (e = k) by (injection H; intros; lia));
      (assert (m = n) by (injection H; intros; congruence));
      subst; reflexivity.
Qed.

(** Two values each at most the other differ at most in the sign of a
    zero, which subtracting or adding 120 forgets. *)
Lemma leb_both_shift (a b : float) :
  (a <=? b) = true -> (b <=? a) = true -> a - 120 = b - 120 /\ a + 120 = b + 120.
Proof.
  rewrite !leb_spec, !SFleb_order_key.
  intros [Ha [Hb Hab]] [_ [_ Hba]].
  assert (Hk : order_key (Prim2SF a) = order_key (Prim2SF b)).
  { destruct Hab as [Hab|Hab]; [|exact Hab].
    destruct Hba as [Hba|Hba]; [|symmetry; exact Hba].
    destruct (order_key (Prim2SF a)) as [[a1 a2] a3],
             (order_key (Prim2SF b)) as [[b1 b2] b3].
    unfold key_lt in *. lia. }
  destruct (order_key_eq _ _ Ha Hb Hk) as [Heq|[s [t [Hs Ht]]]].
  - assert (a = b) by (rewrite <- (SF2Prim_Prim2SF a), <- (SF2Prim_Prim2SF b), Heq;
                       reflexivity).
    subst. split; reflexivity.
  - split.
    + rewrite <- (SF2Prim_Prim2SF (a - 120)), <- (SF2Prim_Prim2SF (b - 120)).
      rewrite !sub_spec, Hs, Ht. reflexivity.
    + rewrite <- (SF2Prim_Prim2SF (a + 120)), <- (SF2Prim_Prim2SF (b + 120)).
      rewrite !add_spec, Hs, Ht. reflexivity.
Qed.

(** ** Squares and distances *)

Lemma float_pow2_zero (libm_pow : float -> float -> float) :
  float_pow2 libm_pow 0 = Returns 0.
Proof. reflexivity. Qed.

(** [**] raises nothing but [OverflowError]. *)
Lemma float_pow2_raises (libm_pow : float -> float -> float) (v : float) (e : exn) :
  float_pow2 libm_pow v = Raises e -> e = OverflowError.
Proof.
  unfold float_pow2.
  destruct (is_nan v); [discriminate|].
  destruct (is_infinity v); [discriminate|].
  destruct (v =? 0); [discriminate|].
  destruct ((if v <? 0 then - v else v) =? 1); [discriminate|].
  destruct (is_infinity _); [|discriminate].
  intros H. injection H as <-. reflexivity.
Qed.

(** The distance of the center of a box to a keypoint is the distance
    written out. *)
Lemma distance_center (libm_pow : float -> float -> float)
    (phone_box : BoundingBox) (p : Keypoint) :
  distance libm_pow (get_phone_center phone_box) (x p, y p)
  = center_distance libm_pow phone_box p.
Proof.
  unfold distance, get_phone_center, center_distance. cbn [fst snd].
  destruct (float_pow2 libm_pow (x_min phone_box + width phone_box / 2 - x p));
    cbn [obind]; [|reflexivity].
  destruct (float_pow2 libm_pow (y_min phone_box + height phone_box / 2 - y p));
    reflexivity.
Qed.

Lemma center_distance_raises (libm_pow : float -> float -> float)
    (phone_box : BoundingBox) (p : Keypoint) (e : exn) :
  center_distance libm_pow phone_box p = Raises e -> e = OverflowError.
Proof.
  unfold center_distance.
  destruct (float_pow2 libm_pow (x_min phone_box + width phone_box / 2 - x p))
    as [dx2|e1] eqn:E1.
  - destruct (float_pow2 libm_pow (y_min phone_box + height phone_box / 2 - y p))
      as [dy2|e2] eqn:E2; [discriminate|].
    intros H. injection H as <-. exact (float_pow2_raises _ _ _ E2).
  - intros H. injection H as <-. exact (float_pow2_raises _ _ _ E1).
Qed.

(** A box whose center is a point of finite coordinates is at distance 0
    from it. *)
Lemma center_distance_same_point (libm_pow : float -> float -> float)
    (phone_box : BoundingBox) (p : Keypoint) :
  box_center phone_box = (x p, y p) ->
  is_finite (x p) = true -> is_finite (y p) = true ->
  center_distance libm_pow phone_box p = Returns 0.
Proof.
  unfold box_center, center_distance. intros H Hx Hy. injection H as -> ->.
  rewrite (sub_self_finite _ Hx), (sub_self_finite _ Hy). reflexivity.
Qed.

(** ** Indexing within bounds *)

Lemma getitem_at_index (keypoints : list Keypoint) (i : nat) :
  (i < length keypoints)%nat -> getitem keypoints i = Returns (at_index keypoints i).
Proof.
  intros Hi. unfold getitem, at_index.
  rewrite (nth_error_nth' keypoints (mkKeypoint 0 0 0 0 "") Hi). reflexivity.
Qed.

Lemma guard_passes (keypoints : list Keypoint) (n : nat) :
  (S n <= length keypoints)%nat ->
  py_not keypoints || (length keypoints <? S n)%nat = false.
Proof.
  intros Hn. destruct keypoints as [|k ks]; simpl in Hn; [lia|].
  simpl py_not. rewrite orb_false_l. apply Nat.ltb_ge. simpl. lia.
Qed.

Lemma guard_fails (keypoints : list Keypoint) (n : nat) :
  (length keypoints < n)%nat ->
  py_not keypoints || (length keypoints <? n)%nat = true.
Proof.
  intros Hn. apply orb_true_iff. right. apply Nat.ltb_lt. exact Hn.
Qed.

(** The ear predicates after their guards, as one equation each. *)

(** The ear predicates past their guards, as one equation each. *)
Lemma near_left_ear_unfold (libm_pow : float -> float -> float)
    (phone_box : BoundingBox) (keypoints : list Keypoint) :
  (16 <= length keypoints)%nat ->
  is_phone_near_left_ear libm_pow phone_box keypoints =
  if visibility (at_index keypoints 7) <? 0.3 then Returns false
  else
    match center_distance libm_pow phone_box (at_index keypoints 7) with
    | Raises e => Raises e
    | Returns d =>
        Returns (if d <? 100 then true
                 else (d <? 140)
                      && wrist_is_raised (at_index keypoints 15) (at_index keypoints 11))
    end.
Proof.
  intros Hlen. unfold is_phone_near_left_ear.
  rewrite (guard_passes keypoints 15 Hlen).
  rewrite !getitem_at_index by lia. cbn [obind].
  destruct (visibility (at_index keypoints 7) <? 0.3); [reflexivity|].
  rewrite distance_center.
  destruct (center_distance libm_pow phone_box (at_index keypoints 7)) as [d|e];
    cbn [obind]; [|reflexivity].
  fold (wrist_is_raised (at_index keypoints 15) (at_index keypoints 11)).
  destruct (d <? 100); reflexivity.
Qed.

Lemma near_right_ear_unfold (libm_pow : float -> float -> float)
    (phone_box : BoundingBox) (keypoints : list Keypoint) :
  (17 <= length keypoints)%nat ->
  is_phone_near_right_ear libm_pow phone_box keypoints =
  if visibility (at_index keypoints 8) <? 0.3 then Returns false
  else
    match center_distance libm_pow phone_box (at_index keypoints 8) with
    | Raises e => Raises e
    | Returns d =>
        Returns (if d <? 100 then true
                 else (d <? 140)
                      && wrist_is_raised (at_index keypoints 16) (at_index keypoints 12))
    end.
Proof.
  intros Hlen. unfold is_phone_near_right_ear.
  rewrite (guard_passes keypoints 16 Hlen).
  rewrite !getitem_at_index by lia. cbn [obind].
  destruct (visibility (at_index keypoints 8) <? 0.3); [reflexivity|].
  rewrite distance_center.
  destruct (center_distance libm_pow phone_box (at_index keypoints 8)) as [d|e];
    cbn [obind]; [|reflexivity].
  fold (wrist_is_raised (at_index keypoints 16) (at_index keypoints 12)).
  destruct (d <? 100); reflexivity.
Qed.

(** ** The ear predicates *)

(** C6. On a keypoint sequence of fewer than 16 elements, the empty one
    included, both ear predicates return false; they return, so no index
    is read out of bounds. *)
Theorem near_ear_short_sequence_false
    (libm_pow : float -> float -> float)
    (phone_box : BoundingBox) (keypoints : list Keypoint) :
  (length keypoints < 16)%nat ->
  is_phone_near_left_ear libm_pow phone_box keypoints = Returns false
  /\ is_phone_near_right_ear libm_pow phone_box keypoints = Returns false.
Proof.
  intros Hlen. split.
  - unfold is_phone_near_left_ear.
    rewrite (guard_fails keypoints 16 Hlen). reflexivity.
  - unfold is_phone_near_right_ear.
    rewrite (guard_fails keypoints 17) by lia. reflexivity.
Qed.

Lemma near_ear_short_sequence_false_witness :
  (length (repeat hidden 15) < 16)%nat
  /\ is_phone_near_left_ear sample_pow sample_box (repeat hidden 15) = Returns false
  /\ is_phone_near_right_ear sample_pow sample_box (repeat hidden 15) = Returns false
  /\ is_phone_near_left_ear sample_pow sample_box [] = Returns false
  /\ is_phone_near_right_ear sample_pow sample_box [] = Returns false.
Proof.
  split; [simpl; lia|].
  split; [apply (near_ear_short_sequence_false sample_pow sample_box (repeat hidden 15));
          simpl; lia|].
  split; [apply (near_ear_short_sequence_false sample_pow sample_box (repeat hidden 15));
          simpl; lia|].
  split; apply (near_ear_short_sequence_false sample_pow sample_box []); simpl; lia.
Defined.

(** C4. Past the length guard, with the ear's visibility at least 0.3 and
    the distance the program computes from the phone center to the ear
    less than 100, each ear predicate returns true, whatever the wrist and
    the shoulder are.  A phone box whose center is the ear position
    (finite coordinates) is at distance 0 and yields true. *)
Theorem near_ear_close_range_trusted
    (libm_pow : float -> float -> float)
    (phone_box : BoundingBox) (keypoints : list Keypoint) :
  ((16 <= length keypoints)%nat ->
   (0.3 <=? visibility (at_index keypoints 7)) = true ->
   forall d,
     center_distance libm_pow phone_box (at_index keypoints 7) = Returns d ->
     (d <? 100) = true ->
     is_phone_near_left_ear libm_pow phone_box keypoints = Returns true)
  /\ ((17 <= length keypoints)%nat ->
      (0.3 <=? visibility (at_index keypoints 8)) = true ->
      forall d,
        center_distance libm_pow phone_box (at_index keypoints 8) = Returns d ->
        (d <? 100) = true ->
        is_phone_near_right_ear libm_pow phone_box keypoints = Returns true)
  /\ ((16 <= length keypoints)%nat ->
      (0.3 <=? visibility (at_index keypoints 7)) = true ->
      box_center phone_box = (x (at_index keypoints 7), y (at_index keypoints 7)) ->
      is_finite (x (at_index keypoints 7)) = true ->
      is_finite (y (at_index keypoints 7)) = true ->
      center_distance libm_pow phone_box (at_index keypoints 7) = Returns 0
      /\ is_phone_near_left_ear libm_pow phone_box keypoints = Returns true)
  /\ ((17 <= length keypoints)%nat ->
      (0.3 <=? visibility (at_index keypoints 8)) = true ->
      box_center phone_box = (x (at_index keypoints 8), y (at_index keypoints 8)) ->
      is_finite (x (at_index keypoints 8)) = true ->
      is_finite (y (at_index keypoints 8)) = true ->
      center_distance libm_pow phone_box (at_index keypoints 8) = Returns 0
      /\ is_phone_near_right_ear libm_pow phone_box keypoints = Returns true).
Proof.
  assert (L : (16 <= length keypoints)%nat ->
              (0.3 <=? visibility (at_index keypoints 7)) = true ->
              forall d,
                center_distance libm_pow phone_box (at_index keypoints 7) = Returns d ->
                (d <? 100) = true ->
                is_phone_near_left_ear libm_pow phone_box keypoints = Returns true).
  { intros Hlen Hvis d Hdist Hd. rewrite (near_left_ear_unfold _ _ _ Hlen).
    rewrite (leb_true_ltb_false _ _ Hvis), Hdist, Hd. reflexivity. }
  assert (R : (17 <= length keypoints)%nat ->
              (0.3 <=? visibility (at_index keypoints 8)) = true ->
              forall d,
                center_distance libm_pow phone_box (at_index keypoints 8) = Returns d ->
                (d <? 100) = true ->
                is_phone_near_right_ear libm_pow phone_box keypoints = Returns true).
  { intros Hlen Hvis d Hdist Hd. rewrite (near_right_ear_unfold _ _ _ Hlen).
    rewrite (leb_true_ltb_false _ _ Hvis), Hdist, Hd. reflexivity. }
  split; [exact L|]. split; [exact R|]. split.
  - intros Hlen Hvis Hc Hx Hy.
    pose proof (center_distance_same_point libm_pow _ _ Hc Hx Hy) as Hd.
    split; [exact Hd|]. apply (L Hlen Hvis 0 Hd). reflexivity.
  - intros Hlen Hvis Hc Hx Hy.
    pose proof (center_distance_same_point libm_pow _ _ Hc Hx Hy) as Hd.
    split; [exact Hd|]. apply (R Hlen Hvis 0 Hd). reflexivity.
Qed.

Lemma near_ear_close_range_trusted_witness :
  wrist_is_raised (at_index pose_ear_at_phone 15) (at_index pose_ear_at_phone 11) = false
  /\ (center_distance sample_pow sample_box (at_index pose_ear_at_phone 7) = Returns 0
      /\ is_phone_near_left_ear sample_pow sample_box pose_ear_at_phone = Returns true)
  /\ (center_distance sample_pow sample_box (at_index pose_ear_at_phone 8) = Returns 0
      /\ is_phone_near_right_ear sample_pow sample_box pose_ear_at_phone = Returns true)
  /\ is_phone_near_left_ear sample_pow sample_box pose_ear_near = Returns true.
Proof.
  split; [reflexivity|]. split; [|split].
  - apply (proj1 (proj2 (proj2
             (near_ear_close_range_trusted sample_pow sample_box pose_ear_at_phone))));
      [simpl; lia | reflexivity | reflexivity | reflexivity | reflexivity].
  - apply (proj2 (proj2 (proj2
             (near_ear_close_range_trusted sample_pow sample_box pose_ear_at_phone))));
      [simpl; lia | reflexivity | reflexivity | reflexivity | reflexivity].
  - apply (proj1 (near_ear_close_range_trusted sample_pow sample_box pose_ear_near)
             ltac:(simpl; lia) eq_refl (sqrt 125) eq_refl eq_refl).
Defined.

(** C5. Past the length guard, with the ear's visibility at least 0.3 and
    the distance the program computes from the phone center to the ear at
    least 100, each ear predicate returns whether the distance is below
    140 and the wrist is visible above 0.3 and higher than the shoulder:
    false at 140, true at 139.99 with such a wrist. *)
Theorem near_ear_far_range_needs_raised_wrist
    (libm_pow : float -> float -> float)
    (phone_box : BoundingBox) (keypoints : list Keypoint) :
  ((16 <= length keypoints)%nat ->
   (0.3 <=? visibility (at_index keypoints 7)) = true ->
   forall d,
     center_distance libm_pow phone_box (at_index keypoints 7) = Returns d ->
     (100 <=? d) = true ->
     (is_phone_near_left_ear libm_pow phone_box keypoints =
        Returns ((d <? 140)
                 && wrist_is_raised (at_index keypoints 15) (at_index keypoints 11)))
     /\ (d = 140 ->
         is_phone_near_left_ear libm_pow phone_box keypoints = Returns false)
     /\ (d = 139.99 ->
         wrist_is_raised (at_index keypoints 15) (at_index keypoints 11) = true ->
         is_phone_near_left_ear libm_pow phone_box keypoints = Returns true))
  /\ ((17 <= length keypoints)%nat ->
      (0.3 <=? visibility (at_index keypoints 8)) = true ->
      forall d,
        center_distance libm_pow phone_box (at_index keypoints 8) = Returns d ->
        (100 <=? d) = true ->
        (is_phone_near_right_ear libm_pow phone_box keypoints =
           Returns ((d <? 140)
                    && wrist_is_raised (at_index keypoints 16) (at_index keypoints 12)))
        /\ (d = 140 ->
            is_phone_near_right_ear libm_pow phone_box keypoints = Returns false)
        /\ (d = 139.99 ->
            wrist_is_raised (at_index keypoints 16) (at_index keypoints 12) = true ->
            is_phone_near_right_ear libm_pow phone_box keypoints = Returns true)).
Proof.
  split.
  - intros Hlen Hvis d Hdist Hd.
    assert (E : is_phone_near_left_ear libm_pow phone_box keypoints =
      Returns ((d <? 140)
               && wrist_is_raised (at_index keypoints 15) (at_index keypoints 11))).
    { rewrite (near_left_ear_unfold _ _ _ Hlen).
      rewrite (leb_true_ltb_false _ _ Hvis), Hdist, (leb_true_ltb_false _ _ Hd).
      reflexivity. }
    split; [exact E|]. split.
    + intros H140. rewrite E, H140. reflexivity.
    + intros H139 Hw. rewrite E, H139, Hw. reflexivity.
  - intros Hlen Hvis d Hdist Hd.
    assert (E : is_phone_near_right_ear libm_pow phone_box keypoints =
      Returns ((d <? 140)
               && wrist_is_raised (at_index keypoints 16) (at_index keypoints 12))).
    { rewrite (near_right_ear_unfold _ _ _ Hlen).
      rewrite (leb_true_ltb_false _ _ Hvis), Hdist, (leb_true_ltb_false _ _ Hd).
      reflexivity. }
    split; [exact E|]. split.
    + intros H140. rewrite E, H140. reflexivity.
    + intros H139 Hw. rewrite E, H139, Hw. reflexivity.
Qed.

Lemma near_ear_far_range_needs_raised_wrist_witness :
  (center_distance sample_pow origin_box (at_index (pose_ear_at_distance 140) 7)
   = Returns 140
   /\ is_phone_near_left_ear sample_pow origin_box (pose_ear_at_distance 140)
      = Returns false
   /\ is_phone_near_right_ear sample_pow origin_box (pose_ear_at_distance 140)
      = Returns false)
  /\ (is_phone_near_left_ear sample_pow origin_box (pose_ear_at_distance 139.99)
      = Returns true
      /\ is_phone_near_right_ear sample_pow origin_box (pose_ear_at_distance 139.99)
         = Returns true)
  /\ is_phone_near_left_ear sample_pow origin_box (pose_ear_at_distance 120)
     = Returns true.
Proof.
  split; [split; [reflexivity|split]|split; [split|]].
  - apply (proj1 (near_ear_far_range_needs_raised_wrist sample_pow origin_box
                    (pose_ear_at_distance 140))
             ltac:(simpl; lia) eq_refl 140 eq_refl eq_refl); reflexivity.
  - apply (proj2 (near_ear_far_range_needs_raised_wrist sample_pow origin_box
                    (pose_ear_at_distance 140))
             ltac:(simpl; lia) eq_refl 140 eq_refl eq_refl); reflexivity.
  - apply (proj1 (near_ear_far_range_needs_raised_wrist sample_pow origin_box
                    (pose_ear_at_distance 139.99))
             ltac:(simpl; lia) eq_refl 139.99 eq_refl eq_refl); reflexivity.
  - apply (proj2 (near_ear_far_range_needs_raised_wrist sample_pow origin_box
                    (pose_ear_at_distance 139.99))
             ltac:(simpl; lia) eq_refl 139.99 eq_refl eq_refl); reflexivity.
  - rewrite (proj1 (proj1 (near_ear_far_range_needs_raised_wrist sample_pow origin_box
                             (pose_ear_at_distance 120))
                      ltac:(simpl; lia) eq_refl 120 eq_refl eq_refl)).
    reflexivity.
Defined.

(** ** The front-of-face predicate *)

Lemma guard_false_length (keypoints : list Keypoint) (n : nat) :
  py_not keypoints || (length keypoints <? n)%nat = false ->
  (n <= length keypoints)%nat.
Proof.
  intros H. apply orb_false_iff in H. destruct H as [_ H].
  apply Nat.ltb_ge in H. exact H.
Qed.

Lemma within_expanded_region_nil (margin : float) (c : float * float) :
  within_expanded_region [] margin c = false.
Proof. reflexivity. Qed.

(** The predicate after its length guard, as one equation. *)

Lemma visible_face_points_In (keypoints : list Keypoint) (p : Keypoint) :
  In p (visible_face_points keypoints) <->
  In p (face_points keypoints) /\ (0.2 <? visibility p) = true.
Proof. unfold visible_face_points. apply filter_In. Qed.

(** The predicate past its length guard, as one equation. *)
Lemma front_of_face_unfold (libm_pow : float -> float -> float)
    (phone_box : BoundingBox) (keypoints : list Keypoint) :
  (17 <= length keypoints)%nat ->
  is_phone_in_front_of_face libm_pow phone_box keypoints =
  if visibility (at_index keypoints 0) <? 0.3 then Returns false
  else if py_not (visible_face_points keypoints) then Returns false
  else
    match center_distance libm_pow phone_box (at_index keypoints 0) with
    | Raises e => Raises e
    | Returns d =>
        Returns (within_expanded_region (visible_face_points keypoints) 120
                   (box_center phone_box)
                 && (d <? 200)
                 && ((0.3 <? visibility (at_index keypoints 15))
                     || (0.3 <? visibility (at_index keypoints 16))))
    end.
Proof.
  intros Hlen. unfold is_phone_in_front_of_face.
  rewrite (guard_passes keypoints 16 Hlen).
  rewrite !getitem_at_index by lia. cbn [obind].
  destruct (visibility (at_index keypoints 0) <? 0.3); [reflexivity|].
  change (filter (fun p => 0.2 <? visibility p)
            [at_index keypoints 0; at_index keypoints 2; at_index keypoints 5;
             at_index keypoints 7; at_index keypoints 8])
    with (visible_face_points keypoints).
  destruct (visible_face_points keypoints) as [|p ps]; [reflexivity|].
  cbn [py_not py_min py_max map obind]. rewrite distance_center.
  destruct (center_distance libm_pow phone_box (at_index keypoints 0)) as [d|e];
    reflexivity.
Qed.

(** [min] and [max] of values none of which is a NaN: an item of the list
    that every item is at least (at most). *)
Lemma fold_min_least (rest : list float) :
  forall first,
    (forall v, In v (first :: rest) -> (v =? v) = true) ->
    In (fold_left (fun minval item => if item <? minval then item else minval)
                  rest first) (first :: rest)
    /\ (forall v, In v (first :: rest) ->
          (fold_left (fun minval item => if item <? minval then item else minval)
                     rest first <=? v) = true).
Proof.
  induction rest as [|item rest IH]; intros first Hnan.
  - simpl. split; [left; reflexivity|].
    intros v [<-|[]]. apply leb_refl, Hnan. left. reflexivity.
  - cbn [fold_left].
    assert (Hfirst : (first =? first) = true) by (apply Hnan; left; reflexivity).
    assert (Hitem : (item =? item) = true) by (apply Hnan; right; left; reflexivity).
    set (next := if item <? first then item else first).
    assert (Hnext : (next <=? first) = true /\ (next <=? item) = true
                    /\ (next = first \/ next = item)).
    { unfold next. destruct (item <? first) eqn:E.
      - split; [apply ltb_leb; exact E|]. split; [apply leb_refl; exact Hitem|].
        right. reflexivity.
      - split; [apply leb_refl; exact Hfirst|].
        split; [apply not_ltb_leb; assumption|]. left. reflexivity. }
    destruct Hnext as [Hnf [Hni Hwhich]].
    destruct (IH next) as [Hin Hle].
    { intros v [<-|Hv]; [|apply Hnan; right; right; exact Hv].
      destruct Hwhich as [->| ->]; assumption. }
    split.
    + destruct Hin as [Hin|Hin]; [|right; right; exact Hin].
      rewrite <- Hin. destruct Hwhich as [->| ->]; [left | right; left]; reflexivity.
    + intros v [<-|[<-|Hv]].
      * apply (leb_trans _ next); [apply Hle; left; reflexivity | exact Hnf].
      * apply (leb_trans _ next); [apply Hle; left; reflexivity | exact Hni].
      * apply Hle. right. exact Hv.
Qed.

Lemma fold_max_greatest (rest : list float) :
  forall first,
    (forall v, In v (first :: rest) -> (v =? v) = true) ->
    In (fold_left (fun maxval item => if maxval <? item then item else maxval)
                  rest first) (first :: rest)
    /\ (forall v, In v (first :: rest) ->
          (v <=? fold_left (fun maxval item => if maxval <? item then item else maxval)
                           rest first) = true).
Proof.
  induction rest as [|item rest IH]; intros first Hnan.
  - simpl. split; [left; reflexivity|].
    intros v [<-|[]]. apply leb_refl, Hnan. left. reflexivity.
  - cbn [fold_left].
    assert (Hfirst : (first =? first) = true) by (apply Hnan; left; reflexivity).
    assert (Hitem : (item =? item) = true) by (apply Hnan; right; left; reflexivity).
    set (next := if first <? item then item else first).
    assert (Hnext : (first <=? next) = true /\ (item <=? next) = true
                    /\ (next = first \/ next = item)).
    { unfold next. destruct (first <? item) eqn:E.
      - split; [apply ltb_leb; exact E|]. split; [apply leb_refl; exact Hitem|].
        right. reflexivity.
      - split; [apply leb_refl; exact Hfirst|].
        split; [apply not_ltb_leb; assumption|]. left. reflexivity. }
    destruct Hnext as [Hnf [Hni Hwhich]].
    destruct (IH next) as [Hin Hle].
    { intros v [<-|Hv]; [|apply Hnan; right; right; exact Hv].
      destruct Hwhich as [->| ->]; assumption. }
    split.
    + destruct Hin as [Hin|Hin]; [|right; right; exact Hin].
      rewrite <- Hin. destruct Hwhich as [->| ->]; [left | right; left]; reflexivity.
    + intros v [<-|[<-|Hv]].
      * apply (leb_trans _ next); [exact Hnf | apply Hle; left; reflexivity].
      * apply (leb_trans _ next); [exact Hni | apply Hle; left; reflexivity].
      * apply Hle. right. exact Hv.
Qed.

(** The lower and upper bound tests of the code against a coordinate
    [coord] of the points. *)
Lemma lower_bound_test (coord : Keypoint -> float) (points : list Keypoint)
    (lo c : float) :
  (forall p, In p points -> (coord p =? coord p) = true) ->
  py_min (map coord points) = Returns lo ->
  ((lo - 120 <=? c) = true <->
   exists p, In p points
             /\ (forall q, In q points -> (coord p <=? coord q) = true)
             /\ (coord p - 120 <=? c) = true).
Proof.
  intros Hnan Hmin. destruct points as [|p0 ps]; [discriminate|].
  cbn [map py_min] in Hmin. injection Hmin as Hlo.
  destruct (fold_min_least (map coord ps) (coord p0)) as [Hin Hle].
  { intros v Hv. change (In v (map coord (p0 :: ps))) in Hv.
    apply in_map_iff in Hv. destruct Hv as [p [<- Hp]]. apply Hnan. exact Hp. }
  rewrite Hlo in Hin, Hle.
  change (In lo (map coord (p0 :: ps))) in Hin.
  apply in_map_iff in Hin. destruct Hin as [pm [Hpm Hpmin]].
  assert (Hall : forall q, In q (p0 :: ps) -> (lo <=? coord q) = true).
  { intros q Hq. apply Hle. change (In (coord q) (map coord (p0 :: ps))).
    apply in_map. exact Hq. }
  split.
  - intros Htest. exists pm. rewrite Hpm. auto.
  - intros [p [Hp [Hleast Htest]]].
    destruct (leb_both_shift lo (coord p)) as [Hsub _].
    + apply Hall. exact Hp.
    + rewrite <- Hpm. apply Hleast. exact Hpmin.
    + rewrite Hsub. exact Htest.
Qed.

Lemma upper_bound_test (coord : Keypoint -> float) (points : list Keypoint)
    (hi c : float) :
  (forall p, In p points -> (coord p =? coord p) = true) ->
  py_max (map coord points) = Returns hi ->
  ((c <=? hi + 120) = true <->
   exists p, In p points
             /\ (forall q, In q points -> (coord q <=? coord p) = true)
             /\ (c <=? coord p + 120) = true).
Proof.
  intros Hnan Hmax. destruct points as [|p0 ps]; [discriminate|].
  cbn [map py_max] in Hmax. injection Hmax as Hhi.
  destruct (fold_max_greatest (map coord ps) (coord p0)) as [Hin Hle].
  { intros v Hv. change (In v (map coord (p0 :: ps))) in Hv.
    apply in_map_iff in Hv. destruct Hv as [p [<- Hp]]. apply Hnan. exact Hp. }
  rewrite Hhi in Hin, Hle.
  change (In hi (map coord (p0 :: ps))) in Hin.
  apply in_map_iff in Hin. destruct Hin as [pm [Hpm Hpmin]].
  assert (Hall : forall q, In q (p0 :: ps) -> (coord q <=? hi) = true).
  { intros q Hq. apply Hle. change (In (coord q) (map coord (p0 :: ps))).
    apply in_map. exact Hq. }
  split.
  - intros Htest. exists pm. rewrite Hpm. auto.
  - intros [p [Hp [Hmost Htest]]].
    destruct (leb_both_shift hi (coord p)) as [_ Hadd].
    + rewrite <- Hpm. apply Hmost. exact Hpmin.
    + apply Hall. exact Hp.
    + rewrite Hadd. exact Htest.
Qed.

(** The region test of the code is the grown region of the points. *)
Lemma within_expanded_region_grown (points : list Keypoint) (cx cy : float) :
  points <> [] ->
  no_nan_coordinates points ->
  (within_expanded_region points 120 (cx, cy) = true <-> grown_region points cx cy).
Proof.
  intros Hne Hnan. destruct points as [|p0 ps]; [congruence|].
  unfold within_expanded_region, grown_region.
  destruct (py_min (map x (p0 :: ps))) as [lo_x|] eqn:Hlx; [|discriminate].
  destruct (py_max (map x (p0 :: ps))) as [hi_x|] eqn:Hhx; [|discriminate].
  destruct (py_min (map y (p0 :: ps))) as [lo_y|] eqn:Hly; [|discriminate].
  destruct (py_max (map y (p0 :: ps))) as [hi_y|] eqn:Hhy; [|discriminate].
  cbn [fst snd].
  rewrite !andb_true_iff.
  rewrite (lower_bound_test x (p0 :: ps) lo_x cx (fun p Hp => proj1 (Hnan p Hp)) Hlx).
  rewrite (upper_bound_test x (p0 :: ps) hi_x cx (fun p Hp => proj1 (Hnan p Hp)) Hhx).
  rewrite (lower_bound_test y (p0 :: ps) lo_y cy (fun p Hp => proj2 (Hnan p Hp)) Hly).
  rewrite (upper_bound_test y (p0 :: ps) hi_y cy (fun p Hp => proj2 (Hnan p Hp)) Hhy).
  tauto.
Qed.

(** C3. Past the length guard, with the nose's visibility at least 0.3 and
    a facial keypoint visible above 0.2, the predicate returns true exactly
    when the phone center is in the region of the facial keypoints visible
    above 0.2 grown by 120 (bounds included), the distance the program
    computes to the nose is below 200 and a wrist is visible above 0.3;
    when the distance raises, the predicate raises.  For points without
    NaN coordinates the region test is the region spanned by the leftmost,
    rightmost, topmost and bottommost point, grown by 120.  A facial
    keypoint of visibility at most 0.2 is not among the points of the
    region; with no facial keypoint above 0.2 the predicate returns
    false. *)
Theorem front_of_face_characterisation
    (libm_pow : float -> float -> float)
    (phone_box : BoundingBox) (keypoints : list Keypoint) :
  ((17 <= length keypoints)%nat ->
   (0.3 <=? visibility (at_index keypoints 0)) = true ->
   (exists p, In p (face_points keypoints) /\ (0.2 <? visibility p) = true) ->
   (forall d,
       center_distance libm_pow phone_box (at_index keypoints 0) = Returns d ->
       (is_phone_in_front_of_face libm_pow phone_box keypoints = Returns true <->
          within_expanded_region (visible_face_points keypoints) 120
            (box_center phone_box) = true
          /\ (d <? 200) = true
          /\ ((0.3 <? visibility (at_index keypoints 15)) = true
              \/ (0.3 <? visibility (at_index keypoints 16)) = true))
       /\ (exists b, is_phone_in_front_of_face libm_pow phone_box keypoints = Returns b))
   /\ (forall e,
          center_distance libm_pow phone_box (at_index keypoints 0) = Raises e ->
          is_phone_in_front_of_face libm_pow phone_box keypoints = Raises e)
   /\ visible_face_points keypoints <> [])
  /\ (forall points cx cy,
         points <> [] ->
         no_nan_coordinates points ->
         (within_expanded_region points 120 (cx, cy) = true <->
          grown_region points cx cy))
  /\ (forall p, In p (visible_face_points keypoints) <->
                In p (face_points keypoints) /\ (0.2 <? visibility p) = true)
  /\ (forall p, (visibility p <=? 0.2) = true ->
                ~ In p (visible_face_points keypoints))
  /\ ((forall p, In p (face_points keypoints) -> (0.2 <? visibility p) = false) ->
      is_phone_in_front_of_face libm_pow phone_box keypoints = Returns false).
Proof.
  split; [|split; [|split; [|split]]].
  - intros Hlen Hnose [p [Hp Hvis]].
    assert (Hne : visible_face_points keypoints <> []).
    { intros Hnil.
      assert (Hin : In p (visible_face_points keypoints))
        by (apply visible_face_points_In; auto).
      rewrite Hnil in Hin. exact Hin. }
    assert (Hnot : py_not (visible_face_points keypoints) = false)
      by (destruct (visible_face_points keypoints); [congruence | reflexivity]).
    rewrite (front_of_face_unfold _ _ _ Hlen).
    rewrite (leb_true_ltb_false _ _ Hnose), Hnot.
    split; [|split; [|exact Hne]].
    + intros d Hd. rewrite Hd. split; [|eexists; reflexivity]. split.
      * intros H. injection H as H.
        apply andb_true_iff in H. destruct H as [H Hw].
        apply andb_true_iff in H. destruct H as [Hr Hlt].
        apply orb_true_iff in Hw. auto.
      * intros [Hr [Hlt Hw]]. rewrite Hr, Hlt.
        apply orb_true_iff in Hw. rewrite Hw. reflexivity.
    + intros e He. rewrite He. reflexivity.
  - intros points cx cy. apply within_expanded_region_grown.
  - apply visible_face_points_In.
  - intros p Hle Hin. apply visible_face_points_In in Hin.
    destruct Hin as [_ Hlt]. rewrite (leb_true_ltb_false _ _ Hle) in Hlt.
    discriminate.
  - intros Hnone.
    destruct (py_not keypoints || (length keypoints <? 17)%nat) eqn:Hguard.
    + unfold is_phone_in_front_of_face. rewrite Hguard. reflexivity.
    + apply guard_false_length in Hguard.
      rewrite (front_of_face_unfold _ _ _ Hguard).
      assert (Hnil : visible_face_points keypoints = []).
      { destruct (visible_face_points keypoints) as [|p ps] eqn:E; [reflexivity|].
        assert (Hin : In p (visible_face_points keypoints))
          by (rewrite E; left; reflexivity).
        apply visible_face_points_In in Hin. destruct Hin as [Hin Hvis].
        rewrite (Hnone p Hin) in Hvis. discriminate. }
      rewrite Hnil. cbn [py_not].
      destruct (visibility (at_index keypoints 0) <? 0.3); reflexivity.
Qed.

Lemma front_of_face_characterisation_witness :
  is_phone_in_front_of_face sample_pow origin_box pose_face = Returns true
  /\ ~ In (kp 200 80 0.2) (visible_face_points pose_face)
  /\ is_phone_in_front_of_face sample_pow far_right_box pose_face = Returns false
  /\ is_phone_in_front_of_face sample_pow origin_box pose_two_faces = Returns true
  /\ is_phone_in_front_of_face sample_pow left_box pose_two_faces = Returns true
  /\ is_phone_in_front_of_face sample_pow origin_box (repeat hidden 33) = Returns false.
Proof.
  split; [|split; [|split; [|split; [|split]]]].
  - apply (proj1 (proj1 (front_of_face_characterisation sample_pow origin_box pose_face)
                    ltac:(simpl; lia) eq_refl
                    (ex_intro _ (kp 120 80 0.9) (conj (or_introl eq_refl) eq_refl)))
             (sqrt 20800) eq_refl).
    split; [reflexivity | split; [reflexivity | left; reflexivity]].
  - apply (proj2 (front_of_face_characterisation sample_pow origin_box pose_face)).
    reflexivity.
  - reflexivity.
  - reflexivity.
  - reflexivity.
  - apply (proj2 (front_of_face_characterisation sample_pow origin_box
                    (repeat hidden 33))).
    intros p Hp. simpl in Hp.
    repeat (destruct Hp as [Hp|Hp]; [subst p; reflexivity|]). contradiction.
Defined.

(** ** The proximity loop *)

Section OrchestrationFacts.

Variables near_left near_right in_front :
  BoundingBox -> list Keypoint -> outcome bool.
Variable keypoints : list Keypoint.

Let step := check_phone near_left near_right in_front keypoints.
Let loop := check_phones near_left near_right in_front keypoints.

(** What one box adds does not depend on the flags already set. *)
Lemma check_phone_from_no_flags (flags f : Flags) (phone_box : BoundingBox) :
  step flags phone_box = Returns f ->
  exists g, step no_flags phone_box = Returns g
            /\ f = flags_or flags g /\ at_most_one g = true.
Proof.
  unfold step, check_phone.
  destruct (near_left phone_box keypoints) as [[|]|e]; cbn [obind].
  - intros H. injection H as <-. eexists. split; [reflexivity|].
    destruct flags as [[|] [|] [|]]; split; reflexivity.
  - destruct (near_right phone_box keypoints) as [[|]|e]; cbn [obind].
    + intros H. injection H as <-. eexists. split; [reflexivity|].
      destruct flags as [[|] [|] [|]]; split; reflexivity.
    + destruct (in_front phone_box keypoints) as [[|]|e]; cbn [obind].
      * intros H. injection H as <-. eexists. split; [reflexivity|].
        destruct flags as [[|] [|] [|]]; split; reflexivity.
      * intros H. injection H as <-. eexists. split; [reflexivity|].
        destruct flags as [[|] [|] [|]]; split; reflexivity.
      * discriminate.
    + discriminate.
  - discriminate.
Qed.

Lemma check_phones_or_combined (phone_boxes : list BoundingBox) :
  forall flags f,
    loop flags phone_boxes = Returns f ->
    exists per_box,
      Forall2 (fun phone_box g => step no_flags phone_box = Returns g
                                  /\ at_most_one g = true)
              phone_boxes per_box
      /\ f = fold_left flags_or per_box flags.
Proof.
  induction phone_boxes as [|phone_box rest IH]; intros flags f H.
  - injection H as <-. exists []. split; [constructor | reflexivity].
  - unfold loop in H. simpl in H.
    fold step in H. fold loop in H.
    destruct (step flags phone_box) as [flags'|e] eqn:Hstep; [|discriminate].
    cbn [obind] in H.
    destruct (check_phone_from_no_flags _ _ _ Hstep) as [g [Hg [-> Hone]]].
    destruct (IH _ _ H) as [per_box [Hall ->]].
    exists (g :: per_box). split; [constructor; auto | reflexivity].
Qed.

Lemma check_phones_app (boxes1 boxes2 : list BoundingBox) :
  forall flags,
    loop flags (boxes1 ++ boxes2) =
    obind (loop flags boxes1) (fun flags' => loop flags' boxes2).
Proof.
  induction boxes1 as [|phone_box rest IH]; intros flags; [reflexivity|].
  unfold loop. simpl. fold loop.
  destruct (check_phone near_left near_right in_front keypoints flags phone_box);
    cbn [obind]; [apply IH | reflexivity].
Qed.

End OrchestrationFacts.

(** C2. For each phone box, in list order, the loop calls the left-ear
    predicate first; when it returns true the box marks left-ear and the
    outcome is the same whatever the other two predicates are, raising ones
    included: they are not called.  Otherwise the right-ear predicate
    decides in the same way, and only then front-of-face.  One box sets at
    most one flag, and the flags of a frame are the disjunction of what its
    boxes set. *)
Theorem proximity_loop_priority_and_disjunction
    (near_left near_right in_front : BoundingBox -> list Keypoint -> outcome bool)
    (keypoints : list Keypoint) :
  (forall flags phone_box,
      near_left phone_box keypoints = Returns true ->
      forall other_right other_front,
        check_phone near_left other_right other_front keypoints flags phone_box
        = Returns (mkFlags true (flag_right_ear flags) (flag_front_face flags)))
  /\ (forall flags phone_box,
         near_left phone_box keypoints = Returns false ->
         near_right phone_box keypoints = Returns true ->
         forall other_front,
           check_phone near_left near_right other_front keypoints flags phone_box
           = Returns (mkFlags (flag_left_ear flags) true (flag_front_face flags)))
  /\ (forall flags phone_box b,
         near_left phone_box keypoints = Returns false ->
         near_right phone_box keypoints = Returns false ->
         in_front phone_box keypoints = Returns b ->
         check_phone near_left near_right in_front keypoints flags phone_box
         = Returns (mkFlags (flag_left_ear flags) (flag_right_ear flags)
                            (flag_front_face flags || b)))
  /\ (forall phone_box g,
         check_phone near_left near_right in_front keypoints no_flags phone_box
         = Returns g ->
         at_most_one g = true)
  /\ (forall boxes1 boxes2 flags,
         check_phones near_left near_right in_front keypoints flags (boxes1 ++ boxes2)
         = obind (check_phones near_left near_right in_front keypoints flags boxes1)
             (fun flags' =>
                check_phones near_left near_right in_front keypoints flags' boxes2))
  /\ (forall phone_boxes flags f,
         check_phones near_left near_right in_front keypoints flags phone_boxes
         = Returns f ->
         exists per_box,
           Forall2
             (fun phone_box g =>
                check_phone near_left near_right in_front keypoints no_flags phone_box
                = Returns g
                /\ at_most_one g = true)
             phone_boxes per_box
           /\ f = fold_left flags_or per_box flags).
Proof.
  split; [|split; [|split; [|split; [|split]]]].
  - intros flags phone_box Hl other_right other_front.
    unfold check_phone. rewrite Hl. reflexivity.
  - intros flags phone_box Hl Hr other_front.
    unfold check_phone. rewrite Hl. cbn [obind]. rewrite Hr. reflexivity.
  - intros flags phone_box b Hl Hr Hf.
    unfold check_phone. rewrite Hl. cbn [obind]. rewrite Hr. cbn [obind].
    rewrite Hf. cbn [obind]. destruct b; [|rewrite orb_false_r; destruct flags];
      try reflexivity.
    rewrite orb_true_r. reflexivity.
  - intros phone_box g H.
    destruct (check_phone_from_no_flags _ _ _ _ _ _ _ H) as [g' [Hg' [_ Hone]]].
    rewrite H in Hg'. injection Hg' as <-. exact Hone.
  - intros boxes1 boxes2 flags. apply check_phones_app.
  - intros phone_boxes flags f H.
    exact (check_phones_or_combined _ _ _ _ _ _ _ H).
Qed.

Lemma proximity_loop_priority_and_disjunction_witness :
  check_phone (is_phone_near_left_ear sample_pow)
    (fun _ _ => Raises (OtherError "right-ear predicate called"))
    (fun _ _ => Raises (OtherError "front-of-face predicate called"))
    pose_ear_at_phone no_flags sample_box
  = Returns (mkFlags true false false)
  /\ proximity_flags sample_pow pose_ear_at_phone [sample_box]
     = Returns (mkFlags true false false)
  /\ proximity_flags sample_pow pose_face [far_right_box; origin_box; sample_box]
     = Returns (mkFlags false false true).
Proof.
  split; [|split].
  - apply (proj1 (proximity_loop_priority_and_disjunction
                    (is_phone_near_left_ear sample_pow)
                    (is_phone_near_right_ear sample_pow)
                    (is_phone_in_front_of_face sample_pow) pose_ear_at_phone)).
    reflexivity.
  - reflexivity.
  - reflexivity.
Defined.

(** ** The smoothing window *)

Lemma push_window (self : DetectionSmoothing) (d : Detection) :
  window (push self d) =
  if (maxlen (phone_detections self) <? length (window self ++ [d]))%nat
  then tl (window self ++ [d]) else window self ++ [d].
Proof. destruct d. reflexivity. Qed.

Lemma votes_bounds (channel : Detection -> bool) (detections : list Detection) :
  (0 <= votes channel detections <= Z.of_nat (length detections))%Z.
Proof.
  unfold votes. induction detections as [|d ds IH]; [simpl; lia|].
  cbn [filter length]. rewrite Nat2Z.inj_succ.
  destruct (channel d); cbn [map fold_right]; lia.
Qed.

Lemma gt_threshold_five_halves (n : Z) :
  gt_threshold n (inject_Z (Z.of_nat 5) / 2)%Q = (2 <? n)%Z.
Proof.
  unfold gt_threshold, Qle_bool. simpl.
  destruct (n * 2 <=? 5)%Z eqn:E; simpl; symmetry.
  - apply Z.leb_le in E. apply Z.ltb_ge. lia.
  - apply Z.leb_gt in E. apply Z.ltb_lt. lia.
Qed.

(** C7. With capacity 5, a push onto a window that is not full appends,
    and a push onto a full window drops the oldest tuple and appends.
    After five pushes with the phone channel true and one with it false,
    the window is the last five of them and the smoothed phone channel is
    true: 4 votes exceed 5/2. *)
Theorem window_fifo_capacity_five
    (self : DetectionSmoothing) (d1 d2 d3 d4 d5 d6 : Detection) :
  window_size self = 5%nat ->
  maxlen (phone_detections self) = 5%nat ->
  (length (window self) <= 5)%nat ->
  ((length (window self) < 5)%nat -> window (push self d1) = window self ++ [d1])
  /\ ((length (window self) = 5)%nat ->
      window (push self d1) = tl (window self) ++ [d1])
  /\ (phone d1 = true -> phone d2 = true -> phone d3 = true ->
      phone d4 = true -> phone d5 = true -> phone d6 = false ->
      window (fold_left push [d1; d2; d3; d4; d5; d6] self) = [d2; d3; d4; d5; d6]
      /\ votes phone (window (fold_left push [d1; d2; d3; d4; d5; d6] self)) = 4%Z
      /\ Smoothed.phone_detected
           (get_smoothed_result (fold_left push [d1; d2; d3; d4; d5; d6] self)) = true).
Proof.
  intros Hws Hmax Hlen. split; [|split].
  - intros Hlt. rewrite push_window, Hmax.
    replace (5 <? length (window self ++ [d1]))%nat with false; [reflexivity|].
    symmetry. apply Nat.ltb_ge. rewrite length_app. simpl. lia.
  - intros Hfull. rewrite push_window, Hmax.
    replace (5 <? length (window self ++ [d1]))%nat with true.
    + destruct (window self); [discriminate | reflexivity].
    + symmetry. apply Nat.ltb_lt. rewrite length_app. simpl. lia.
  - intros H1 H2 H3 H4 H5 H6.
    assert (Hwin : window (fold_left push [d1; d2; d3; d4; d5; d6] self)
                   = [d2; d3; d4; d5; d6]).
    { destruct self as [ws [ml its] ldt db]. unfold window in *. simpl in *.
      subst ml. destruct d1, d2, d3, d4, d5, d6.
      destruct its as [|a [|b [|c [|d [|e [|f l]]]]]]; simpl in Hlen;
        try lia; reflexivity. }
    split; [exact Hwin|].
    assert (Hvotes : votes phone [d2; d3; d4; d5; d6] = 4%Z).
    { unfold votes. simpl. rewrite H2, H3, H4, H5, H6. reflexivity. }
    split; [rewrite Hwin; exact Hvotes|].
    unfold get_smoothed_result. fold (window (fold_left push [d1; d2; d3; d4; d5; d6] self)).
    rewrite Hwin. cbn [py_not Smoothed.phone_detected].
    replace (window_size (fold_left push [d1; d2; d3; d4; d5; d6] self)) with 5%nat
      by (rewrite <- Hws; reflexivity).
    rewrite gt_threshold_five_halves, Hvotes. reflexivity.
Qed.

Lemma window_fifo_capacity_five_witness :
  window
    (fold_left push
       [mkDetection true true false false 1; mkDetection true false true false 2;
        mkDetection true false false true 3; mkDetection true true false false 4;
        mkDetection true true false false 5; mkDetection false false false false 6]
       smoother)
  = [mkDetection true false true false 2; mkDetection true false false true 3;
     mkDetection true true false false 4; mkDetection true true false false 5;
     mkDetection false false false false 6]
  /\ Smoothed.phone_detected
       (get_smoothed_result
          (fold_left push
             [mkDetection true true false false 1; mkDetection true false true false 2;
              mkDetection true false false true 3; mkDetection true true false false 4;
              mkDetection true true false false 5; mkDetection false false false false 6]
             smoother)) = true.
Proof.
  pose proof (window_fifo_capacity_five smoother
    (mkDetection true true false false 1) (mkDetection true false true false 2)
    (mkDetection true false false true 3) (mkDetection true true false false 4)
    (mkDetection true true false false 5) (mkDetection false false false false 6)
    eq_refl eq_refl (Nat.le_0_l 5)) as [_ [_ H]].
  destruct (H eq_refl eq_refl eq_refl eq_refl eq_refl eq_refl) as [Hwin [_ Hres]].
  split; [exact Hwin | exact Hres].
Defined.

(** C10. With window size 5, a window of at most two tuples reads false
    on all four channels whatever the tuples are: the threshold is half
    the capacity, not half the number of tuples held.  So do the windows
    after the first and the second push onto the initial state. *)
Theorem smoothed_all_false_up_to_two_tuples (self : DetectionSmoothing) :
  (window_size self = 5%nat ->
   (length (window self) <= 2)%nat ->
   get_smoothed_result self = all_false)
  /\ get_smoothed_result smoother = all_false
  /\ (forall d1, get_smoothed_result (push smoother d1) = all_false)
  /\ (forall d1 d2, get_smoothed_result (push (push smoother d1) d2) = all_false).
Proof.
  assert (Main : forall s, window_size s = 5%nat -> (length (window s) <= 2)%nat ->
                           get_smoothed_result s = all_false).
  { intros s Hws Hlen. unfold get_smoothed_result. fold (window s).
    destruct (py_not (window s)); [reflexivity|].
    rewrite Hws, !gt_threshold_five_halves.
    pose proof (votes_bounds phone (window s)).
    pose proof (votes_bounds left_ear (window s)).
    pose proof (votes_bounds right_ear (window s)).
    pose proof (votes_bounds front_face (window s)).
    unfold all_false. f_equal; apply Z.ltb_ge; lia. }
  split; [apply Main|]. split; [reflexivity|]. split.
  - intros d1. apply Main; [reflexivity|]. destruct d1. simpl. lia.
  - intros d1 d2. apply Main; [reflexivity|]. destruct d1, d2. simpl. lia.
Qed.

Lemma smoothed_all_false_up_to_two_tuples_witness :
  get_smoothed_result
    (push (push smoother (mkDetection true true true true 1))
          (mkDetection true true true true 2))
  = all_false.
Proof.
  apply (proj1 (smoothed_all_false_up_to_two_tuples
                  (push (push smoother (mkDetection true true true true 1))
                        (mkDetection true true true true 2))));
    [reflexivity | simpl; lia].
Defined.

(** ** The endpoint *)

Section EndpointFacts.

Variable libm_pow : float -> float -> float.
Variables UploadFile Image : Type.
Variable file_read : UploadFile -> outcome (list Byte.byte).
Variable imdecode : list Byte.byte -> outcome (option Image).
Variable cvtColor : Image -> outcome Image.
Variable detect_objects : Image -> outcome (list BoundingBox).
Variable detect_pose : Image -> outcome (option PoseResult).
Variable str : exn -> string.
Variable round2 : float -> float.
Variables start_time push_time end_time : float.

Let run :=
  detect libm_pow UploadFile Image file_read imdecode cvtColor detect_objects
    detect_pose str round2 start_time push_time end_time.

(** The response of a frame, read from the window state after its push. *)
Let response_of (after : DetectionSmoothing) (phone_boxes : list BoundingBox)
    (pose_result : option PoseResult) : DetectionResult.t :=
  DetectionResult.mk
    (Smoothed.phone_detected (get_smoothed_result after))
    phone_boxes
    (is_not_None pose_result)
    (keypoints_of pose_result)
    (Smoothed.phone_near_left_ear (get_smoothed_result after))
    (Smoothed.phone_near_right_ear (get_smoothed_result after))
    (Smoothed.phone_in_front_of_face (get_smoothed_result after))
    (face_seen (keypoints_of pose_result))
    (round2 ((end_time - start_time) * 1000))
    "mediapipe-cpu".

(** A call whose collaborators return and whose proximity loop returns. *)
Lemma detect_of_frame (file : UploadFile) (self : DetectionSmoothing)
    contents image image_rgb phone_boxes pose_result flags :
  file_read file = Returns contents ->
  imdecode contents = Returns (Some image) ->
  cvtColor image = Returns image_rgb ->
  detect_objects image_rgb = Returns phone_boxes ->
  detect_pose image_rgb = Returns pose_result ->
  frame_flags libm_pow phone_boxes pose_result = Returns flags ->
  run file self =
  (Returns (response_of (push self (frame_tuple phone_boxes flags push_time))
              phone_boxes pose_result),
   push self (frame_tuple phone_boxes flags push_time)).
Proof.
  intros Hread Hdecode Hcvt Hobjects Hpose Hflags.
  unfold run, detect, try_except, detect_body, bind, lift.
  rewrite Hread, Hdecode, Hcvt, Hobjects, Hpose.
  fold (keypoints_of pose_result).
  unfold frame_flags in Hflags.
  unfold response_of, frame_tuple, push, face_seen.
  cbn [phone left_ear right_ear front_face timestamp].
  destruct (keypoints_of pose_result) as [|k ks] eqn:Hk; cbn [py_not].
  - destruct ((0 <? length phone_boxes)%nat && is_not_None pose_result) eqn:Hcond.
    + rewrite Hflags. reflexivity.
    + injection Hflags as <-. reflexivity.
  - change (getitem (k :: ks) 0) with (Returns k).
    destruct ((0 <? length phone_boxes)%nat && is_not_None pose_result) eqn:Hcond.
    + rewrite Hflags. reflexivity.
    + injection Hflags as <-. reflexivity.
Qed.

(** A call whose collaborators return and whose proximity loop raises. *)
Lemma detect_of_raising_frame (file : UploadFile) (self : DetectionSmoothing)
    contents image image_rgb phone_boxes pose_result e :
  file_read file = Returns contents ->
  imdecode contents = Returns (Some image) ->
  cvtColor image = Returns image_rgb ->
  detect_objects image_rgb = Returns phone_boxes ->
  detect_pose image_rgb = Returns pose_result ->
  frame_flags libm_pow phone_boxes pose_result = Raises e ->
  run file self = (Raises (HTTPException 500 ("Detection failed: " ++ str e)), self).
Proof.
  intros Hread Hdecode Hcvt Hobjects Hpose Hflags.
  unfold run, detect, try_except, detect_body, bind, lift, raise.
  rewrite Hread, Hdecode, Hcvt, Hobjects, Hpose.
  fold (keypoints_of pose_result).
  unfold frame_flags in Hflags.
  destruct ((0 <? length phone_boxes)%nat && is_not_None pose_result) eqn:Hcond;
    [|discriminate].
  destruct (keypoints_of pose_result) as [|k ks] eqn:Hk; cbn [py_not].
  - rewrite Hflags. reflexivity.
  - change (getitem (k :: ks) 0) with (Returns k). rewrite Hflags. reflexivity.
Qed.

(** Every call is of one of three kinds. *)
Lemma detect_cases (file : UploadFile) (self : DetectionSmoothing) :
  (exists e,
      run file self
      = (Raises (HTTPException 500 ("Detection failed: " ++ str e)), self))
  \/ (exists contents image image_rgb phone_boxes pose_result flags,
         file_read file = Returns contents
         /\ imdecode contents = Returns (Some image)
         /\ cvtColor image = Returns image_rgb
         /\ detect_objects image_rgb = Returns phone_boxes
         /\ detect_pose image_rgb = Returns pose_result
         /\ frame_flags libm_pow phone_boxes pose_result = Returns flags).
Proof.
  destruct (file_read file) as [contents|e] eqn:Hread.
  2:{ left. exists e. unfold run, detect, try_except, detect_body, bind, lift, raise.
      rewrite Hread. reflexivity. }
  destruct (imdecode contents) as [[image|]|e] eqn:Hdecode.
  2:{ left. exists (HTTPException 400 "Invalid image format").
      unfold run, detect, try_except, detect_body, bind, lift, raise.
      rewrite Hread, Hdecode. reflexivity. }
  2:{ left. exists e. unfold run, detect, try_except, detect_body, bind, lift, raise.
      rewrite Hread, Hdecode. reflexivity. }
  destruct (cvtColor image) as [image_rgb|e] eqn:Hcvt.
  2:{ left. exists e. unfold run, detect, try_except, detect_body, bind, lift, raise.
      rewrite Hread, Hdecode, Hcvt. reflexivity. }
  destruct (detect_objects image_rgb) as [phone_boxes|e] eqn:Hobjects.
  2:{ left. exists e. unfold run, detect, try_except, detect_body, bind, lift, raise.
      rewrite Hread, Hdecode, Hcvt, Hobjects. reflexivity. }
  destruct (detect_pose image_rgb) as [pose_result|e] eqn:Hpose.
  2:{ left. exists e. unfold run, detect, try_except, detect_body, bind, lift, raise.
      rewrite Hread, Hdecode, Hcvt, Hobjects, Hpose. reflexivity. }
  destruct (frame_flags libm_pow phone_boxes pose_result) as [flags|e] eqn:Hflags.
  - right. exists contents, image, image_rgb, phone_boxes, pose_result, flags.
    repeat split; assumption.
  - left. exists e.
    apply (detect_of_raising_frame file self _ _ _ _ _ _
             Hread Hdecode Hcvt Hobjects Hpose Hflags).
Qed.

(** C1. When every collaborator returns and the proximity loop returns
    its flags (all false without a phone box or without a pose), the call
    pushes one tuple whose phone channel is the conjunction of a phone box
    being present and one of the tuple's three proximity channels being
    true; those channels are the flags of the loop.  With a phone box and
    no proximity flag the tuple records phone false.  In a window of
    capacity at least one the tuple is the newest item.  When the loop
    raises, the call raises and pushes nothing. *)
Theorem detect_pushes_phone_and_proximity
    (file : UploadFile) (self : DetectionSmoothing)
    contents image image_rgb phone_boxes pose_result :
  file_read file = Returns contents ->
  imdecode contents = Returns (Some image) ->
  cvtColor image = Returns image_rgb ->
  detect_objects image_rgb = Returns phone_boxes ->
  detect_pose image_rgb = Returns pose_result ->
  (forall flags,
      frame_flags libm_pow phone_boxes pose_result = Returns flags ->
      exists pushed,
        snd (run file self) = push self pushed
        /\ (exists response, fst (run file self) = Returns response)
        /\ phone pushed =
           (0 <? length phone_boxes)%nat
           && (left_ear pushed || right_ear pushed || front_face pushed)
        /\ left_ear pushed = flag_left_ear flags
        /\ right_ear pushed = flag_right_ear flags
        /\ front_face pushed = flag_front_face flags
        /\ (phone_boxes <> [] -> flags = no_flags -> phone pushed = false)
        /\ ((1 <= maxlen (phone_detections self))%nat ->
            exists older, window (snd (run file self)) = older ++ [pushed]))
  /\ (forall e,
         frame_flags libm_pow phone_boxes pose_result = Raises e ->
         run file self
         = (Raises (HTTPException 500 ("Detection failed: " ++ str e)), self)).
Proof.
  intros Hread Hdecode Hcvt Hobjects Hpose. split.
  - intros flags Hflags.
    exists (frame_tuple phone_boxes flags push_time).
    rewrite (detect_of_frame file self _ _ _ _ _ _
               Hread Hdecode Hcvt Hobjects Hpose Hflags).
    cbn [fst snd]. unfold frame_tuple at 2 3 4 5 6 7 8.
    cbn [phone left_ear right_ear front_face].
    split; [reflexivity|]. split; [eexists; reflexivity|].
    split; [reflexivity|]. split; [reflexivity|].
    split; [reflexivity|]. split; [reflexivity|]. split.
    + intros _ ->. cbn. apply andb_false_r.
    + intros Hcap. unfold window, push, add_detection, deque_append.
      cbn [phone_detections items].
      destruct (maxlen (phone_detections self) <? _)%nat eqn:Hlt.
      * destruct (items (phone_detections self)) as [|a rest] eqn:E.
        -- apply Nat.ltb_lt in Hlt. simpl in Hlt. lia.
        -- exists rest. destruct (frame_tuple phone_boxes flags push_time).
           reflexivity.
      * eexists. destruct (frame_tuple phone_boxes flags push_time). reflexivity.
  - intros e Hflags.
    apply (detect_of_raising_frame file self _ _ _ _ _ _
             Hread Hdecode Hcvt Hobjects Hpose Hflags).
Qed.

(** C8, as the code has it.  When the upload does not decode, the 400
    raised in the [try] block is caught by its [except Exception] clause:
    the caller gets the generic 500, whose detail carries the text of the
    400, and the window is unchanged. *)
Theorem detect_undecodable_image_reports_500
    (file : UploadFile) (self : DetectionSmoothing) contents :
  file_read file = Returns contents ->
  imdecode contents = Returns None ->
  run file self =
  (Raises (HTTPException 500
             ("Detection failed: "
              ++ str (HTTPException 400 "Invalid image format"))),
   self).
Proof.
  intros Hread Hdecode.
  unfold run, detect, try_except, detect_body, bind, lift, raise.
  rewrite Hread, Hdecode. reflexivity.
Qed.

(** C9. When a step before the push raises, the proximity loop included,
    the call raises to its caller (the generic 500 carrying the text of
    what was raised) and the window state is the one the call started
    from. *)
Theorem detect_error_leaves_window
    (file : UploadFile) (self : DetectionSmoothing) (e : exn) :
  raises_before_push libm_pow UploadFile Image file_read imdecode cvtColor
    detect_objects detect_pose file e ->
  run file self =
  (Raises (HTTPException 500 ("Detection failed: " ++ str e)), self).
Proof.
  intros H.
  destruct H as [e Hread | contents e Hread Hdecode | contents Hread Hdecode
                 | contents image e Hread Hdecode Hcvt
                 | contents image image_rgb e Hread Hdecode Hcvt Hobjects
                 | contents image image_rgb phone_boxes e Hread Hdecode Hcvt Hobjects Hpose
                 | contents image image_rgb phone_box phone_boxes pose e
                     Hread Hdecode Hcvt Hobjects Hpose Hloop];
    try (unfold run, detect, try_except, detect_body, bind, lift, raise).
  - rewrite Hread. reflexivity.
  - rewrite Hread, Hdecode. reflexivity.
  - rewrite Hread, Hdecode. reflexivity.
  - rewrite Hread, Hdecode, Hcvt. reflexivity.
  - rewrite Hread, Hdecode, Hcvt, Hobjects. reflexivity.
  - rewrite Hread, Hdecode, Hcvt, Hobjects, Hpose. reflexivity.
  - rewrite Hread, Hdecode, Hcvt, Hobjects, Hpose.
    cbn [is_not_None length Nat.ltb Nat.leb andb].
    destruct (keypoints pose) as [|k ks] eqn:Hk; cbn [py_not].
    + rewrite Hloop. reflexivity.
    + change (getitem (k :: ks) 0) with (Returns k). rewrite Hloop. reflexivity.
Qed.

End EndpointFacts.

Lemma detect_pushes_phone_and_proximity_witness :
  (exists pushed,
      snd (sample_detect (fun _ => Returns [sample_box])
             (fun _ => Returns (Some (mkPoseResult pose_ear_at_phone 640 480)))
             [Byte.xff] smoother)
      = push smoother pushed
      /\ phone pushed =
         (0 <? length [sample_box])%nat
         && (left_ear pushed || right_ear pushed || front_face pushed))
  /\ snd (sample_detect (fun _ => Returns [sample_box])
            (fun _ => Returns (Some (mkPoseResult pose_ear_at_phone 640 480)))
            [Byte.xff] smoother)
     = push smoother (mkDetection true true false false 0)
  /\ snd (sample_detect (fun _ => Returns [far_right_box])
            (fun _ => Returns (Some (mkPoseResult pose_ear_at_phone 640 480)))
            [Byte.xff] smoother)
     = push smoother (mkDetection false false false false 0).
Proof.
  split; [|split; reflexivity].
  destruct (proj1 (detect_pushes_phone_and_proximity sample_pow
              (list Byte.byte) (list Byte.byte)
              (fun file => Returns file) sample_imdecode (fun image => Returns image)
              (fun _ => Returns [sample_box])
              (fun _ => Returns (Some (mkPoseResult pose_ear_at_phone 640 480)))
              sample_str (fun t => t) 0 0 0
              [Byte.xff] smoother [Byte.xff] [Byte.xff] [Byte.xff] [sample_box]
              (Some (mkPoseResult pose_ear_at_phone 640 480))
              eq_refl eq_refl eq_refl eq_refl eq_refl)
             (mkFlags true false false) eq_refl)
    as [pushed [Hsnd [_ [Hphone _]]]].
  exists pushed. split; [exact Hsnd | exact Hphone].
Defined.

Lemma detect_undecodable_image_reports_500_witness :
  sample_detect (fun _ => Returns []) (fun _ => Returns None)
    [Byte.x00; Byte.x01] smoother
  = (Raises (HTTPException 500 "Detection failed: 400: Invalid image format"),
     smoother).
Proof.
  apply (detect_undecodable_image_reports_500 sample_pow
           (list Byte.byte) (list Byte.byte)
           (fun file => Returns file) sample_imdecode (fun image => Returns image)
           (fun _ => Returns []) (fun _ => Returns None)
           sample_str (fun t => t) 0 0 0
           [Byte.x00; Byte.x01] smoother [Byte.x00; Byte.x01]);
    reflexivity.
Defined.

Lemma detect_error_leaves_window_witness :
  sample_detect (fun _ => Returns [sample_box])
    (fun _ => Raises (OtherError "pose landmarker failed"))
    [Byte.xff] (push smoother (mkDetection true true false false 1))
  = (Raises (HTTPException 500 "Detection failed: pose landmarker failed"),
     push smoother (mkDetection true true false false 1))
  /\ sample_detect (fun _ => Returns [origin_box])
       (fun _ => Returns (Some (mkPoseResult (pose_ear_at_distance 1e200) 640 480)))
       [Byte.xff] (push smoother (mkDetection true true false false 1))
     = (Raises (HTTPException 500
                  "Detection failed: (34, 'Numerical result out of range')"),
        push smoother (mkDetection true true false false 1)).
Proof.
  split.
  - apply (detect_error_leaves_window sample_pow
             (list Byte.byte) (list Byte.byte)
             (fun file => Returns file) sample_imdecode (fun image => Returns image)
             (fun _ => Returns [sample_box])
             (fun _ => Raises (OtherError "pose landmarker failed"))
             sample_str (fun t => t) 0 0 0
             [Byte.xff] (push smoother (mkDetection true true false false 1))
             (OtherError "pose landmarker failed")).
    apply (pose_raises _ _ _ _ _ _ _ _ _ [Byte.xff] [Byte.xff] [Byte.xff] [sample_box]);
      reflexivity.
  - apply (detect_error_leaves_window sample_pow
             (list Byte.byte) (list Byte.byte)
             (fun file => Returns file) sample_imdecode (fun image => Returns image)
             (fun _ => Returns [origin_box])
             (fun _ => Returns (Some (mkPoseResult (pose_ear_at_distance 1e200) 640 480)))
             sample_str (fun t => t) 0 0 0
             [Byte.xff] (push smoother (mkDetection true true false false 1))
             OverflowError).
    apply (proximity_raises _ _ _ _ _ _ _ _ _ [Byte.xff] [Byte.xff] [Byte.xff]
             origin_box [] (mkPoseResult (pose_ear_at_distance 1e200) 640 480));
      reflexivity.
Defined.

(** * Further properties of the code *)

(** ** Geometry *)

Lemma sqrt_not_negative (v : float) : (sqrt v <? 0) = false.
Proof.
  rewrite ltb_spec, sqrt_spec.
  change (Prim2SF 0) with (S754_zero false).
  unfold SF64sqrt, SFsqrt.
  destruct (Prim2SF v) as [s|s| |s m e]; try (destruct s); try reflexivity.
  destruct (SFsqrt_core_binary prec emax (Z.pos m) e) as [[mz ez] lz].
  unfold binary_round_aux.
  destruct (shr_fexp prec emax mz ez lz) as [mrs' e'].
  destruct (shr_fexp prec emax _ e' loc_Exact) as [mrs'' e''].
  destruct (shr_m mrs''); try reflexivity.
  destruct (e'' <=? emax - prec)%Z; reflexivity.
Qed.

Lemma SFabs_binary_round_aux (s : bool) m e l :
  SFabs (binary_round_aux prec emax s m e l) = SFabs (binary_round_aux prec emax false m e l).
Proof.
  unfold binary_round_aux.
  destruct (shr_fexp prec emax m e l) as [mrs' e'].
  destruct (shr_fexp prec emax _ e' loc_Exact) as [mrs'' e''].
  destruct (shr_m mrs''); try reflexivity.
  destruct (e'' <=? emax - prec)%Z; reflexivity.
Qed.

Lemma SFabs_binary_normalize_opp (m e : Z) :
  SFabs (binary_normalize prec emax (- m) e false)
  = SFabs (binary_normalize prec emax m e false).
Proof.
  destruct m as [|p|p]; simpl; [reflexivity| |]; unfold binary_round;
    destruct (shl_align p e _) as [mz ez];
    [apply SFabs_binary_round_aux | symmetry; apply SFabs_binary_round_aux].
Qed.

Lemma SFabs_SFsub_swap (a b : spec_float) :
  SFabs (SFsub prec emax a b) = SFabs (SFsub prec emax b a).
Proof.
  destruct a as [s1|s1| |s1 m1 e1], b as [s2|s2| |s2 m2 e2]; simpl;
    try reflexivity;
    try (destruct s1, s2; reflexivity).
  rewrite (Z.min_comm e2 e1).
  rewrite <- SFabs_binary_normalize_opp. f_equal. f_equal. lia.
Qed.

Lemma Prim2SF_inj (a b : float) : Prim2SF a = Prim2SF b -> a = b.
Proof.
  intros H. rewrite <- (SF2Prim_Prim2SF a), <- (SF2Prim_Prim2SF b), H. reflexivity.
Qed.

Lemma abs_sub_swap (a b : float) : abs (a - b) = abs (b - a).
Proof.
  apply Prim2SF_inj. rewrite !abs_spec, !sub_spec. apply SFabs_SFsub_swap.
Qed.

(** [**] squares the absolute value. *)
Lemma float_pow2_abs (libm_pow : float -> float -> float) (v : float) :
  float_pow2 libm_pow (abs v) = float_pow2 libm_pow v.
Proof.
  pose proof (abs_spec v) as Habs.
  destruct (Prim2SF v) as [s|s| |s m e] eqn:E.
  - destruct s.
    + assert (Hv : v = SF2Prim (S754_zero true))
        by (rewrite <- E; symmetry; apply SF2Prim_Prim2SF).
      subst v. reflexivity.
    + replace (abs v) with v; [reflexivity|].
      apply Prim2SF_inj. rewrite Habs, E. reflexivity.
  - destruct s.
    + assert (Hv : v = SF2Prim (S754_infinity true))
        by (rewrite <- E; symmetry; apply SF2Prim_Prim2SF).
      subst v. reflexivity.
    + replace (abs v) with v; [reflexivity|].
      apply Prim2SF_inj. rewrite Habs, E. reflexivity.
  - replace (abs v) with v; [reflexivity|].
    apply Prim2SF_inj. rewrite Habs, E. reflexivity.
  - destruct s.
    + assert (Hopp : - v = abs v).
      { apply Prim2SF_inj. rewrite opp_spec, Habs, E. reflexivity. }
      assert (Hnan : forall w, Prim2SF w = S754_finite false m e \/
                               Prim2SF w = S754_finite true m e ->
                               is_nan w = false).
      { intros w Hw. unfold is_nan.
        replace (w =? w) with true; [reflexivity|]. symmetry.
        apply eqb_refl_not_nan. destruct Hw as [-> | ->]; reflexivity. }
      assert (Hinf : forall w, Prim2SF (abs w) = S754_finite false m e ->
                               is_infinity w = false).
      { intros w Hw. unfold is_infinity. rewrite eqb_spec, Hw. reflexivity. }
      assert (Hzero : forall w s', Prim2SF w = S754_finite s' m e -> (w =? 0) = false).
      { intros w s' Hw. rewrite eqb_spec, Hw. destruct s'; reflexivity. }
      unfold float_pow2.
      rewrite (Hnan v (or_intror E)), (Hnan (abs v) (or_introl Habs)).
      rewrite (Hinf v Habs).
      rewrite (Hinf (abs v)) by (rewrite abs_spec, Habs; reflexivity).
      rewrite (Hzero v true E), (Hzero (abs v) false Habs).
      replace (v <? 0) with true by (rewrite ltb_spec, E; reflexivity).
      replace (abs v <? 0) with false by (rewrite ltb_spec, Habs; reflexivity).
      rewrite Hopp. reflexivity.
    + replace (abs v) with v; [reflexivity|].
      apply Prim2SF_inj. rewrite Habs, E. reflexivity.
Qed.

Lemma float_pow2_sub_swap (libm_pow : float -> float -> float) (a b : float) :
  float_pow2 libm_pow (a - b) = float_pow2 libm_pow (b - a).
Proof.
  rewrite <- (float_pow2_abs libm_pow (a - b)), <- (float_pow2_abs libm_pow (b - a)).
  rewrite (abs_sub_swap a b). reflexivity.
Qed.

Lemma distance_swap (libm_pow : float -> float -> float) (p q : float * float) :
  distance libm_pow p q = distance libm_pow q p.
Proof.
  unfold distance.
  rewrite (float_pow2_sub_swap libm_pow (fst p)), (float_pow2_sub_swap libm_pow (snd p)).
  reflexivity.
Qed.

Lemma distance_raises (libm_pow : float -> float -> float) (p q : float * float)
    (e : exn) :
  distance libm_pow p q = Raises e -> e = OverflowError.
Proof.
  unfold distance.
  destruct (float_pow2 libm_pow (fst p - fst q)) as [dx2|e1] eqn:E1; cbn [obind].
  - destruct (float_pow2 libm_pow (snd p - snd q)) as [dy2|e2] eqn:E2; cbn [obind];
      [discriminate|].
    intros H. injection H as <-. exact (float_pow2_raises _ _ _ E2).
  - intros H. injection H as <-. exact (float_pow2_raises _ _ _ E1).
Qed.

(** X1. Whatever the platform's [pow] is, the distance of two points does
    not depend on their order: both orders return the same value or both
    raise.  A distance that is returned is never below zero, a distance
    raises nothing but [OverflowError], and a point of finite coordinates
    is at distance 0 from itself. *)
Theorem distance_symmetric_nonnegative
    (libm_pow : float -> float -> float) (p q : float * float) :
  distance libm_pow p q = distance libm_pow q p
  /\ (forall d, distance libm_pow p q = Returns d -> (d <? 0) = false)
  /\ (forall e, distance libm_pow p q = Raises e -> e = OverflowError)
  /\ (is_finite (fst p) = true -> is_finite (snd p) = true ->
      distance libm_pow p p = Returns 0).
Proof.
  split; [apply distance_swap|]. split; [|split; [apply distance_raises|]].
  - unfold distance. intros d.
    destruct (float_pow2 libm_pow (fst p - fst q)); cbn [obind]; [|discriminate].
    destruct (float_pow2 libm_pow (snd p - snd q)); cbn [obind]; [|discriminate].
    intros H. injection H as <-. apply sqrt_not_negative.
  - intros Hx Hy. unfold distance.
    rewrite (sub_self_finite _ Hx), (sub_self_finite _ Hy). reflexivity.
Qed.

Lemma distance_symmetric_nonnegative_witness :
  distance sample_pow (120, 80) (130, 85) = distance sample_pow (130, 85) (120, 80)
  /\ distance sample_pow (120, 80) (120, 80) = Returns 0
  /\ distance sample_pow (1e200, 0) (0, 0) = Raises OverflowError
  /\ distance sample_pow (0, 0) (1e200, 0) = Raises OverflowError.
Proof.
  split; [|split; [|split]].
  - apply (proj1 (distance_symmetric_nonnegative sample_pow (120, 80) (130, 85))).
  - apply (proj2 (proj2 (proj2
             (distance_symmetric_nonnegative sample_pow (120, 80) (0, 0)))));
      reflexivity.
  - reflexivity.
  - rewrite <- (proj1 (distance_symmetric_nonnegative sample_pow (1e200, 0) (0, 0))).
    reflexivity.
Defined.

(** ** What the classifiers require *)

Lemma near_left_ear_cases (libm_pow : float -> float -> float)
    (phone_box : BoundingBox) (keypoints : list Keypoint) :
  ((length keypoints < 16)%nat
   /\ is_phone_near_left_ear libm_pow phone_box keypoints = Returns false)
  \/ ((16 <= length keypoints)%nat
      /\ is_phone_near_left_ear libm_pow phone_box keypoints =
         if visibility (at_index keypoints 7) <? 0.3 then Returns false
         else
           match center_distance libm_pow phone_box (at_index keypoints 7) with
           | Raises e => Raises e
           | Returns d =>
               Returns (if d <? 100 then true
                        else (d <? 140)
                             && wrist_is_raised (at_index keypoints 15)
                                  (at_index keypoints 11))
           end).
Proof.
  destruct (Nat.lt_ge_cases (length keypoints) 16) as [Hlt|Hge].
  - left. split; [exact Hlt|].
    unfold is_phone_near_left_ear. rewrite (guard_fails keypoints 16 Hlt). reflexivity.
  - right. split; [exact Hge | apply near_left_ear_unfold; exact Hge].
Qed.

Lemma near_right_ear_cases (libm_pow : float -> float -> float)
    (phone_box : BoundingBox) (keypoints : list Keypoint) :
  ((length keypoints < 17)%nat
   /\ is_phone_near_right_ear libm_pow phone_box keypoints = Returns false)
  \/ ((17 <= length keypoints)%nat
      /\ is_phone_near_right_ear libm_pow phone_box keypoints =
         if visibility (at_index keypoints 8) <? 0.3 then Returns false
         else
           match center_distance libm_pow phone_box (at_index keypoints 8) with
           | Raises e => Raises e
           | Returns d =>
               Returns (if d <? 100 then true
                        else (d <? 140)
                             && wrist_is_raised (at_index keypoints 16)
                                  (at_index keypoints 12))
           end).
Proof.
  destruct (Nat.lt_ge_cases (length keypoints) 17) as [Hlt|Hge].
  - left. split; [exact Hlt|].
    unfold is_phone_near_right_ear. rewrite (guard_fails keypoints 17 Hlt). reflexivity.
  - right. split; [exact Hge | apply near_right_ear_unfold; exact Hge].
Qed.

Lemma front_of_face_cases (libm_pow : float -> float -> float)
    (phone_box : BoundingBox) (keypoints : list Keypoint) :
  ((length keypoints < 17)%nat
   /\ is_phone_in_front_of_face libm_pow phone_box keypoints = Returns false)
  \/ ((17 <= length keypoints)%nat
      /\ is_phone_in_front_of_face libm_pow phone_box keypoints =
         if visibility (at_index keypoints 0) <? 0.3 then Returns false
         else if py_not (visible_face_points keypoints) then Returns false
         else
           match center_distance libm_pow phone_box (at_index keypoints 0) with
           | Raises e => Raises e
           | Returns d =>
               Returns (within_expanded_region (visible_face_points keypoints) 120
                          (box_center phone_box)
                        && (d <? 200)
                        && ((0.3 <? visibility (at_index keypoints 15))
                            || (0.3 <? visibility (at_index keypoints 16))))
           end).
Proof.
  destruct (Nat.lt_ge_cases (length keypoints) 17) as [Hlt|Hge].
  - left. split; [exact Hlt|].
    unfold is_phone_in_front_of_face. rewrite (guard_fails keypoints 17 Hlt). reflexivity.
  - right. split; [exact Hge | apply front_of_face_unfold; exact Hge].
Qed.

(** The classifiers raise nothing but [OverflowError]. *)
Lemma near_left_ear_raises (libm_pow : float -> float -> float)
    (phone_box : BoundingBox) (keypoints : list Keypoint) (e : exn) :
  is_phone_near_left_ear libm_pow phone_box keypoints = Raises e -> e = OverflowError.
Proof.
  destruct (near_left_ear_cases libm_pow phone_box keypoints) as [[_ ->]|[_ ->]];
    [discriminate|].
  destruct (visibility (at_index keypoints 7) <? 0.3); [discriminate|].
  destruct (center_distance libm_pow phone_box (at_index keypoints 7)) eqn:E;
    [discriminate|].
  intros H. injection H as <-. exact (center_distance_raises _ _ _ _ E).
Qed.

Lemma near_right_ear_raises (libm_pow : float -> float -> float)
    (phone_box : BoundingBox) (keypoints : list Keypoint) (e : exn) :
  is_phone_near_right_ear libm_pow phone_box keypoints = Raises e -> e = OverflowError.
Proof.
  destruct (near_right_ear_cases libm_pow phone_box keypoints) as [[_ ->]|[_ ->]];
    [discriminate|].
  destruct (visibility (at_index keypoints 8) <? 0.3); [discriminate|].
  destruct (center_distance libm_pow phone_box (at_index keypoints 8)) eqn:E;
    [discriminate|].
  intros H. injection H as <-. exact (center_distance_raises _ _ _ _ E).
Qed.

Lemma front_of_face_raises (libm_pow : float -> float -> float)
    (phone_box : BoundingBox) (keypoints : list Keypoint) (e : exn) :
  is_phone_in_front_of_face libm_pow phone_box keypoints = Raises e -> e = OverflowError.
Proof.
  destruct (front_of_face_cases libm_pow phone_box keypoints) as [[_ ->]|[_ ->]];
    [discriminate|].
  destruct (visibility (at_index keypoints 0) <? 0.3); [discriminate|].
  destruct (py_not (visible_face_points keypoints)); [discriminate|].
  destruct (center_distance libm_pow phone_box (at_index keypoints 0)) eqn:E;
    [discriminate|].
  intros H. injection H as <-. exact (center_distance_raises _ _ _ _ E).
Qed.

(** What an ear test that yields true implies of its inputs. *)
Lemma ear_test_true (d : float) (raised : bool) :
  (if d <? 100 then true else (d <? 140) && raised) = true ->
  (d <? 140) = true /\ ((d <? 100) = true \/ raised = true).
Proof.
  destruct (d <? 100) eqn:Hclose.
  - intros _. split; [|left; reflexivity].
    apply (ltb_trans _ _ _ Hclose). reflexivity.
  - intros H. apply andb_true_iff in H. destruct H as [Hd Hr]. auto.
Qed.

Lemma ear_test_far (d : float) (raised : bool) :
  (140 <=? d) = true ->
  (if d <? 100 then true else (d <? 140) && raised) = false.
Proof.
  intros Hd. rewrite (leb_true_ltb_false _ _ Hd).
  destruct (d <? 100) eqn:E; [|reflexivity].
  pose proof (ltb_leb_trans 100 140 d eq_refl Hd) as H1.
  rewrite (ltb_irrefl_pair _ _ H1) in E. discriminate.
Qed.

(** X2. An ear predicate that returns true had at least 16 (left) or 17
    (right) keypoints, an ear visibility not below 0.3, and a computed
    distance from the phone center to the ear that is less than 140 and
    either below 100 or backed by a raised wrist.  With the ear's
    visibility below 0.3 it returns false without computing a distance;
    with a computed distance of at least 140 it returns false whatever the
    wrist is; and when the distance raises past the gates, it raises the
    same [OverflowError]. *)
Theorem near_ear_true_requires
    (libm_pow : float -> float -> float)
    (phone_box : BoundingBox) (keypoints : list Keypoint) :
  (is_phone_near_left_ear libm_pow phone_box keypoints = Returns true ->
   (16 <= length keypoints)%nat
   /\ (visibility (at_index keypoints 7) <? 0.3) = false
   /\ exists d,
        center_distance libm_pow phone_box (at_index keypoints 7) = Returns d
        /\ (d <? 140) = true
        /\ ((d <? 100) = true
            \/ wrist_is_raised (at_index keypoints 15) (at_index keypoints 11) = true))
  /\ (is_phone_near_right_ear libm_pow phone_box keypoints = Returns true ->
      (17 <= length keypoints)%nat
      /\ (visibility (at_index keypoints 8) <? 0.3) = false
      /\ exists d,
           center_distance libm_pow phone_box (at_index keypoints 8) = Returns d
           /\ (d <? 140) = true
           /\ ((d <? 100) = true
               \/ wrist_is_raised (at_index keypoints 16) (at_index keypoints 12)
                  = true))
  /\ ((visibility (at_index keypoints 7) <? 0.3) = true ->
      is_phone_near_left_ear libm_pow phone_box keypoints = Returns false)
  /\ ((visibility (at_index keypoints 8) <? 0.3) = true ->
      is_phone_near_right_ear libm_pow phone_box keypoints = Returns false)
  /\ (forall d,
         center_distance libm_pow phone_box (at_index keypoints 7) = Returns d ->
         (140 <=? d) = true ->
         is_phone_near_left_ear libm_pow phone_box keypoints = Returns false)
  /\ (forall d,
         center_distance libm_pow phone_box (at_index keypoints 8) = Returns d ->
         (140 <=? d) = true ->
         is_phone_near_right_ear libm_pow phone_box keypoints = Returns false)
  /\ ((16 <= length keypoints)%nat ->
      (visibility (at_index keypoints 7) <? 0.3) = false ->
      forall e,
        center_distance libm_pow phone_box (at_index keypoints 7) = Raises e ->
        e = OverflowError
        /\ is_phone_near_left_ear libm_pow phone_box keypoints = Raises OverflowError)
  /\ ((17 <= length keypoints)%nat ->
      (visibility (at_index keypoints 8) <? 0.3) = false ->
      forall e,
        center_distance libm_pow phone_box (at_index keypoints 8) = Raises e ->
        e = OverflowError
        /\ is_phone_near_right_ear libm_pow phone_box keypoints = Raises OverflowError).
Proof.
  split; [|split; [|split; [|split; [|split; [|split; [|split]]]]]].
  - destruct (near_left_ear_cases libm_pow phone_box keypoints) as [[_ ->]|[Hlen ->]];
      [discriminate|].
    destruct (visibility (at_index keypoints 7) <? 0.3); [discriminate|].
    destruct (center_distance libm_pow phone_box (at_index keypoints 7)) as [d|e];
      [|discriminate].
    intros H. injection H as H. split; [exact Hlen|]. split; [reflexivity|].
    exists d. split; [reflexivity | apply ear_test_true; exact H].
  - destruct (near_right_ear_cases libm_pow phone_box keypoints) as [[_ ->]|[Hlen ->]];
      [discriminate|].
    destruct (visibility (at_index keypoints 8) <? 0.3); [discriminate|].
    destruct (center_distance libm_pow phone_box (at_index keypoints 8)) as [d|e];
      [|discriminate].
    intros H. injection H as H. split; [exact Hlen|]. split; [reflexivity|].
    exists d. split; [reflexivity | apply ear_test_true; exact H].
  - destruct (near_left_ear_cases libm_pow phone_box keypoints) as [[_ ->]|[Hlen ->]];
      [reflexivity|].
    intros ->. reflexivity.
  - destruct (near_right_ear_cases libm_pow phone_box keypoints) as [[_ ->]|[Hlen ->]];
      [reflexivity|].
    intros ->. reflexivity.
  - intros d Hdist Hd.
    destruct (near_left_ear_cases libm_pow phone_box keypoints) as [[_ ->]|[Hlen ->]];
      [reflexivity|].
    rewrite Hdist, (ear_test_far _ _ Hd).
    destruct (visibility (at_index keypoints 7) <? 0.3); reflexivity.
  - intros d Hdist Hd.
    destruct (near_right_ear_cases libm_pow phone_box keypoints) as [[_ ->]|[Hlen ->]];
      [reflexivity|].
    rewrite Hdist, (ear_test_far _ _ Hd).
    destruct (visibility (at_index keypoints 8) <? 0.3); reflexivity.
  - intros Hlen Hvis e He.
    pose proof (center_distance_raises _ _ _ _ He) as ->.
    split; [reflexivity|].
    rewrite (near_left_ear_unfold _ _ _ Hlen), Hvis, He. reflexivity.
  - intros Hlen Hvis e He.
    pose proof (center_distance_raises _ _ _ _ He) as ->.
    split; [reflexivity|].
    rewrite (near_right_ear_unfold _ _ _ Hlen), Hvis, He. reflexivity.
Qed.

Lemma near_ear_true_requires_witness :
  (exists d,
      center_distance sample_pow sample_box (at_index pose_ear_near 7) = Returns d
      /\ (d <? 140) = true)
  /\ is_phone_near_left_ear sample_pow origin_box (pose_ear_at_distance 269)
     = Returns false
  /\ is_phone_near_right_ear sample_pow origin_box (pose_ear_at_distance 269)
     = Returns false
  /\ is_phone_near_left_ear sample_pow origin_box (pose_ear_at_distance 1e200)
     = Raises OverflowError.
Proof.
  split; [|split; [|split]].
  - destruct (proj1 (near_ear_true_requires sample_pow sample_box pose_ear_near)
                eq_refl) as [_ [_ [d [Hd [Hlt _]]]]].
    exists d. split; assumption.
  - apply (proj1 (proj2 (proj2 (proj2 (proj2
             (near_ear_true_requires sample_pow origin_box
                (pose_ear_at_distance 269)))))) 269); reflexivity.
  - apply (proj1 (proj2 (proj2 (proj2 (proj2 (proj2
             (near_ear_true_requires sample_pow origin_box
                (pose_ear_at_distance 269))))))) 269); reflexivity.
  - apply (proj1 (proj2 (proj2 (proj2 (proj2 (proj2 (proj2
             (near_ear_true_requires sample_pow origin_box
                (pose_ear_at_distance 1e200))))))))
             ltac:(simpl; lia) eq_refl OverflowError eq_refl).
Defined.

(** X3. A front-of-face predicate that returns true had at least 17
    keypoints, a nose visibility not below 0.3, the phone center in the
    grown region of the visible facial keypoints, a computed distance to
    the nose below 200, and a wrist visible above 0.3.  With the nose's
    visibility below 0.3 it returns false without computing a distance;
    with a computed distance of at least 200, or no wrist above 0.3 and a
    distance that is computed, it returns false. *)
Theorem front_of_face_true_requires
    (libm_pow : float -> float -> float)
    (phone_box : BoundingBox) (keypoints : list Keypoint) :
  (is_phone_in_front_of_face libm_pow phone_box keypoints = Returns true ->
   (17 <= length keypoints)%nat
   /\ (visibility (at_index keypoints 0) <? 0.3) = false
   /\ within_expanded_region (visible_face_points keypoints) 120
        (box_center phone_box) = true
   /\ (exists d,
          center_distance libm_pow phone_box (at_index keypoints 0) = Returns d
          /\ (d <? 200) = true)
   /\ ((0.3 <? visibility (at_index keypoints 15)) = true
       \/ (0.3 <? visibility (at_index keypoints 16)) = true))
  /\ ((visibility (at_index keypoints 0) <? 0.3) = true ->
      is_phone_in_front_of_face libm_pow phone_box keypoints = Returns false)
  /\ (forall d,
         center_distance libm_pow phone_box (at_index keypoints 0) = Returns d ->
         (200 <=? d) = true
         \/ ((0.3 <? visibility (at_index keypoints 15)) = false
             /\ (0.3 <? visibility (at_index keypoints 16)) = false) ->
         is_phone_in_front_of_face libm_pow phone_box keypoints = Returns false).
Proof.
  split; [|split].
  - destruct (front_of_face_cases libm_pow phone_box keypoints) as [[_ ->]|[Hlen ->]];
      [discriminate|].
    destruct (visibility (at_index keypoints 0) <? 0.3); [discriminate|].
    destruct (py_not (visible_face_points keypoints)); [discriminate|].
    destruct (center_distance libm_pow phone_box (at_index keypoints 0)) as [d|e];
      [|discriminate].
    intros H. injection H as H.
    apply andb_true_iff in H. destruct H as [H Hw].
    apply andb_true_iff in H. destruct H as [Hr Hd].
    apply orb_true_iff in Hw.
    split; [exact Hlen|]. split; [reflexivity|]. split; [exact Hr|].
    split; [exists d; auto | exact Hw].
  - destruct (front_of_face_cases libm_pow phone_box keypoints) as [[_ ->]|[Hlen ->]];
      [reflexivity|].
    intros ->. reflexivity.
  - intros d Hdist Hwhy.
    destruct (front_of_face_cases libm_pow phone_box keypoints) as [[_ ->]|[Hlen ->]];
      [reflexivity|].
    rewrite Hdist.
    assert (Hfalse :
      within_expanded_region (visible_face_points keypoints) 120 (box_center phone_box)
      && (d <? 200)
      && ((0.3 <? visibility (at_index keypoints 15))
          || (0.3 <? visibility (at_index keypoints 16))) = false).
    { destruct Hwhy as [Hd|[Hl Hr]].
      - rewrite (leb_true_ltb_false _ _ Hd), andb_false_r. reflexivity.
      - rewrite Hl, Hr, andb_false_r. reflexivity. }
    rewrite Hfalse.
    destruct (visibility (at_index keypoints 0) <? 0.3); [reflexivity|].
    destruct (py_not (visible_face_points keypoints)); reflexivity.
Qed.

Lemma front_of_face_true_requires_witness :
  (exists d,
      center_distance sample_pow origin_box (at_index pose_face 0) = Returns d
      /\ (d <? 200) = true)
  /\ is_phone_in_front_of_face sample_pow sample_box pose_ear_at_phone = Returns false.
Proof.
  split.
  - apply (proj1 (front_of_face_true_requires sample_pow origin_box pose_face)).
    reflexivity.
  - apply (proj1 (proj2
             (front_of_face_true_requires sample_pow sample_box pose_ear_at_phone))).
    reflexivity.
Defined.

(** X4. A NaN visibility passes the ear gate, which rejects only a
    visibility below 0.3: with a NaN ear visibility and a computed distance
    from the phone center to the ear below 100, the ear predicates return
    true.  The gates written as "above a threshold" reject a NaN: a wrist
    of NaN visibility is not raised, and a facial keypoint of NaN
    visibility is not among the points of the face region. *)
Theorem nan_visibility_at_the_gates
    (libm_pow : float -> float -> float)
    (phone_box : BoundingBox) (keypoints : list Keypoint) :
  ((16 <= length keypoints)%nat ->
   (visibility (at_index keypoints 7) =? visibility (at_index keypoints 7)) = false ->
   forall d,
     center_distance libm_pow phone_box (at_index keypoints 7) = Returns d ->
     (d <? 100) = true ->
     is_phone_near_left_ear libm_pow phone_box keypoints = Returns true)
  /\ ((17 <= length keypoints)%nat ->
      (visibility (at_index keypoints 8) =? visibility (at_index keypoints 8)) = false ->
      forall d,
        center_distance libm_pow phone_box (at_index keypoints 8) = Returns d ->
        (d <? 100) = true ->
        is_phone_near_right_ear libm_pow phone_box keypoints = Returns true)
  /\ (forall wrist shoulder,
         (visibility wrist =? visibility wrist) = false ->
         wrist_is_raised wrist shoulder = false)
  /\ (forall p,
         (visibility p =? visibility p) = false ->
         ~ In p (visible_face_points keypoints)).
Proof.
  split; [|split; [|split]].
  - intros Hlen Hnan d Hdist Hd. rewrite (near_left_ear_unfold _ _ _ Hlen).
    rewrite (ltb_nan_l _ 0.3 Hnan), Hdist, Hd. reflexivity.
  - intros Hlen Hnan d Hdist Hd. rewrite (near_right_ear_unfold _ _ _ Hlen).
    rewrite (ltb_nan_l _ 0.3 Hnan), Hdist, Hd. reflexivity.
  - intros wrist shoulder Hnan. unfold wrist_is_raised.
    rewrite (ltb_nan_r 0.3 _ Hnan). reflexivity.
  - intros p Hnan Hin. apply visible_face_points_In in Hin.
    destruct Hin as [_ Hvis]. rewrite (ltb_nan_r 0.2 _ Hnan) in Hvis. discriminate.
Qed.

Lemma nan_visibility_at_the_gates_witness :
  is_phone_near_left_ear sample_pow sample_box
    (pose_of hidden hidden hidden (kp 130 85 nan) hidden
             hidden hidden hidden hidden)
  = Returns true.
Proof.
  apply (proj1 (nan_visibility_at_the_gates sample_pow sample_box
                  (pose_of hidden hidden hidden (kp 130 85 nan) hidden
                           hidden hidden hidden hidden))
           ltac:(simpl; lia) eq_refl (sqrt 125) eq_refl eq_refl).
Defined.

(** ** The flags of a frame *)

Lemma flags_or_assoc (a b c : Flags) :
  flags_or (flags_or a b) c = flags_or a (flags_or b c).
Proof. unfold flags_or. simpl. rewrite !orb_assoc. reflexivity. Qed.

Lemma flags_or_no_flags_r (a : Flags) : flags_or a no_flags = a.
Proof. destruct a. unfold flags_or. simpl. rewrite !orb_false_r. reflexivity. Qed.

Lemma flags_or_no_flags_l (a : Flags) : flags_or no_flags a = a.
Proof. destruct a. reflexivity. Qed.

(** One pass of the loop body adds to the flags what the box sets on
    flags that are all false, and raises when the box's step raises. *)
Lemma check_phone_step (libm_pow : float -> float -> float)
    (keypoints : list Keypoint) (flags : Flags) (phone_box : BoundingBox) :
  check_phone (is_phone_near_left_ear libm_pow) (is_phone_near_right_ear libm_pow)
    (is_phone_in_front_of_face libm_pow) keypoints flags phone_box
  = match box_step libm_pow keypoints phone_box with
    | Raises e => Raises e
    | Returns g => Returns (flags_or flags g)
    end.
Proof.
  unfold box_step, check_phone.
  destruct (is_phone_near_left_ear libm_pow phone_box keypoints) as [[|]|e];
    cbn [obind]; [| |reflexivity].
  - destruct flags as [a b c]. unfold flags_or. simpl.
    rewrite orb_true_r, !orb_false_r. reflexivity.
  - destruct (is_phone_near_right_ear libm_pow phone_box keypoints) as [[|]|e];
      cbn [obind]; [| |reflexivity].
    + destruct flags as [a b c]. unfold flags_or. simpl.
      rewrite orb_true_r, !orb_false_r. reflexivity.
    + destruct (is_phone_in_front_of_face libm_pow phone_box keypoints) as [[|]|e];
        cbn [obind]; [| |reflexivity].
      * destruct flags as [a b c]. unfold flags_or. simpl.
        rewrite orb_true_r, !orb_false_r. reflexivity.
      * fold no_flags. rewrite flags_or_no_flags_r. reflexivity.
Qed.

Lemma box_step_raises (libm_pow : float -> float -> float)
    (keypoints : list Keypoint) (phone_box : BoundingBox) (e : exn) :
  box_step libm_pow keypoints phone_box = Raises e -> e = OverflowError.
Proof.
  unfold box_step, check_phone.
  destruct (is_phone_near_left_ear libm_pow phone_box keypoints) as [[|]|e1] eqn:L;
    cbn [obind]; [discriminate| |].
  - destruct (is_phone_near_right_ear libm_pow phone_box keypoints) as [[|]|e2] eqn:R;
      cbn [obind]; [discriminate| |].
    + destruct (is_phone_in_front_of_face libm_pow phone_box keypoints)
        as [[|]|e3] eqn:F; cbn [obind]; [discriminate|discriminate|].
      intros H. injection H as <-. exact (front_of_face_raises _ _ _ _ F).
    + intros H. injection H as <-. exact (near_right_ear_raises _ _ _ _ R).
  - intros H. injection H as <-. exact (near_left_ear_raises _ _ _ _ L).
Qed.

Lemma check_phones_formula (libm_pow : float -> float -> float)
    (keypoints : list Keypoint) (phone_boxes : list BoundingBox) :
  forall flags,
    check_phones (is_phone_near_left_ear libm_pow) (is_phone_near_right_ear libm_pow)
      (is_phone_in_front_of_face libm_pow) keypoints flags phone_boxes
    = if existsb (box_raises libm_pow keypoints) phone_boxes
      then Raises OverflowError
      else Returns (flags_or flags (set_by_some_box libm_pow keypoints phone_boxes)).
Proof.
  induction phone_boxes as [|phone_box rest IH]; intros flags.
  - simpl. unfold set_by_some_box. simpl. fold no_flags.
    rewrite flags_or_no_flags_r. reflexivity.
  - cbn [check_phones existsb]. rewrite check_phone_step.
    destruct (box_step libm_pow keypoints phone_box) as [g|e] eqn:Hstep.
    + assert (Hr : box_raises libm_pow keypoints phone_box = false)
        by (unfold box_raises; rewrite Hstep; reflexivity).
      assert (Hf : box_flags libm_pow keypoints phone_box = g)
        by (unfold box_flags; rewrite Hstep; reflexivity).
      cbn [obind]. rewrite IH, Hr. cbn [orb].
      destruct (existsb (box_raises libm_pow keypoints) rest); [reflexivity|].
      rewrite flags_or_assoc. unfold set_by_some_box. cbn [existsb].
      rewrite Hf. reflexivity.
    + assert (Hr : box_raises libm_pow keypoints phone_box = true)
        by (unfold box_raises; rewrite Hstep; reflexivity).
      cbn [obind]. rewrite Hr, (box_step_raises _ _ _ _ Hstep). reflexivity.
Qed.

Lemma proximity_flags_formula (libm_pow : float -> float -> float)
    (keypoints : list Keypoint) (phone_boxes : list BoundingBox) :
  proximity_flags libm_pow keypoints phone_boxes
  = if existsb (box_raises libm_pow keypoints) phone_boxes
    then Raises OverflowError
    else Returns (set_by_some_box libm_pow keypoints phone_boxes).
Proof.
  unfold proximity_flags. rewrite check_phones_formula, flags_or_no_flags_l.
  reflexivity.
Qed.

Lemma existsb_Permutation {A : Type} (f : A -> bool) (l l' : list A) :
  Permutation l l' -> existsb f l = existsb f l'.
Proof.
  induction 1 as [|a l l' _ IH|a b l|l l' l'' _ IH1 _ IH2]; simpl.
  - reflexivity.
  - rewrite IH. reflexivity.
  - rewrite !orb_assoc, (orb_comm (f b) (f a)). reflexivity.
  - rewrite IH1. exact IH2.
Qed.

Lemma existsb_incl {A : Type} (f : A -> bool) (l l' : list A) :
  incl l l' -> existsb f l = true -> existsb f l' = true.
Proof.
  intros Hincl H. apply existsb_exists in H. destruct H as [a [Hin Ha]].
  apply existsb_exists. exists a. split; [apply Hincl; exact Hin | exact Ha].
Qed.

(** What one box sets, read off the three predicates. *)
Lemma box_flags_left (libm_pow : float -> float -> float)
    (keypoints : list Keypoint) (phone_box : BoundingBox) :
  flag_left_ear (box_flags libm_pow keypoints phone_box) = true <->
  is_phone_near_left_ear libm_pow phone_box keypoints = Returns true.
Proof.
  unfold box_flags, box_step, check_phone.
  destruct (is_phone_near_left_ear libm_pow phone_box keypoints) as [[|]|e1];
    cbn [obind]; [simpl; tauto| |simpl; split; discriminate].
  destruct (is_phone_near_right_ear libm_pow phone_box keypoints) as [[|]|e2];
    cbn [obind]; [simpl; split; discriminate| |simpl; split; discriminate].
  destruct (is_phone_in_front_of_face libm_pow phone_box keypoints) as [[|]|e3];
    simpl; split; discriminate.
Qed.

Lemma box_flags_right (libm_pow : float -> float -> float)
    (keypoints : list Keypoint) (phone_box : BoundingBox) :
  flag_right_ear (box_flags libm_pow keypoints phone_box) = true <->
  is_phone_near_left_ear libm_pow phone_box keypoints = Returns false
  /\ is_phone_near_right_ear libm_pow phone_box keypoints = Returns true.
Proof.
  unfold box_flags, box_step, check_phone.
  destruct (is_phone_near_left_ear libm_pow phone_box keypoints) as [[|]|e1];
    cbn [obind];
    [simpl; split; [discriminate|intros [? _]; discriminate]|
    |simpl; split; [discriminate|intros [? _]; discriminate]].
  destruct (is_phone_near_right_ear libm_pow phone_box keypoints) as [[|]|e2];
    cbn [obind];
    [simpl; tauto| |simpl; split; [discriminate|intros [_ ?]; discriminate]].
  destruct (is_phone_in_front_of_face libm_pow phone_box keypoints) as [[|]|e3];
    simpl; (split; [discriminate|intros [_ ?]; discriminate]).
Qed.

Lemma box_flags_front (libm_pow : float -> float -> float)
    (keypoints : list Keypoint) (phone_box : BoundingBox) :
  flag_front_face (box_flags libm_pow keypoints phone_box) = true <->
  is_phone_near_left_ear libm_pow phone_box keypoints = Returns false
  /\ is_phone_near_right_ear libm_pow phone_box keypoints = Returns false
  /\ is_phone_in_front_of_face libm_pow phone_box keypoints = Returns true.
Proof.
  unfold box_flags, box_step, check_phone.
  destruct (is_phone_near_left_ear libm_pow phone_box keypoints) as [[|]|e1];
    cbn [obind];
    [simpl; split; [discriminate|intros [? _]; discriminate]|
    |simpl; split; [discriminate|intros [? _]; discriminate]].
  destruct (is_phone_near_right_ear libm_pow phone_box keypoints) as [[|]|e2];
    cbn [obind];
    [simpl; split; [discriminate|intros [_ [? _]]; discriminate]|
    |simpl; split; [discriminate|intros [_ [? _]]; discriminate]].
  destruct (is_phone_in_front_of_face libm_pow phone_box keypoints) as [[|]|e3];
    simpl; [tauto| |]; (split; [discriminate|intros [_ [_ ?]]; discriminate]).
Qed.

Lemma box_raises_iff (libm_pow : float -> float -> float)
    (keypoints : list Keypoint) (phone_box : BoundingBox) :
  box_raises libm_pow keypoints phone_box = true <->
  is_phone_near_left_ear libm_pow phone_box keypoints = Raises OverflowError
  \/ (is_phone_near_left_ear libm_pow phone_box keypoints = Returns false
      /\ is_phone_near_right_ear libm_pow phone_box keypoints = Raises OverflowError)
  \/ (is_phone_near_left_ear libm_pow phone_box keypoints = Returns false
      /\ is_phone_near_right_ear libm_pow phone_box keypoints = Returns false
      /\ is_phone_in_front_of_face libm_pow phone_box keypoints
         = Raises OverflowError).
Proof.
  unfold box_raises, box_step, check_phone.
  destruct (is_phone_near_left_ear libm_pow phone_box keypoints) as [[|]|e1] eqn:L;
    cbn [obind].
  - split; [discriminate|].
    intros [H|[[H _]|[H _]]]; discriminate.
  - destruct (is_phone_near_right_ear libm_pow phone_box keypoints) as [[|]|e2] eqn:R;
      cbn [obind].
    + split; [discriminate|].
      intros [H|[[_ H]|[_ [H _]]]]; discriminate.
    + destruct (is_phone_in_front_of_face libm_pow phone_box keypoints)
        as [[|]|e3] eqn:F; cbn [obind].
      * split; [discriminate|].
        intros [H|[[_ H]|[_ [_ H]]]]; discriminate.
      * split; [discriminate|].
        intros [H|[[_ H]|[_ [_ H]]]]; discriminate.
      * rewrite (front_of_face_raises _ _ _ _ F). split; [|reflexivity].
        intros _. right. right. auto.
    + rewrite (near_right_ear_raises _ _ _ _ R). split; [|reflexivity].
      intros _. right. left. auto.
  - rewrite (near_left_ear_raises _ _ _ _ L). split; [|reflexivity].
    intros _. left. reflexivity.
Qed.

(** X5. The proximity loop raises [OverflowError], and nothing else, when
    for some box a predicate it reaches raises; otherwise it returns the
    flags: left-ear when some box is near the left ear; right-ear when
    some box is near the right ear and not near the left one;
    front-of-face when some box is in front of the face and near neither
    ear. *)
Theorem proximity_flags_by_box
    (libm_pow : float -> float -> float)
    (keypoints : list Keypoint) (phone_boxes : list BoundingBox) :
  proximity_flags libm_pow keypoints phone_boxes
  = (if existsb (box_raises libm_pow keypoints) phone_boxes
     then Raises OverflowError
     else Returns
            (mkFlags
               (existsb (fun b => flag_left_ear (box_flags libm_pow keypoints b))
                  phone_boxes)
               (existsb (fun b => flag_right_ear (box_flags libm_pow keypoints b))
                  phone_boxes)
               (existsb (fun b => flag_front_face (box_flags libm_pow keypoints b))
                  phone_boxes)))
  /\ (forall phone_box,
         box_raises libm_pow keypoints phone_box = true <->
         is_phone_near_left_ear libm_pow phone_box keypoints = Raises OverflowError
         \/ (is_phone_near_left_ear libm_pow phone_box keypoints = Returns false
             /\ is_phone_near_right_ear libm_pow phone_box keypoints
                = Raises OverflowError)
         \/ (is_phone_near_left_ear libm_pow phone_box keypoints = Returns false
             /\ is_phone_near_right_ear libm_pow phone_box keypoints = Returns false
             /\ is_phone_in_front_of_face libm_pow phone_box keypoints
                = Raises OverflowError))
  /\ (forall phone_box,
         flag_left_ear (box_flags libm_pow keypoints phone_box) = true <->
         is_phone_near_left_ear libm_pow phone_box keypoints = Returns true)
  /\ (forall phone_box,
         flag_right_ear (box_flags libm_pow keypoints phone_box) = true <->
         is_phone_near_left_ear libm_pow phone_box keypoints = Returns false
         /\ is_phone_near_right_ear libm_pow phone_box keypoints = Returns true)
  /\ (forall phone_box,
         flag_front_face (box_flags libm_pow keypoints phone_box) = true <->
         is_phone_near_left_ear libm_pow phone_box keypoints = Returns false
         /\ is_phone_near_right_ear libm_pow phone_box keypoints = Returns false
         /\ is_phone_in_front_of_face libm_pow phone_box keypoints = Returns true).
Proof.
  split; [|split; [|split; [|split]]].
  - apply proximity_flags_formula.
  - intros phone_box. apply box_raises_iff.
  - intros phone_box. apply box_flags_left.
  - intros phone_box. apply box_flags_right.
  - intros phone_box. apply box_flags_front.
Qed.

(** X6. The flags of a frame do not depend on the order of its phone
    boxes, and a frame with more boxes has every flag the smaller frame
    has. *)
Theorem proximity_flags_order_free
    (libm_pow : float -> float -> float)
    (keypoints : list Keypoint) (phone_boxes phone_boxes' : list BoundingBox) :
  (Permutation phone_boxes phone_boxes' ->
   proximity_flags libm_pow keypoints phone_boxes
   = proximity_flags libm_pow keypoints phone_boxes')
  /\ (incl phone_boxes phone_boxes' ->
      forall f f',
        proximity_flags libm_pow keypoints phone_boxes = Returns f ->
        proximity_flags libm_pow keypoints phone_boxes' = Returns f' ->
        (flag_left_ear f = true -> flag_left_ear f' = true)
        /\ (flag_right_ear f = true -> flag_right_ear f' = true)
        /\ (flag_front_face f = true -> flag_front_face f' = true)).
Proof.
  split.
  - intros Hperm.
    rewrite (proximity_flags_formula libm_pow keypoints phone_boxes).
    rewrite (proximity_flags_formula libm_pow keypoints phone_boxes').
    unfold set_by_some_box.
    rewrite (existsb_Permutation (box_raises libm_pow keypoints) _ _ Hperm).
    rewrite (existsb_Permutation
               (fun b => flag_left_ear (box_flags libm_pow keypoints b)) _ _ Hperm).
    rewrite (existsb_Permutation
               (fun b => flag_right_ear (box_flags libm_pow keypoints b)) _ _ Hperm).
    rewrite (existsb_Permutation
               (fun b => flag_front_face (box_flags libm_pow keypoints b)) _ _ Hperm).
    reflexivity.
  - intros Hincl f f'.
    rewrite (proximity_flags_formula libm_pow keypoints phone_boxes).
    rewrite (proximity_flags_formula libm_pow keypoints phone_boxes').
    destruct (existsb (box_raises libm_pow keypoints) phone_boxes); [discriminate|].
    destruct (existsb (box_raises libm_pow keypoints) phone_boxes'); [discriminate|].
    intros Hf Hf'. injection Hf as <-. injection Hf' as <-.
    unfold set_by_some_box. cbn [flag_left_ear flag_right_ear flag_front_face].
    repeat split; apply existsb_incl; exact Hincl.
Qed.

Lemma proximity_flags_order_free_witness :
  proximity_flags sample_pow pose_face [far_right_box; origin_box; sample_box]
  = proximity_flags sample_pow pose_face [sample_box; far_right_box; origin_box].
Proof.
  apply (proj1 (proximity_flags_order_free sample_pow pose_face
                  [far_right_box; origin_box; sample_box]
                  [sample_box; far_right_box; origin_box])).
  apply Permutation_sym.
  apply (Permutation_cons_append [far_right_box; origin_box] sample_box).
Defined.

(** X7. The left-ear predicate needs 16 keypoints and the other two need
    17.  On a sequence of exactly 16 keypoints the right-ear and
    front-of-face predicates return false whatever the keypoints are, the
    left-ear predicate still returns true on a visible ear whose computed
    distance from the phone center is less than 100, and the proximity
    loop, when it returns, sets no flag but left-ear. *)
Theorem sixteen_keypoints_left_ear_only
    (libm_pow : float -> float -> float)
    (phone_box : BoundingBox) (keypoints : list Keypoint) :
  length keypoints = 16%nat ->
  is_phone_near_right_ear libm_pow phone_box keypoints = Returns false
  /\ is_phone_in_front_of_face libm_pow phone_box keypoints = Returns false
  /\ ((0.3 <=? visibility (at_index keypoints 7)) = true ->
      forall d,
        center_distance libm_pow phone_box (at_index keypoints 7) = Returns d ->
        (d <? 100) = true ->
        is_phone_near_left_ear libm_pow phone_box keypoints = Returns true)
  /\ (forall phone_boxes f,
         proximity_flags libm_pow keypoints phone_boxes = Returns f ->
         flag_right_ear f = false /\ flag_front_face f = false).
Proof.
  intros Hlen.
  assert (R : forall b, is_phone_near_right_ear libm_pow b keypoints = Returns false).
  { intros b. unfold is_phone_near_right_ear.
    rewrite (guard_fails keypoints 17) by lia. reflexivity. }
  assert (F : forall b, is_phone_in_front_of_face libm_pow b keypoints = Returns false).
  { intros b. unfold is_phone_in_front_of_face.
    rewrite (guard_fails keypoints 17) by lia. reflexivity. }
  split; [apply R|]. split; [apply F|]. split.
  - intros Hvis d Hdist Hd. rewrite near_left_ear_unfold by lia.
    rewrite (leb_true_ltb_false _ _ Hvis), Hdist, Hd. reflexivity.
  - intros phone_boxes f. rewrite proximity_flags_formula.
    destruct (existsb (box_raises libm_pow keypoints) phone_boxes); [discriminate|].
    intros H. injection H as <-. unfold set_by_some_box.
    cbn [flag_right_ear flag_front_face].
    split.
    + induction phone_boxes as [|b rest IH]; [reflexivity|].
      cbn [existsb]. rewrite IH, orb_false_r.
      destruct (flag_right_ear (box_flags libm_pow keypoints b)) eqn:E;
        [|reflexivity].
      apply box_flags_right in E. destruct E as [_ E]. rewrite R in E. discriminate.
    + induction phone_boxes as [|b rest IH]; [reflexivity|].
      cbn [existsb]. rewrite IH, orb_false_r.
      destruct (flag_front_face (box_flags libm_pow keypoints b)) eqn:E;
        [|reflexivity].
      apply box_flags_front in E. destruct E as [_ [_ E]]. rewrite F in E.
      discriminate.
Qed.

Lemma sixteen_keypoints_left_ear_only_witness :
  is_phone_near_right_ear sample_pow sample_box (firstn 16 pose_ear_at_phone)
  = Returns false
  /\ is_phone_near_left_ear sample_pow sample_box (firstn 16 pose_ear_at_phone)
     = Returns true
  /\ is_phone_near_right_ear sample_pow sample_box (firstn 17 pose_ear_at_phone)
     = Returns true.
Proof.
  pose proof (sixteen_keypoints_left_ear_only sample_pow sample_box
                (firstn 16 pose_ear_at_phone) eq_refl) as [Hr [_ [Hl _]]].
  split; [exact Hr|]. split; [apply (Hl eq_refl 0); reflexivity | reflexivity].
Defined.

(** ** The window over many pushes *)

Lemma lastn_app_lastn {A : Type} (n : nat) (l r : list A) :
  lastn n (lastn n l ++ r) = lastn n (l ++ r).
Proof.
  unfold lastn.
  destruct (Nat.le_gt_cases (length l) n) as [Hle|Hgt].
  - replace (length l - n)%nat with 0%nat by lia. reflexivity.
  - rewrite !length_app, length_skipn.
    replace (length l - (length l - n) + length r - n)%nat with (length r) by lia.
    replace (length l + length r - n)%nat with (length r + (length l - n))%nat by lia.
    rewrite <- skipn_skipn. f_equal.
    rewrite skipn_app.
    replace (length l - n - length l)%nat with 0%nat by lia. reflexivity.
Qed.

Lemma push_window_lastn (self : DetectionSmoothing) (d : Detection) :
  (length (window self) <= maxlen (phone_detections self))%nat ->
  window (push self d) = lastn (maxlen (phone_detections self)) (window self ++ [d]).
Proof.
  intros Hlen. rewrite push_window. unfold lastn.
  rewrite length_app. cbn [length].
  destruct (maxlen (phone_detections self) <? length (window self) + 1)%nat eqn:E.
  - apply Nat.ltb_lt in E.
    replace (length (window self) + 1 - maxlen (phone_detections self))%nat
      with 1%nat by lia.
    reflexivity.
  - apply Nat.ltb_ge in E.
    replace (length (window self) + 1 - maxlen (phone_detections self))%nat
      with 0%nat by lia.
    reflexivity.
Qed.

Lemma length_lastn {A : Type} (n : nat) (l : list A) : (length (lastn n l) <= n)%nat.
Proof. unfold lastn. rewrite length_skipn. lia. Qed.

Lemma push_keeps_configuration (self : DetectionSmoothing) (d : Detection) :
  window_size (push self d) = window_size self
  /\ maxlen (phone_detections (push self d)) = maxlen (phone_detections self)
  /\ last_detection_time (push self d) = last_detection_time self
  /\ debounce_ms (push self d) = debounce_ms self.
Proof. repeat split. Qed.

Lemma pushes_window_lastn (ds : list Detection) :
  forall self,
    (length (window self) <= maxlen (phone_detections self))%nat ->
    window (fold_left push ds self)
    = lastn (maxlen (phone_detections self)) (window self ++ ds)
    /\ maxlen (phone_detections (fold_left push ds self))
       = maxlen (phone_detections self).
Proof.
  induction ds as [|d ds IH]; intros self Hlen.
  - simpl. rewrite app_nil_r. unfold lastn.
    replace (length (window self) - maxlen (phone_detections self))%nat
      with 0%nat by lia.
    split; reflexivity.
  - cbn [fold_left].
    assert (Hlen' : (length (window (push self d))
                     <= maxlen (phone_detections (push self d)))%nat).
    { rewrite (push_window_lastn self d Hlen). apply length_lastn. }
    destruct (IH (push self d) Hlen') as [Hwin Hmax].
    split; [|rewrite Hmax; reflexivity].
    rewrite Hwin. cbn [push add_detection phone_detections deque_append maxlen].
    fold (window self).
    rewrite (push_window_lastn self d Hlen), lastn_app_lastn, <- app_assoc.
    reflexivity.
Qed.

(** X8. After any sequence of pushes onto a window that holds at most
    its capacity, the window is the last [maxlen] tuples of what it held
    followed by what was pushed, in that order, and it holds at most its
    capacity again.  From the initial state it is the last five tuples
    pushed. *)
Theorem window_is_last_pushes (self : DetectionSmoothing) (ds : list Detection) :
  (length (window self) <= maxlen (phone_detections self))%nat ->
  window (fold_left push ds self)
  = lastn (maxlen (phone_detections self)) (window self ++ ds)
  /\ (length (window (fold_left push ds self))
      <= maxlen (phone_detections (fold_left push ds self)))%nat
  /\ window (fold_left push ds smoother) = lastn 5 ds.
Proof.
  intros Hlen. destruct (pushes_window_lastn ds self Hlen) as [Hwin Hmax].
  split; [exact Hwin|]. split.
  - rewrite Hwin, Hmax. apply length_lastn.
  - apply (pushes_window_lastn ds smoother). simpl. lia.
Qed.

Lemma window_is_last_pushes_witness :
  window
    (fold_left push
       [mkDetection true true false false 1; mkDetection false false false false 2;
        mkDetection true false true false 3; mkDetection true false false true 4;
        mkDetection false false false false 5; mkDetection true true false false 6;
        mkDetection true true false false 7]
       smoother)
  = [mkDetection true false true false 3; mkDetection true false false true 4;
     mkDetection false false false false 5; mkDetection true true false false 6;
     mkDetection true true false false 7].
Proof.
  apply (proj2 (proj2 (window_is_last_pushes smoother
    [mkDetection true true false false 1; mkDetection false false false false 2;
     mkDetection true false true false 3; mkDetection true false false true 4;
     mkDetection false false false false 5; mkDetection true true false false 6;
     mkDetection true true false false 7] (Nat.le_0_l 5)))).
Defined.

(** X9. No push changes the window size, the capacity of the deque, the
    last detection time or the debounce interval: after any sequence of
    pushes onto the initial state they are 5, 5, 0 and 300, so the
    debounce fields are never updated. *)
Theorem pushes_keep_configuration (self : DetectionSmoothing) (ds : list Detection) :
  (window_size (fold_left push ds self) = window_size self
   /\ maxlen (phone_detections (fold_left push ds self))
      = maxlen (phone_detections self)
   /\ last_detection_time (fold_left push ds self) = last_detection_time self
   /\ debounce_ms (fold_left push ds self) = debounce_ms self)
  /\ (window_size (fold_left push ds smoother) = 5%nat
      /\ maxlen (phone_detections (fold_left push ds smoother)) = 5%nat
      /\ last_detection_time (fold_left push ds smoother) = 0%Z
      /\ debounce_ms (fold_left push ds smoother) = 300%Z).
Proof.
  assert (G : forall s,
    window_size (fold_left push ds s) = window_size s
    /\ maxlen (phone_detections (fold_left push ds s)) = maxlen (phone_detections s)
    /\ last_detection_time (fold_left push ds s) = last_detection_time s
    /\ debounce_ms (fold_left push ds s) = debounce_ms s).
  { induction ds as [|d ds IH]; intros s; [repeat split|].
    cbn [fold_left]. destruct (IH (push s d)) as [H1 [H2 [H3 H4]]].
    destruct (push_keeps_configuration s d) as [K1 [K2 [K3 K4]]].
    repeat split; congruence. }
  split; [apply G|]. apply (G smoother).
Qed.

(** ** The majority vote *)

Lemma gt_threshold_half (n : Z) (size : nat) :
  gt_threshold n (inject_Z (Z.of_nat size) / 2)%Q = (Z.of_nat size <? 2 * n)%Z.
Proof.
  unfold gt_threshold.
  destruct (Qle_bool (inject_Z n) (inject_Z (Z.of_nat size) / 2)) eqn:E;
    cbn [negb]; symmetry.
  - apply Qle_bool_iff in E. unfold Qle in E. cbn in E.
    apply Z.ltb_ge. lia.
  - apply Z.ltb_lt.
    destruct (Z.lt_ge_cases (Z.of_nat size) (2 * n)) as [Hlt|Hge]; [exact Hlt|].
    assert (Hle : Qle_bool (inject_Z n) (inject_Z (Z.of_nat size) / 2) = true).
    { apply Qle_bool_iff. unfold Qle. cbn. lia. }
    congruence.
Qed.

Lemma smoothed_channels (self : DetectionSmoothing) :
  get_smoothed_result self =
  {| Smoothed.phone_detected :=
       (Z.of_nat (window_size self) <? 2 * votes phone (window self))%Z;
     Smoothed.phone_near_left_ear :=
       (Z.of_nat (window_size self) <? 2 * votes left_ear (window self))%Z;
     Smoothed.phone_near_right_ear :=
       (Z.of_nat (window_size self) <? 2 * votes right_ear (window self))%Z;
     Smoothed.phone_in_front_of_face :=
       (Z.of_nat (window_size self) <? 2 * votes front_face (window self))%Z |}.
Proof.
  unfold get_smoothed_result. fold (window self).
  destruct (window self) as [|d ds] eqn:E.
  - cbn [py_not]. unfold votes. simpl.
    replace (Z.of_nat (window_size self) <? 0)%Z with false; [reflexivity|].
    symmetry. apply Z.ltb_ge. lia.
  - cbn [py_not]. rewrite !gt_threshold_half. reflexivity.
Qed.

(** X10. For every window size and every window, the empty one
    included, a smoothed channel is true exactly when twice its votes
    exceed the window size: a strict majority of the capacity, so that an
    even window size with exactly half the votes reads false. *)
Theorem smoothed_is_strict_majority_of_capacity (self : DetectionSmoothing) :
  (Smoothed.phone_detected (get_smoothed_result self) = true <->
   (Z.of_nat (window_size self) < 2 * votes phone (window self))%Z)
  /\ (Smoothed.phone_near_left_ear (get_smoothed_result self) = true <->
      (Z.of_nat (window_size self) < 2 * votes left_ear (window self))%Z)
  /\ (Smoothed.phone_near_right_ear (get_smoothed_result self) = true <->
      (Z.of_nat (window_size self) < 2 * votes right_ear (window self))%Z)
  /\ (Smoothed.phone_in_front_of_face (get_smoothed_result self) = true <->
      (Z.of_nat (window_size self) < 2 * votes front_face (window self))%Z).
Proof.
  rewrite smoothed_channels. cbn. repeat split; intros H;
    first [apply Z.ltb_lt; exact H | apply Z.ltb_lt in H; exact H].
Qed.

Lemma votes_exclusive (detections : list Detection) :
  Forall (fun d => at_most_one (tuple_flags d) = true) detections ->
  (votes left_ear detections + votes right_ear detections
   + votes front_face detections <= Z.of_nat (length detections))%Z.
Proof.
  unfold votes. induction 1 as [|d ds Hd _ IH]; [simpl; lia|].
  cbn [filter length]. rewrite Nat2Z.inj_succ.
  unfold at_most_one, tuple_flags in Hd. cbn in Hd.
  destruct (left_ear d), (right_ear d), (front_face d);
    try discriminate; cbn [map fold_right]; lia.
Qed.

(** X11. When the window holds at most as many tuples as the window
    size and each tuple has at most one proximity channel true, at most
    one smoothed proximity channel is true. *)
Theorem smoothed_proximity_exclusive (self : DetectionSmoothing) :
  (length (window self) <= window_size self)%nat ->
  Forall (fun d => at_most_one (tuple_flags d) = true) (window self) ->
  at_most_one
    (mkFlags (Smoothed.phone_near_left_ear (get_smoothed_result self))
             (Smoothed.phone_near_right_ear (get_smoothed_result self))
             (Smoothed.phone_in_front_of_face (get_smoothed_result self))) = true.
Proof.
  intros Hlen Hex. pose proof (votes_exclusive _ Hex) as Hsum.
  pose proof (votes_bounds left_ear (window self)).
  pose proof (votes_bounds right_ear (window self)).
  pose proof (votes_bounds front_face (window self)).
  rewrite smoothed_channels. unfold at_most_one.
  cbn [flag_left_ear flag_right_ear flag_front_face Smoothed.phone_near_left_ear
       Smoothed.phone_near_right_ear Smoothed.phone_in_front_of_face].
  destruct (Z.ltb_spec (Z.of_nat (window_size self)) (2 * votes left_ear (window self)));
    destruct (Z.ltb_spec (Z.of_nat (window_size self)) (2 * votes right_ear (window self)));
    destruct (Z.ltb_spec (Z.of_nat (window_size self)) (2 * votes front_face (window self)));
    try reflexivity; lia.
Qed.

Lemma smoothed_proximity_exclusive_witness :
  at_most_one
    (mkFlags
       (Smoothed.phone_near_left_ear
          (get_smoothed_result
             (fold_left push
                [mkDetection true true false false 1; mkDetection true false true false 2;
                 mkDetection true true false false 3; mkDetection true false true false 4;
                 mkDetection true true false false 5] smoother)))
       (Smoothed.phone_near_right_ear
          (get_smoothed_result
             (fold_left push
                [mkDetection true true false false 1; mkDetection true false true false 2;
                 mkDetection true true false false 3; mkDetection true false true false 4;
                 mkDetection true true false false 5] smoother)))
       (Smoothed.phone_in_front_of_face
          (get_smoothed_result
             (fold_left push
                [mkDetection true true false false 1; mkDetection true false true false 2;
                 mkDetection true true false false 3; mkDetection true false true false 4;
                 mkDetection true true false false 5] smoother)))) = true.
Proof.
  apply (smoothed_proximity_exclusive
           (fold_left push
              [mkDetection true true false false 1; mkDetection true false true false 2;
               mkDetection true true false false 3; mkDetection true false true false 4;
               mkDetection true true false false 5] smoother)).
  - simpl. lia.
  - repeat constructor.
Defined.

(** ** The endpoint, call by call *)

Lemma frame_flags_without (libm_pow : float -> float -> float)
    (phone_boxes : list BoundingBox) (pose_result : option PoseResult) :
  phone_boxes = [] \/ pose_result = None ->
  frame_flags libm_pow phone_boxes pose_result = Returns no_flags.
Proof.
  unfold frame_flags. intros [-> | ->]; [reflexivity|].
  rewrite andb_false_r. reflexivity.
Qed.

Lemma frame_tuple_without (phone_boxes : list BoundingBox) (t : float) :
  frame_tuple phone_boxes no_flags t = mkDetection false false false false (t * 1000).
Proof.
  unfold frame_tuple. cbn. rewrite andb_false_r. reflexivity.
Qed.

Lemma frame_tuple_coherent (libm_pow : float -> float -> float)
    (phone_boxes : list BoundingBox) (pose_result : option PoseResult)
    (flags : Flags) (t : float) :
  frame_flags libm_pow phone_boxes pose_result = Returns flags ->
  coherent (frame_tuple phone_boxes flags t) = true.
Proof.
  unfold coherent, frame_tuple, frame_flags. cbn [phone left_ear right_ear front_face].
  destruct (0 <? length phone_boxes)%nat; cbn [andb].
  - intros _. apply eqb_reflx.
  - intros H. injection H as <-. reflexivity.
Qed.

Lemma push_keeps_coherent (self : DetectionSmoothing) (d : Detection) :
  Forall (fun d => coherent d = true) (window self) ->
  coherent d = true ->
  Forall (fun d => coherent d = true) (window (push self d)).
Proof.
  intros Hall Hd. rewrite push_window.
  assert (Happ : Forall (fun d => coherent d = true) (window self ++ [d])).
  { apply Forall_app. split; [exact Hall | constructor; [exact Hd | constructor]]. }
  destruct (maxlen (phone_detections self) <? length (window self ++ [d]))%nat;
    [|exact Happ].
  destruct (window self ++ [d]) as [|a rest]; [constructor|].
  inversion Happ; assumption.
Qed.

Lemma votes_monotone (f g : Detection -> bool) (detections : list Detection) :
  Forall (fun d => f d = true -> g d = true) detections ->
  (votes f detections <= votes g detections)%Z.
Proof.
  unfold votes. induction 1 as [|d ds Hd _ IH]; [simpl; lia|].
  cbn [filter]. destruct (f d) eqn:Ef.
  - rewrite (Hd eq_refl). cbn [map fold_right]. lia.
  - destruct (g d); cbn [map fold_right]; lia.
Qed.

Lemma coherent_votes (detections : list Detection) :
  Forall (fun d => coherent d = true) detections ->
  (votes left_ear detections <= votes phone detections)%Z
  /\ (votes right_ear detections <= votes phone detections)%Z
  /\ (votes front_face detections <= votes phone detections)%Z.
Proof.
  intros Hall.
  repeat split; apply votes_monotone; eapply Forall_impl; try exact Hall;
    intros d Hd Hch; unfold coherent in Hd; apply eqb_prop in Hd;
    rewrite Hd, Hch, ?orb_true_r; reflexivity.
Qed.

Section CallByCall.

Variable libm_pow : float -> float -> float.
Variables UploadFile Image : Type.
Variable file_read : UploadFile -> outcome (list Byte.byte).
Variable imdecode : list Byte.byte -> outcome (option Image).
Variable cvtColor : Image -> outcome Image.
Variable detect_objects : Image -> outcome (list BoundingBox).
Variable detect_pose : Image -> outcome (option PoseResult).
Variable str : exn -> string.
Variable round2 : float -> float.
Variables start_time push_time end_time : float.

Let run :=
  detect libm_pow UploadFile Image file_read imdecode cvtColor detect_objects
    detect_pose str round2 start_time push_time end_time.

Let returning_frame :=
  detect_of_frame libm_pow UploadFile Image file_read imdecode cvtColor detect_objects
    detect_pose str round2 start_time push_time end_time.

Let kinds_of_call :=
  detect_cases libm_pow UploadFile Image file_read imdecode cvtColor detect_objects
    detect_pose str round2 start_time push_time end_time.

(** X12. Whatever the collaborators do, a call either returns a response
    and leaves the window state with exactly one more push, or raises an
    HTTP 500 and leaves the window state as it was.  It raises nothing
    else: no 400, no exception of a collaborator. *)
Theorem detect_pushes_once_or_raises_500
    (file : UploadFile) (self : DetectionSmoothing) :
  (exists response d, run file self = (Returns response, push self d))
  \/ (exists detail, run file self = (Raises (HTTPException 500 detail), self)).
Proof.
  destruct (kinds_of_call file self)
    as [[e He]|[contents [image [image_rgb [phone_boxes [pose_result [flags
         [Hread [Hdecode [Hcvt [Hobjects [Hpose Hflags]]]]]]]]]]]].
  - right. eexists. exact He.
  - left. eexists. eexists.
    apply (returning_frame file self _ _ _ _ _ _
             Hread Hdecode Hcvt Hobjects Hpose Hflags).
Qed.

(** X13. When every collaborator returns and the proximity loop returns
    its flags, the call pushes the tuple of those flags, and the response
    carries the phone boxes and the keypoints of this frame as they were
    detected, whether a pose was found, whether the first keypoint's
    visibility is above 0.2 (false without keypoints), and the four
    smoothed channels read from the window after the push. *)
Theorem detect_response_of_frame (file : UploadFile) (self : DetectionSmoothing)
    contents image image_rgb phone_boxes pose_result :
  file_read file = Returns contents ->
  imdecode contents = Returns (Some image) ->
  cvtColor image = Returns image_rgb ->
  detect_objects image_rgb = Returns phone_boxes ->
  detect_pose image_rgb = Returns pose_result ->
  forall flags,
    frame_flags libm_pow phone_boxes pose_result = Returns flags ->
    exists response,
      run file self
      = (Returns response, push self (frame_tuple phone_boxes flags push_time))
      /\ DetectionResult.phone_boxes response = phone_boxes
      /\ DetectionResult.keypoints response = keypoints_of pose_result
      /\ DetectionResult.pose_detected response = is_not_None pose_result
      /\ DetectionResult.face_detected response = face_seen (keypoints_of pose_result)
      /\ DetectionResult.backend response = "mediapipe-cpu"%string
      /\ Smoothed.mk (DetectionResult.phone_detected response)
           (DetectionResult.phone_near_left_ear response)
           (DetectionResult.phone_near_right_ear response)
           (DetectionResult.phone_in_front_of_face response)
         = get_smoothed_result
             (push self (frame_tuple phone_boxes flags push_time)).
Proof.
  intros Hread Hdecode Hcvt Hobjects Hpose flags Hflags.
  eexists. split;
    [apply (returning_frame file self _ _ _ _ _ _
              Hread Hdecode Hcvt Hobjects Hpose Hflags)|].
  cbn.
  repeat split.
  destruct (get_smoothed_result _). reflexivity.
Qed.

(** X14. A frame with no phone box, or with no pose, pushes a tuple with
    all four channels false, whatever else was detected; without a pose the
    response reports no pose, no keypoints and no face. *)
Theorem detect_without_phone_or_pose (file : UploadFile) (self : DetectionSmoothing)
    contents image image_rgb phone_boxes pose_result :
  file_read file = Returns contents ->
  imdecode contents = Returns (Some image) ->
  cvtColor image = Returns image_rgb ->
  detect_objects image_rgb = Returns phone_boxes ->
  detect_pose image_rgb = Returns pose_result ->
  phone_boxes = [] \/ pose_result = None ->
  snd (run file self)
  = push self (mkDetection false false false false (push_time * 1000))
  /\ (pose_result = None ->
      exists response,
        fst (run file self) = Returns response
        /\ DetectionResult.pose_detected response = false
        /\ DetectionResult.keypoints response = []
        /\ DetectionResult.face_detected response = false).
Proof.
  intros Hread Hdecode Hcvt Hobjects Hpose Hnone. unfold run.
  rewrite (returning_frame file self _ _ _ _ _ _
             Hread Hdecode Hcvt Hobjects Hpose
             (frame_flags_without libm_pow _ _ Hnone)).
  cbn [fst snd]. split.
  - f_equal. apply frame_tuple_without.
  - intros ->. eexists. split; [reflexivity|]. repeat split.
Qed.

(** X15. If every tuple of the window has its phone channel equal to the
    disjunction of its proximity channels, so has every tuple after the
    call, and in the response a proximity channel that reads true comes
    with phone_detected true.  The initial window is such a window. *)
Theorem detect_keeps_phone_with_proximity
    (file : UploadFile) (self : DetectionSmoothing) :
  Forall (fun d => coherent d = true) (window self) ->
  Forall (fun d => coherent d = true) (window (snd (run file self)))
  /\ (forall response,
         fst (run file self) = Returns response ->
         DetectionResult.phone_near_left_ear response = true
         \/ DetectionResult.phone_near_right_ear response = true
         \/ DetectionResult.phone_in_front_of_face response = true ->
         DetectionResult.phone_detected response = true)
  /\ Forall (fun d => coherent d = true) (window smoother).
Proof.
  intros Hall. unfold run. split; [|split; [|constructor]].
  - destruct (kinds_of_call file self)
      as [[e He]|[contents [image [image_rgb [phone_boxes [pose_result [flags
           [Hread [Hdecode [Hcvt [Hobjects [Hpose Hflags]]]]]]]]]]]].
    + rewrite He. exact Hall.
    + rewrite (returning_frame file self _ _ _ _ _ _
                 Hread Hdecode Hcvt Hobjects Hpose Hflags).
      cbn [snd]. apply push_keeps_coherent;
        [exact Hall | exact (frame_tuple_coherent _ _ _ _ _ Hflags)].
  - intros response.
    destruct (kinds_of_call file self)
      as [[e He]|[contents [image [image_rgb [phone_boxes [pose_result [flags
           [Hread [Hdecode [Hcvt [Hobjects [Hpose Hflags]]]]]]]]]]]].
    + rewrite He. discriminate.
    + rewrite (returning_frame file self _ _ _ _ _ _
                 Hread Hdecode Hcvt Hobjects Hpose Hflags).
      cbn [fst]. intros H. injection H as <-.
      set (after := push self (frame_tuple phone_boxes flags push_time)).
      assert (Hafter : Forall (fun d => coherent d = true) (window after))
        by (apply push_keeps_coherent;
            [exact Hall | exact (frame_tuple_coherent _ _ _ _ _ Hflags)]).
      destruct (coherent_votes _ Hafter) as [Hl [Hr Hf]].
      cbn [DetectionResult.phone_near_left_ear DetectionResult.phone_near_right_ear
           DetectionResult.phone_in_front_of_face DetectionResult.phone_detected].
      rewrite smoothed_channels.
      cbn [Smoothed.phone_detected Smoothed.phone_near_left_ear
           Smoothed.phone_near_right_ear Smoothed.phone_in_front_of_face].
      intros [H|[H|H]]; apply Z.ltb_lt in H; apply Z.ltb_lt; lia.
Qed.

End CallByCall.

Lemma detect_response_of_frame_witness :
  exists response,
    fst (sample_detect (fun _ => Returns [sample_box])
           (fun _ => Returns (Some (mkPoseResult pose_ear_at_phone 640 480)))
           [Byte.xff] smoother) = Returns response
    /\ DetectionResult.phone_boxes response = [sample_box]
    /\ DetectionResult.keypoints response = pose_ear_at_phone
    /\ DetectionResult.phone_detected response = false.
Proof.
  destruct (detect_response_of_frame sample_pow
              (list Byte.byte) (list Byte.byte)
              (fun file => Returns file) sample_imdecode (fun image => Returns image)
              (fun _ => Returns [sample_box])
              (fun _ => Returns (Some (mkPoseResult pose_ear_at_phone 640 480)))
              sample_str (fun t => t) 0 0 0
              [Byte.xff] smoother [Byte.xff] [Byte.xff] [Byte.xff] [sample_box]
              (Some (mkPoseResult pose_ear_at_phone 640 480))
              eq_refl eq_refl eq_refl eq_refl eq_refl
              (mkFlags true false false) eq_refl)
    as [response [Hrun [Hboxes [Hkeypoints [_ [_ [_ Hsmoothed]]]]]]].
  exists response. split; [|split; [|split]].
  - unfold sample_detect. rewrite Hrun. reflexivity.
  - exact Hboxes.
  - exact Hkeypoints.
  - vm_compute in Hsmoothed. injection Hsmoothed as H _ _ _. exact H.
Defined.

Lemma detect_without_phone_or_pose_witness :
  snd (sample_detect (fun _ => Returns [sample_box]) (fun _ => Returns None)
         [Byte.xff] smoother)
  = push smoother (mkDetection false false false false 0).
Proof.
  apply (detect_without_phone_or_pose sample_pow
           (list Byte.byte) (list Byte.byte)
           (fun file => Returns file) sample_imdecode (fun image => Returns image)
           (fun _ => Returns [sample_box]) (fun _ => Returns None)
           sample_str (fun t => t) 0 0 0
           [Byte.xff] smoother [Byte.xff] [Byte.xff] [Byte.xff] [sample_box] None
           eq_refl eq_refl eq_refl eq_refl eq_refl (or_intror eq_refl)).
Defined.

Lemma detect_keeps_phone_with_proximity_witness :
  Forall (fun d => coherent d = true)
    (window
       (snd (sample_detect (fun _ => Returns [sample_box])
               (fun _ => Returns (Some (mkPoseResult pose_ear_at_phone 640 480)))
               [Byte.xff] (push smoother (mkDetection true false true false 1))))).
Proof.
  apply (detect_keeps_phone_with_proximity sample_pow
           (list Byte.byte) (list Byte.byte)
           (fun file => Returns file) sample_imdecode (fun image => Returns image)
           (fun _ => Returns [sample_box])
           (fun _ => Returns (Some (mkPoseResult pose_ear_at_phone 640 480)))
           sample_str (fun t => t) 0 0 0
           [Byte.xff] (push smoother (mkDetection true false true false 1))).
  repeat constructor.
Defined.

(** ** The object detector's phones *)

Lemma prefix_iff_app (a b : string) :
  prefix a b = true <-> exists post, b = (a ++ post)%string.
Proof.
  revert b. induction a as [|c a IH]; intros b.
  - split; [intros _; exists b; reflexivity | intros _; destruct b; reflexivity].
  - destruct b as [|d b]; simpl.
    + split; [discriminate | intros [post H]; discriminate].
    + destruct (ascii_dec c d) as [->|Hne].
      * rewrite IH. split; intros [post H]; exists post; congruence.
      * split; [discriminate | intros [post H]; congruence].
Qed.

Lemma str_in_iff_app (needle hay : string) :
  str_in needle hay = true <->
  exists pre post, hay = (pre ++ needle ++ post)%string.
Proof.
  induction hay as [|c hay IH]; cbn [str_in]; rewrite orb_true_iff, prefix_iff_app.
  - split.
    + intros [[post H]|H]; [|discriminate]. exists ""%string, post. exact H.
    + intros [pre [post H]]. left.
      destruct pre; [exists post; exact H | discriminate].
  - rewrite IH. split.
    + intros [[post H]|[pre [post H]]].
      * exists ""%string, post. exact H.
      * exists (String c pre), post. simpl. rewrite H. reflexivity.
    + intros [pre [post H]]. destruct pre as [|d pre].
      * left. exists post. exact H.
      * right. exists pre, post. simpl in H. congruence.
Qed.

Lemma lower_char_idempotent (c : ascii) : lower_char (lower_char c) = lower_char c.
Proof. destruct c as [[] [] [] [] [] [] [] []]; reflexivity. Qed.

Lemma lower_idempotent (s : string) : lower (lower s) = lower s.
Proof.
  induction s as [|c s IH]; [reflexivity|].
  simpl. rewrite lower_char_idempotent, IH. reflexivity.
Qed.

(** X16. A category counts as a phone exactly when its name, with the
    letters A-Z lowered, contains "phone" or contains "cell" somewhere;
    names that differ only in the case of those letters are treated
    alike. *)
Theorem phone_category_by_substring (category : MP.Category) :
  (is_phone_category category = true <->
   exists pre post,
     lower (MP.category_name category) = (pre ++ "phone" ++ post)%string
     \/ lower (MP.category_name category) = (pre ++ "cell" ++ post)%string)
  /\ (forall other,
         lower (MP.category_name other) = lower (MP.category_name category) ->
         is_phone_category other = is_phone_category category)
  /\ is_phone_category
       (MP.mkCategory (lower (MP.category_name category)) (MP.score category))
     = is_phone_category category.
Proof.
  split; [|split].
  - unfold is_phone_category. rewrite orb_true_iff, !str_in_iff_app. split.
    + intros [[pre [post H]]|[pre [post H]]]; exists pre, post; auto.
    + intros [pre [post [H|H]]]; [left | right]; exists pre, post; exact H.
  - intros other H. unfold is_phone_category. rewrite H. reflexivity.
  - unfold is_phone_category. cbn [MP.category_name].
    rewrite lower_idempotent. reflexivity.
Qed.

Lemma scan_categories_entries (bbox : MP.BoundingBox) (categories : list MP.Category)
    (phones : list PhoneDict) :
  scan_categories bbox categories phones
  = phones ++ phone_entries (MP.mkDetection bbox categories).
Proof.
  unfold phone_entries. cbn [MP.categories MP.bounding_box].
  induction categories as [|c rest IH]; cbn [scan_categories find].
  - rewrite app_nil_r. reflexivity.
  - destruct (is_phone_category c); [reflexivity | exact IH].
Qed.

Lemma scan_detections_entries (detections : list MP.Detection) :
  forall phones,
    scan_detections detections phones = phones ++ flat_map phone_entries detections.
Proof.
  induction detections as [|d rest IH]; intros phones; cbn [scan_detections flat_map].
  - rewrite app_nil_r. reflexivity.
  - rewrite IH, scan_categories_entries, <- app_assoc. destruct d. reflexivity.
Qed.

Lemma length_phone_entries (detections : list MP.Detection) :
  (length (flat_map phone_entries detections) <= length detections)%nat.
Proof.
  induction detections as [|d rest IH]; [simpl; lia|].
  cbn [flat_map]. rewrite length_app. unfold phone_entries at 1.
  destruct (find is_phone_category (MP.categories d)); simpl; lia.
Qed.

(** X17. Without an object detector [detect_objects] returns no phone.
    With one, it returns, in the order of the detections, one entry for
    each detection that has a phone category and none for the others; the
    entry has the detection's box and the name and score of the first phone
    category of the detection.  What the model raises, it raises. *)
Theorem detect_objects_first_phone_category
    (Image : Type) (self : MediaPipeDetector Image) (image : Image) :
  (object_detector self = None -> detect_objects self image = Returns [])
  /\ (forall model detections,
         object_detector self = Some model ->
         model image = Returns detections ->
         detect_objects self image = Returns (flat_map phone_entries detections)
         /\ (length (flat_map phone_entries detections) <= length detections)%nat)
  /\ (forall detection entry,
         In entry (phone_entries detection) ->
         exists matched,
           find is_phone_category (MP.categories detection) = Some matched
           /\ In matched (MP.categories detection)
           /\ is_phone_category matched = true
           /\ category entry = MP.category_name matched
           /\ confidence (phone_box_of entry) = MP.score matched
           /\ x_min (phone_box_of entry)
              = float_of_Z (MP.origin_x (MP.bounding_box detection))
           /\ y_min (phone_box_of entry)
              = float_of_Z (MP.origin_y (MP.bounding_box detection))
           /\ width (phone_box_of entry)
              = float_of_Z (MP.width (MP.bounding_box detection))
           /\ height (phone_box_of entry)
              = float_of_Z (MP.height (MP.bounding_box detection)))
  /\ (forall model e,
         object_detector self = Some model ->
         model image = Raises e ->
         detect_objects self image = Raises e).
Proof.
  split; [|split; [|split]].
  - intros Hnone. unfold detect_objects. rewrite Hnone. reflexivity.
  - intros model detections Hmodel Hret. unfold detect_objects.
    rewrite Hmodel, Hret. cbn [obind].
    rewrite scan_detections_entries. split; [reflexivity | apply length_phone_entries].
  - intros detection entry Hin. unfold phone_entries in Hin.
    destruct (find is_phone_category (MP.categories detection)) as [c|] eqn:Hfind;
      [|contradiction].
    destruct Hin as [<-|[]]. exists c.
    destruct (find_some _ _ Hfind) as [Hc Hphone].
    repeat split; assumption.
  - intros model e Hmodel Hraise. unfold detect_objects.
    rewrite Hmodel, Hraise. reflexivity.
Qed.

Lemma detect_objects_first_phone_category_witness :
  detect_objects
    (mkMediaPipeDetector (list Byte.byte) (Some (fun _ => Returns sample_detections)) None)
    [Byte.xff]
  = Returns
      [ mkPhoneDict (mkBoundingBox 100 50 40 60 0.9) "Cell Phone";
        mkPhoneDict (mkBoundingBox 280 50 40 60 0.6) "cellular telephone" ].
Proof.
  apply (proj1 (proj2 (detect_objects_first_phone_category (list Byte.byte)
    (mkMediaPipeDetector (list Byte.byte) (Some (fun _ => Returns sample_detections)) None)
    [Byte.xff])) (fun _ => Returns sample_detections) sample_detections eq_refl eq_refl).
Defined.

(** ** The pose landmarker's keypoints *)

Lemma extract_keypoints_from (width height : Z) (landmarks : list MP.Landmark) :
  forall idx keypoints,
    extract_keypoints width height idx landmarks keypoints
    = keypoints ++ keypoints_from width height idx landmarks.
Proof.
  induction landmarks as [|landmark rest IH]; intros idx keypoints;
    cbn [extract_keypoints keypoints_from].
  - rewrite app_nil_r. reflexivity.
  - rewrite IH, <- app_assoc. reflexivity.
Qed.

Lemma length_keypoints_from (width height : Z) (landmarks : list MP.Landmark) :
  forall idx, length (keypoints_from width height idx landmarks) = length landmarks.
Proof.
  induction landmarks as [|landmark rest IH]; intros idx; simpl;
    [reflexivity | rewrite IH; reflexivity].
Qed.

Lemma nth_error_keypoints_from (width height : Z) (landmarks : list MP.Landmark) :
  forall idx i landmark,
    nth_error landmarks i = Some landmark ->
    nth_error (keypoints_from width height idx landmarks) i
    = Some (keypoint_of width height (idx + i) landmark).
Proof.
  induction landmarks as [|first rest IH]; intros idx i landmark H.
  - destruct i; discriminate.
  - destruct i as [|i]; simpl in *.
    + injection H as <-. rewrite Nat.add_0_r. reflexivity.
    + rewrite (IH (S idx) i landmark H). f_equal. f_equal. lia.
Qed.

Lemma detect_pose_of_landmarks (Image : Type) (shape : Image -> Z * Z)
    (self : MediaPipeDetector Image) (image : Image) model landmarks others :
  pose_landmarker self = Some model ->
  model image = Returns (landmarks :: others) ->
  detect_pose shape self image
  = Returns (Some {| keypoints :=
                       keypoints_from (snd (shape image)) (fst (shape image)) 0 landmarks;
                     image_width := snd (shape image);
                     image_height := fst (shape image) |}).
Proof.
  intros Hmodel Hret. unfold detect_pose. rewrite Hmodel, Hret. cbn [obind].
  destruct (shape image) as [height width]. cbn [fst snd].
  rewrite extract_keypoints_from. reflexivity.
Qed.

(** X18. Without a pose landmarker, or when the model finds no pose,
    [detect_pose] returns no pose.  Otherwise it returns the keypoints of
    the first pose only: as many as that pose has landmarks, the i-th one
    with the landmark's x scaled by the image width, its y scaled by the
    image height, its z and visibility unchanged, and the name of position
    i.  What the model raises, it raises. *)
Theorem detect_pose_first_pose_keypoints
    (Image : Type) (shape : Image -> Z * Z)
    (self : MediaPipeDetector Image) (image : Image) :
  (pose_landmarker self = None -> detect_pose shape self image = Returns None)
  /\ (forall model,
         pose_landmarker self = Some model ->
         model image = Returns [] ->
         detect_pose shape self image = Returns None)
  /\ (forall model landmarks others,
         pose_landmarker self = Some model ->
         model image = Returns (landmarks :: others) ->
         exists pose,
           detect_pose shape self image = Returns (Some pose)
           /\ length (keypoints pose) = length landmarks
           /\ image_height pose = fst (shape image)
           /\ image_width pose = snd (shape image)
           /\ (forall i landmark,
                  nth_error landmarks i = Some landmark ->
                  nth_error (keypoints pose) i
                  = Some {| x := MP.x landmark * float_of_Z (snd (shape image));
                            y := MP.y landmark * float_of_Z (fst (shape image));
                            z := MP.z landmark;
                            visibility := MP.visibility landmark;
                            name := landmark_name i |}))
  /\ (forall model e,
         pose_landmarker self = Some model ->
         model image = Raises e ->
         detect_pose shape self image = Raises e).
Proof.
  split; [|split; [|split]].
  - intros Hnone. unfold detect_pose. rewrite Hnone. reflexivity.
  - intros model Hmodel Hret. unfold detect_pose. rewrite Hmodel, Hret. reflexivity.
  - intros model landmarks others Hmodel Hret.
    eexists. split; [apply (detect_pose_of_landmarks _ _ _ _ _ _ _ Hmodel Hret)|].
    cbn [keypoints image_height image_width].
    split; [apply length_keypoints_from|]. split; [reflexivity|]. split; [reflexivity|].
    intros i landmark Hi.
    rewrite (nth_error_keypoints_from _ _ _ 0 i landmark Hi). reflexivity.
  - intros model e Hmodel Hraise. unfold detect_pose.
    rewrite Hmodel, Hraise. reflexivity.
Qed.

Lemma detect_pose_first_pose_keypoints_witness :
  exists pose,
    detect_pose sample_shape
      (mkMediaPipeDetector (list Byte.byte) None
         (Some (fun _ => Returns [sample_landmarks; []])))
      [Byte.xff]
    = Returns (Some pose)
    /\ length (keypoints pose) = 35%nat
    /\ nth_error (keypoints pose) 7 = Some (mkKeypoint 320 120 0 0.9 "left_ear")
    /\ nth_error (keypoints pose) 34 = Some (mkKeypoint 320 120 0 0.9 "point_34").
Proof.
  destruct (proj1 (proj2 (proj2 (detect_pose_first_pose_keypoints (list Byte.byte)
              sample_shape
              (mkMediaPipeDetector (list Byte.byte) None
                 (Some (fun _ => Returns [sample_landmarks; []])))
              [Byte.xff])))
              (fun _ => Returns [sample_landmarks; []]) sample_landmarks [[]]
              eq_refl eq_refl)
    as [pose [Hpose [Hlen [_ [_ Hnth]]]]].
  exists pose. split; [exact Hpose|]. split; [exact Hlen|]. split.
  - apply (Hnth 7%nat (MP.mkLandmark 0.5 0.25 0 0.9)). reflexivity.
  - apply (Hnth 34%nat (MP.mkLandmark 0.5 0.25 0 0.9)). reflexivity.
Defined.

Lemma at_index_keypoints_from (width height : Z) (landmarks : list MP.Landmark)
    (i : nat) :
  (i < length landmarks)%nat ->
  exists landmark,
    nth_error landmarks i = Some landmark
    /\ at_index (keypoints_from width height 0 landmarks) i
       = keypoint_of width height i landmark.
Proof.
  intros Hi. destruct (nth_error landmarks i) as [landmark|] eqn:E.
  - exists landmark. split; [reflexivity|].
    unfold at_index. apply nth_error_nth.
    apply (nth_error_keypoints_from width height landmarks 0 i landmark E).
  - apply nth_error_None in E. lia.
Qed.

(** X19. For a first pose of at least 17 landmarks, the keypoints the
    classifiers read by position carry the names the classifiers mean:
    0 nose, 2 left_eye, 5 right_eye, 7 left_ear, 8 right_ear, 11 and 12 the
    shoulders, 15 and 16 the wrists; and the length guards of the three
    classifiers pass. *)
Theorem detect_pose_names_at_classifier_positions
    (Image : Type) (shape : Image -> Z * Z)
    (self : MediaPipeDetector Image) (image : Image) model landmarks others :
  pose_landmarker self = Some model ->
  model image = Returns (landmarks :: others) ->
  (17 <= length landmarks)%nat ->
  exists pose,
    detect_pose shape self image = Returns (Some pose)
    /\ (17 <= length (keypoints pose))%nat
    /\ name (at_index (keypoints pose) 0) = "nose"%string
    /\ name (at_index (keypoints pose) 2) = "left_eye"%string
    /\ name (at_index (keypoints pose) 5) = "right_eye"%string
    /\ name (at_index (keypoints pose) 7) = "left_ear"%string
    /\ name (at_index (keypoints pose) 8) = "right_ear"%string
    /\ name (at_index (keypoints pose) 11) = "left_shoulder"%string
    /\ name (at_index (keypoints pose) 12) = "right_shoulder"%string
    /\ name (at_index (keypoints pose) 15) = "left_wrist"%string
    /\ name (at_index (keypoints pose) 16) = "right_wrist"%string.
Proof.
  intros Hmodel Hret Hlen.
  eexists. split; [apply (detect_pose_of_landmarks _ _ _ _ _ _ _ Hmodel Hret)|].
  cbn [keypoints].
  split; [rewrite length_keypoints_from; exact Hlen|].
  repeat split;
    match goal with
    | |- name (at_index _ ?i) = _ =>
        let l := fresh "l" in
        let H := fresh "H" in
        destruct (at_index_keypoints_from (snd (shape image)) (fst (shape image))
                    landmarks i ltac:(lia)) as [l [_ H]];
        rewrite H; reflexivity
    end.
Qed.

Lemma detect_pose_names_at_classifier_positions_witness :
  exists pose,
    detect_pose sample_shape
      (mkMediaPipeDetector (list Byte.byte) None
         (Some (fun _ => Returns [sample_landmarks])))
      [Byte.xff]
    = Returns (Some pose)
    /\ name (at_index (keypoints pose) 7) = "left_ear"%string
    /\ name (at_index (keypoints pose) 16) = "right_wrist"%string.
Proof.
  destruct (detect_pose_names_at_classifier_positions (list Byte.byte) sample_shape
              (mkMediaPipeDetector (list Byte.byte) None
                 (Some (fun _ => Returns [sample_landmarks])))
              [Byte.xff] (fun _ => Returns [sample_landmarks]) sample_landmarks []
              eq_refl eq_refl)
    as [pose [Hpose [_ [_ [_ [_ [H7 [_ [_ [_ [_ H16]]]]]]]]]]].
  - simpl. lia.
  - exists pose. split; [exact Hpose|]. split; [exact H7 | exact H16].
Defined.

(** ** Missing models *)

(** X20. A model whose creation raises is left out and nothing is raised;
    [/health] reports ready exactly when both models were created.  With a
    detector that is not ready, every call of [/detect] either returns and
    pushes a tuple with all four channels false, or raises the HTTP 500
    and pushes nothing: no frame is recorded as phone use. *)
Theorem not_ready_records_no_phone
    (libm_pow : float -> float -> float)
    (Image : Type) (shape : Image -> Z * Z) (detector : MediaPipeDetector Image)
    (UploadFile : Type)
    (file_read : UploadFile -> outcome (list Byte.byte))
    (imdecode : list Byte.byte -> outcome (option Image))
    (cvtColor : Image -> outcome Image)
    (str : exn -> string) (round2 : float -> float)
    (start_time push_time end_time : float)
    (file : UploadFile) (self : DetectionSmoothing) :
  (forall create_object_detector create_pose_landmarker,
      ready (health (initialize_models Image create_object_detector
                       create_pose_landmarker)) = true
      <-> (exists model, create_object_detector = Returns model)
          /\ (exists model, create_pose_landmarker = Returns model))
  /\ (ready (health detector) = false ->
      (exists response,
          detect_endpoint Image shape libm_pow detector UploadFile file_read imdecode
            cvtColor str round2 start_time push_time end_time file self
          = (Returns response,
             push self (mkDetection false false false false (push_time * 1000))))
      \/ (exists detail,
             detect_endpoint Image shape libm_pow detector UploadFile file_read
               imdecode cvtColor str round2 start_time push_time end_time file self
             = (Raises (HTTPException 500 detail), self))).
Proof.
  split.
  - intros create_object_detector create_pose_landmarker.
    unfold health, initialize_models. cbn [ready object_detector pose_landmarker].
    destruct create_object_detector as [m1|e1], create_pose_landmarker as [m2|e2];
      cbn; split; try discriminate;
      try (intros [[m H1] [m' H2]]; discriminate).
    + intros _. split; eexists; reflexivity.
    + reflexivity.
  - intros Hready. unfold health in Hready. cbn [ready] in Hready.
    unfold detect_endpoint.
    match goal with
    | |- (exists response, detect _ _ _ _ _ _ ?objects ?pose _ _ _ _ _ _ _ = _) \/ _ =>
        destruct (detect_cases libm_pow UploadFile Image file_read imdecode cvtColor
                    objects pose str round2 start_time push_time end_time file self)
          as [[e He]|[contents [image [image_rgb [phone_boxes [pose_result [flags
               [Hread [Hdecode [Hcvt [Hobjects [Hpose Hflags]]]]]]]]]]]]
    end.
    + right. eexists. exact He.
    + left. eexists.
      assert (Hnone : phone_boxes = [] \/ pose_result = None).
      { apply andb_false_iff in Hready. destruct Hready as [Hod|Hpl].
        - left. unfold detect_objects in Hobjects.
          destruct (object_detector detector); [discriminate|].
          cbn in Hobjects. injection Hobjects as <-. reflexivity.
        - right. unfold detect_pose in Hpose.
          destruct (pose_landmarker detector); [discriminate|].
          injection Hpose as <-. reflexivity. }
      rewrite (frame_flags_without libm_pow _ _ Hnone) in Hflags.
      injection Hflags as <-.
      rewrite (detect_of_frame _ _ _ _ _ _ _ _ _ _ _ _ _ file self _ _ _ _ _ _
                 Hread Hdecode Hcvt Hobjects Hpose
                 (frame_flags_without libm_pow _ _ Hnone)).
      f_equal. f_equal. apply frame_tuple_without.
Qed.

Lemma not_ready_records_no_phone_witness :
  snd (detect_endpoint (list Byte.byte) sample_shape sample_pow
         (initialize_models (list Byte.byte)
            (Returns (fun _ => Returns sample_detections))
            (Raises (OtherError "models/pose_landmarker_heavy.task not found")))
         (list Byte.byte)
         (fun file => Returns file) sample_imdecode (fun image => Returns image)
         sample_str (fun t => t) 0 0 0 [Byte.xff] smoother)
  = push smoother (mkDetection false false false false 0).
Proof.
  destruct (proj2 (not_ready_records_no_phone sample_pow (list Byte.byte) sample_shape
              (initialize_models (list Byte.byte)
                 (Returns (fun _ => Returns sample_detections))
                 (Raises (OtherError "models/pose_landmarker_heavy.task not found")))
              (list Byte.byte)
              (fun file => Returns file) sample_imdecode (fun image => Returns image)
              sample_str (fun t => t) 0 0 0 [Byte.xff] smoother) eq_refl)
    as [[response H]|[detail H]].
  - rewrite H. reflexivity.
  - discriminate H.
Defined.

(** ** How fast the smoothed value follows the frames *)

Lemma votes_app (channel : Detection -> bool) (l r : list Detection) :
  votes channel (l ++ r) = (votes channel l + votes channel r)%Z.
Proof.
  unfold votes. induction l as [|d l IH]; [reflexivity|].
  cbn [app filter]. destruct (channel d); cbn [map fold_right]; rewrite ?IH; lia.
Qed.

Lemma window_after_three (self : DetectionSmoothing) (d1 d2 d3 : Detection) :
  maxlen (phone_detections self) = 5%nat ->
  (length (window self) <= 5)%nat ->
  exists older,
    window (fold_left push [d1; d2; d3] self) = older ++ [d1; d2; d3]
    /\ (length older <= 2)%nat.
Proof.
  intros Hmax Hlen.
  destruct (pushes_window_lastn [d1; d2; d3] self) as [Hwin _]; [lia|].
  rewrite Hwin, Hmax. unfold lastn. rewrite length_app. cbn [length].
  rewrite skipn_app.
  replace (length (window self) + 3 - 5 - length (window self))%nat with 0%nat by lia.
  exists (skipn (length (window self) + 3 - 5) (window self)).
  split; [reflexivity|]. rewrite length_skipn. lia.
Qed.

(** X21. With window size and capacity 5, three frames in a row decide
    the smoothed value: after three pushes with the phone channel true the
    smoothed phone channel is true, and after three pushes with it false
    the smoothed phone channel is false, whatever the window held before. *)
Theorem three_frames_decide_phone
    (self : DetectionSmoothing) (d1 d2 d3 : Detection) :
  window_size self = 5%nat ->
  maxlen (phone_detections self) = 5%nat ->
  (length (window self) <= 5)%nat ->
  (phone d1 = true -> phone d2 = true -> phone d3 = true ->
   Smoothed.phone_detected (get_smoothed_result (fold_left push [d1; d2; d3] self))
   = true)
  /\ (phone d1 = false -> phone d2 = false -> phone d3 = false ->
      Smoothed.phone_detected (get_smoothed_result (fold_left push [d1; d2; d3] self))
      = false).
Proof.
  intros Hws Hmax Hlen.
  destruct (window_after_three self d1 d2 d3 Hmax Hlen) as [older [Hwin Holder]].
  pose proof (votes_bounds phone older) as Hb.
  assert (Hsize : window_size (fold_left push [d1; d2; d3] self) = 5%nat)
    by (rewrite <- Hws; reflexivity).
  rewrite smoothed_channels, Hsize, Hwin, votes_app.
  cbn [Smoothed.phone_detected]. unfold votes at 2 4. cbn [filter].
  split; intros H1 H2 H3; rewrite H1, H2, H3; cbn [map fold_right].
  - apply Z.ltb_lt. lia.
  - apply Z.ltb_ge. lia.
Qed.

Lemma three_frames_decide_phone_witness :
  Smoothed.phone_detected
    (get_smoothed_result
       (fold_left push
          [mkDetection true true false false 1; mkDetection true true false false 2;
           mkDetection true true false false 3]
          (push (push smoother (mkDetection false false false false 0))
                (mkDetection false false false false 0))))
  = true.
Proof.
  apply (proj1 (three_frames_decide_phone
                  (push (push smoother (mkDetection false false false false 0))
                        (mkDetection false false false false 0))
                  (mkDetection true true false false 1)
                  (mkDetection true true false false 2)
                  (mkDetection true true false false 3)
                  eq_refl eq_refl ltac:(simpl; lia)));
    reflexivity.
Defined.
